(** * MP4 -> HLS converter: the conversion pipeline of [main.py]

    A shallow embedding of [main.py]: binary discovery, probing, the
    compatibility rule, the per-file worker and the batch loop, the list of
    dropped files and the handlers of the window, together with the
    properties the specification states about the pipeline and further
    properties of the code.

    Modelling conventions.
    - Python [str] values are [string]s (byte strings; the literals of the
      source are written in UTF-8).
    - A finite Python [float] is an exact rational; the three non-finite
      values are kept apart ([PInf], [NInf], [NaN]).  Rounding of binary64
      is not modelled, nor is overflow in float arithmetic; [float] of an
      integer too large for a float raises, as it does in Python.
    - A [pathlib.Path] is the list of its components below the root; [str]
      of a path prints it the POSIX way.
    - The file system is a tree; a directory is the list of its entries.
      Permissions, links and full disks are not modelled: a file-system
      call fails only on what is, or is not, at a path.
    - Everything the program obtains from outside (the platform, [PATH]
      lookup, the two external processes, [json.loads], [float] on text, the
      wall clock, the [_stop] flag written by another thread) is a field of
      the environment record [Env], over which every theorem quantifies.
    - An exception is a value; code that can raise returns a [result].
    - An external process, once asked for, starts and terminates.  A read
      of the encoder's text pipe gives a line or fails on bytes that do
      not decode. *)

From Stdlib Require Import List String Ascii ZArith QArith Bool Arith Lia.
From Stdlib Require Import DecimalString Sorted.
Import ListNotations.
Set Warnings "-register-all".
Local Close Scope Q_scope.
Local Open Scope string_scope.
Local Open Scope list_scope.

(* ------------------------------------------------------------------ *)
(** ** Exceptions and results *)

Inductive exn_class :=
| SkipError            (* class SkipError(Exception), main.py:266 *)
| RuntimeError
| FileNotFoundError
| ValueError
| UnicodeDecodeError   (* a ValueError; raised by a read of a text pipe *)
| TypeError
| AttributeError
| OverflowError
| ZeroDivisionError
| JSONDecodeError
| OSError.             (* NotADirectoryError, FileExistsError, IsADirectoryError *)

(** An exception object: its class and the text [str(e)] gives. *)
Inductive exn := Exn (cls : exn_class) (msg : string).

Definition exn_cls (e : exn) : exn_class := let (c, _) := e in c.
Definition exn_str (e : exn) : string := let (_, m) := e in m.

Definition is_SkipError (e : exn) : bool :=
  match exn_cls e with SkipError => true | _ => false end.

Inductive result (A : Type) :=
| Ok (a : A)
| Raise (e : exn).
Arguments Ok {A} a.
Arguments Raise {A} e.

Definition rbind {A B} (r : result A) (f : A -> result B) : result B :=
  match r with
  | Ok a => f a
  | Raise e => Raise e
  end.

Declare Scope result_scope.
Delimit Scope result_scope with result.
Notation "x <-? r ; k" := (rbind r (fun x => k))
  (at level 61, r at next level, right associativity) : result_scope.

(* ------------------------------------------------------------------ *)
(** ** Strings: the [str] methods the program uses *)

Definition nl : string := String (ascii_of_nat 10) EmptyString.

(** [needle in hay] *)
Fixpoint contains (needle hay : string) : bool :=
  prefix needle hay ||
  match hay with
  | EmptyString => false
  | String _ t => contains needle t
  end.

(** [s.split(sep)] for a non-empty [sep]: [skip] counts the characters of a
    separator just matched that are still to be dropped, [cur] is the piece
    being read. *)
Fixpoint split_from (sep : string) (skip : nat) (cur s : string) : list string :=
  match s with
  | EmptyString => [cur]
  | String c t =>
      match skip with
      | S k => split_from sep k cur t
      | O =>
          if prefix sep s
          then cur :: split_from sep (String.length sep - 1) EmptyString t
          else split_from sep 0 (cur ++ String c EmptyString)%string t
      end
  end.

Definition split (sep s : string) : list string := split_from sep 0 EmptyString s.

(** The characters [str.strip()] removes, among the ASCII ones. *)
Definition is_space (c : ascii) : bool :=
  let n := nat_of_ascii c in
  (((9 <=? n) && (n <=? 13)) || ((28 <=? n) && (n <=? 32)))%nat.

Fixpoint lstrip (s : string) : string :=
  match s with
  | EmptyString => EmptyString
  | String c t => if is_space c then lstrip t else s
  end.

Fixpoint rstrip (s : string) : string :=
  match s with
  | EmptyString => EmptyString
  | String c t =>
      match rstrip t with
      | EmptyString => if is_space c then EmptyString else String c EmptyString
      | t' => String c t'
      end
  end.

Definition strip (s : string) : string := rstrip (lstrip s).

(** [s.rfind(c)] for a single character. *)
Fixpoint rfind (c : ascii) (s : string) : option nat :=
  match s with
  | EmptyString => None
  | String a t =>
      match rfind c t with
      | Some i => Some (S i)
      | None => if Ascii.eqb a c then Some 0 else None
      end
  end.

(** [str(n)] for an [int]. *)
Definition str_of_int (z : Z) : string := NilZero.string_of_int (Z.to_int z).

(* ------------------------------------------------------------------ *)
(** ** Floats *)

Inductive pyfloat :=
| Fin (q : Q)
| PInf
| NInf
| NaN.

Definition Qsign (q : Q) : comparison := (Qnum q ?= 0)%Z.

(** [a > b] *)
Definition fgt (a b : pyfloat) : bool :=
  match a, b with
  | NaN, _ | _, NaN => false
  | PInf, PInf => false
  | PInf, _ => true
  | NInf, _ => false
  | Fin _, PInf => false
  | Fin _, NInf => true
  | Fin x, Fin y => negb (Qle_bool x y)
  end.

(** [max(a, b)]: the second argument replaces the first only when it
    compares greater. *)
Definition py_max (a b : pyfloat) : pyfloat := if fgt b a then b else a.

Definition fadd (a b : pyfloat) : pyfloat :=
  match a, b with
  | NaN, _ | _, NaN => NaN
  | PInf, NInf | NInf, PInf => NaN
  | PInf, _ | _, PInf => PInf
  | NInf, _ | _, NInf => NInf
  | Fin x, Fin y => Fin (x + y)
  end.

(** An infinity times a finite value. *)
Definition inf_times (pos : bool) (q : Q) : pyfloat :=
  match Qsign q with
  | Eq => NaN
  | Gt => if pos then PInf else NInf
  | Lt => if pos then NInf else PInf
  end.

Definition fmul (a b : pyfloat) : pyfloat :=
  match a, b with
  | NaN, _ | _, NaN => NaN
  | Fin x, Fin y => Fin (x * y)
  | PInf, Fin y => inf_times true y
  | NInf, Fin y => inf_times false y
  | Fin x, PInf => inf_times true x
  | Fin x, NInf => inf_times false x
  | PInf, PInf | NInf, NInf => PInf
  | PInf, NInf | NInf, PInf => NInf
  end.

(** [a / b]; Python raises [ZeroDivisionError] on a zero divisor. *)
Definition fdiv (a b : pyfloat) : result pyfloat :=
  match b with
  | NaN => Ok NaN
  | Fin y =>
      match Qsign y with
      | Eq => Raise (Exn ZeroDivisionError "float division by zero")
      | _ =>
          match a with
          | Fin x => Ok (Fin (x / y))
          | PInf => Ok (inf_times true y)
          | NInf => Ok (inf_times false y)
          | NaN => Ok NaN
          end
      end
  | PInf | NInf =>
      match a with
      | Fin _ => Ok (Fin 0%Q)
      | _ => Ok NaN
      end
  end.

(** [int(x)]: truncation towards zero. *)
Definition py_int (x : pyfloat) : result Z :=
  match x with
  | Fin q => Ok (Z.quot (Qnum q) (Zpos (Qden q)))
  | PInf | NInf => Raise (Exn OverflowError "cannot convert float infinity to integer")
  | NaN => Raise (Exn ValueError "cannot convert float NaN to integer")
  end.

Definition of_int (z : Z) : pyfloat := Fin (inject_Z z).

(** The least integer that rounds beyond the largest finite float: halfway
    between [sys.float_info.max] and 2^1024. *)
Definition float_int_limit : Z := (2 ^ 1024 - 2 ^ 970)%Z.

(** [1.0 <= x], the floor the worker puts under a duration. *)
Definition at_least_one (x : pyfloat) : Prop :=
  match x with
  | Fin q => (1 <= q)%Q
  | PInf => True
  | _ => False
  end.

(* ------------------------------------------------------------------ *)
(** ** JSON values, as [json.loads] builds them *)

(** A [JDict] lists the items of the dict, no key twice. *)
Inductive json :=
| JNull
| JBool (b : bool)
| JInt (z : Z)
| JFloat (f : pyfloat)
| JStr (s : string)
| JList (items : list json)
| JDict (items : list (string * json)).

Fixpoint assoc {A} (k : string) (l : list (string * A)) : option A :=
  match l with
  | [] => None
  | (k', v) :: l' => if String.eqb k k' then Some v else assoc k l'
  end.

(** [d.get(k, default)]; only a [dict] has the method. *)
Definition py_get (d : json) (k : string) (default : json) : result json :=
  match d with
  | JDict items =>
      Ok (match assoc k items with Some v => v | None => default end)
  | _ => Raise (Exn AttributeError "object has no attribute 'get'")
  end.

(** [v == s] for a string literal [s]. *)
Definition json_is_str (v : json) (s : string) : bool :=
  match v with
  | JStr t => String.eqb t s
  | _ => false
  end.

(** [v in (s1, ..., sn)] *)
Definition json_in (v : json) (l : list string) : bool :=
  existsb (json_is_str v) l.

Fixpoint chars (s : string) : list json :=
  match s with
  | EmptyString => []
  | String c t => JStr (String c EmptyString) :: chars t
  end.

(** What [for s in v] runs over. *)
Definition py_iter (v : json) : result (list json) :=
  match v with
  | JList items => Ok items
  | JDict items => Ok (map (fun kv => JStr (fst kv)) items)
  | JStr s => Ok (chars s)
  | _ => Raise (Exn TypeError "object is not iterable")
  end.


(* ------------------------------------------------------------------ *)
(** ** Paths and the file system *)

Definition Path := list string.

(** [p.name] *)
Definition name (p : Path) : string := last p EmptyString.

(** [p.stem]: the name up to its last dot, unless that dot is the first or
    the last character. *)
Definition stem (p : Path) : string :=
  let n := name p in
  match rfind "." n with
  | Some i =>
      if ((0 <? i) && (i <? String.length n - 1))%nat then substring 0 i n else n
  | None => n
  end.

(** [str(p)] *)
Definition path_str (p : Path) : string := ("/" ++ String.concat "/" p)%string.

(** [os.path.relpath(p, start)] on normalised absolute paths: drop the
    common prefix, climb out of what is left of [start]. *)
Fixpoint relpath (p start : Path) : Path :=
  match p, start with
  | a :: p', b :: start' =>
      if String.eqb a b then relpath p' start'
      else repeat ".." (List.length start) ++ p
  | [], [] => ["."]
  | _, [] => p
  | [], _ => repeat ".." (List.length start)
  end.

(** What a regular file holds: raw bytes, or a zip archive seen as the list
    of its members (archive name, contents) in the order written. *)
Inductive content :=
| Raw (bytes : string)
| Zip (members : list (Path * content)).

Inductive node :=
| File (c : content)
| Dir (entries : list (string * node)).

Fixpoint remove_key {A} (k : string) (l : list (string * A)) : list (string * A) :=
  match l with
  | [] => []
  | (k', v) :: l' =>
      if String.eqb k k' then remove_key k l' else (k', v) :: remove_key k l'
  end.

(** Replace the entry named [k], or add it at the end. *)
Fixpoint set_key {A} (k : string) (v : A) (l : list (string * A)) : list (string * A) :=
  match l with
  | [] => [(k, v)]
  | (k', v') :: l' =>
      if String.eqb k k' then (k, v) :: l' else (k', v') :: set_key k v l'
  end.

Fixpoint lookup (p : Path) (n : node) : option node :=
  match p with
  | [] => Some n
  | c :: p' =>
      match n with
      | Dir es =>
          match assoc c es with
          | Some child => lookup p' child
          | None => None
          end
      | File _ => None
      end
  end.

(** [p.exists()] *)
Definition exists_at (p : Path) (fs : node) : bool :=
  match lookup p fs with Some _ => true | None => false end.

(** Remove what is at [p], with everything below it. *)
Fixpoint remove_at (p : Path) (n : node) : node :=
  match p, n with
  | [], _ => n
  | [c], Dir es => Dir (remove_key c es)
  | c :: p', Dir es =>
      match assoc c es with
      | Some child => Dir (set_key c (remove_at p' child) es)
      | None => n
      end
  | _, File _ => n
  end.

(** [p.mkdir(parents=True, exist_ok=True)]: fails exactly when a regular
    file is met on the way or at [p]. *)
Fixpoint mkdir_p (p : Path) (n : node) : option node :=
  match n with
  | File _ => None
  | Dir es =>
      match p with
      | [] => Some n
      | c :: p' =>
          match mkdir_p p' (match assoc c es with Some child => child | None => Dir [] end) with
          | Some child' => Some (Dir (set_key c child' es))
          | None => None
          end
      end
  end.

(** Create or overwrite the regular file [p]; its parent must be an
    existing directory and [p] itself must not be one. *)
Fixpoint write_at (p : Path) (c : content) (n : node) : option node :=
  match p, n with
  | [f], Dir es =>
      match assoc f es with
      | Some (Dir _) => None
      | _ => Some (Dir (set_key f (File c) es))
      end
  | d :: p', Dir es =>
      match assoc d es with
      | Some child =>
          match write_at p' c child with
          | Some child' => Some (Dir (set_key d child' es))
          | None => None
          end
      | None => None
      end
  | _, _ => None
  end.

Definition dir_names (es : list (string * node)) : list string :=
  map fst (filter (fun e => match snd e with Dir _ => true | File _ => false end) es).

Definition file_names (es : list (string * node)) : list string :=
  map fst (filter (fun e => match snd e with Dir _ => false | File _ => true end) es).

(** [os.walk(top)], top-down: one triple (dirpath, dirnames, filenames) per
    directory; nothing when [top] is not a directory. *)
Fixpoint walk (top : Path) (n : node) : list (Path * list string * list string) :=
  match n with
  | File _ => []
  | Dir es =>
      (top, dir_names es, file_names es) ::
      (fix below (l : list (string * node)) :=
         match l with
         | [] => []
         | (d, child) :: l' => walk (top ++ [d]) child ++ below l'
         end) es
  end.

(** No directory lists a name twice. *)
Fixpoint wf_node (n : node) : bool :=
  match n with
  | File _ => true
  | Dir es =>
      (fix distinct (l : list (string * node)) :=
         match l with
         | [] => true
         | (k, child) :: l' =>
             negb (existsb (String.eqb k) (map fst l')) && wf_node child && distinct l'
         end) es
  end.

(** A directory that holds regular files only. *)
Definition flat (n : node) : bool :=
  match n with
  | File _ => false
  | Dir es => forallb (fun e => match snd e with File _ => true | Dir _ => false end) es
  end.

(** The regular file at relative path [rel] below [n] holds [c]. *)
Fixpoint file_at (rel : Path) (n : node) (c : content) : Prop :=
  match rel, n with
  | [], File c' => c' = c
  | k :: rel', Dir es => exists child, In (k, child) es /\ file_at rel' child c
  | _, _ => False
  end.

(* ------------------------------------------------------------------ *)
(** ** The world, what the thread lets out, and its monad *)

(** The mutable world of the worker thread: the file system and the number
    of readings of [time.time()] taken so far. *)
Record World := { fs : node; ticks : nat }.

(** What an observer sees, in order: the five Qt signals of [Signals]
    (main.py:135-140) and the two ways an external process is started, each
    with the file system it is started on. *)
Inductive Event :=
| sig_log (msg : string)
| sig_progress (pct : Z)
| sig_file_progress (filename : string) (pct : Z)
| sig_file_done (filename status : string)
| sig_all_done
| ev_run (argv : list string) (before : node)
| ev_popen (argv : list string) (before : node).

Record Out (A : Type) := mkOut { res : result A; world : World; emitted : list Event }.
Arguments mkOut {A}.
Arguments res {A}.
Arguments world {A}.
Arguments emitted {A}.

Definition M (A : Type) := World -> Out A.

Definition ret {A} (a : A) : M A := fun w => mkOut (Ok a) w [].

Definition raise {A} (e : exn) : M A := fun w => mkOut (Raise e) w [].

Definition bind {A B} (m : M A) (f : A -> M B) : M B :=
  fun w =>
    let o := m w in
    match res o with
    | Ok a => let o' := f a (world o) in mkOut (res o') (world o') (emitted o ++ emitted o')
    | Raise e => mkOut (Raise e) (world o) (emitted o)
    end.

(** [try: m  except Exception as e: handler(e)] *)
Definition try_except {A} (m : M A) (handler : exn -> M A) : M A :=
  fun w =>
    let o := m w in
    match res o with
    | Ok a => o
    | Raise e =>
        let o' := handler e (world o) in mkOut (res o') (world o') (emitted o ++ emitted o')
    end.

Definition lift {A} (r : result A) : M A := fun w => mkOut r w [].

Definition emit (e : Event) : M unit := fun w => mkOut (Ok tt) w [e].

Definition get_fs : M node := fun w => mkOut (Ok (fs w)) w [].

Definition set_fs (n : node) : M unit :=
  fun w => mkOut (Ok tt) {| fs := n; ticks := ticks w |} [].

Declare Scope thread_scope.
Delimit Scope thread_scope with thread.
Notation "x <- m ;; k" := (bind m (fun x => k))
  (at level 61, m at next level, right associativity) : thread_scope.
Notation "m ;; k" := (bind m (fun _ => k))
  (at level 61, right associativity) : thread_scope.

(** [subprocess.run(cmd, capture_output=True, text=True)] *)
Record CompletedProcess := { returncode : Z; stdout : string; stderr : string }.

(** A whole run of the encoder started by [subprocess.Popen]: the lines
    [proc.stderr.readline()] hands out, until the process has exited or a
    read fails; the text of the [UnicodeDecodeError] of the read that
    fails, when the bytes that come next do not decode; its exit status;
    and the file system it leaves. *)
Record EncoderRun := {
  enc_stderr : list string;
  enc_broken : option string;
  enc_returncode : Z;
  enc_fs : node
}.

(** Everything the program takes from outside. *)
Record Env := {
  sys_platform : string;                              (* sys.platform *)
  shutil_which : string -> option string;             (* shutil.which *)
  script_dir : string;                                (* str(Path(__file__).parent) *)
  binary_exists : string -> bool;                     (* Path(c).exists() on a candidate binary *)
  float_of_str : string -> option pyfloat;            (* float(s); None: ValueError *)
  json_loads : string -> option json;                 (* json.loads(s); None: JSONDecodeError *)
  proc_run : list string -> node -> CompletedProcess; (* the prober *)
  proc_popen : list string -> node -> EncoderRun;     (* the encoder *)
  clock : nat -> Q;                                   (* the n-th reading of time.time() *)
  stop_flag : nat -> bool                             (* self._stop as read before the i-th job *)
}.

(** [Job] (main.py:126-132) *)
Record Job := {
  src : Path;
  out_root : Path;
  skip_if_incompatible : bool;
  enable_transcode_if_needed : bool;
  segment_seconds : Z
}.

Section Pipeline.

Variable env : Env.

Local Open Scope thread_scope.
Local Open Scope result_scope.

(* ---------- FFmpeg discovery (main.py:64-89) ---------- *)

Definition _exe_name (nm : string) : string :=
  if prefix "win" (sys_platform env) then (nm ++ ".exe")%string else nm.

(** [next((c for c in candidates if c and Path(c).exists()), None)] *)
Definition first_existing (candidates : list (option string)) : option string :=
  match
    find (fun c => match c with
                   | Some s => negb (String.eqb s EmptyString) && binary_exists env s
                   | None => false
                   end) candidates
  with
  | Some c => c
  | None => None
  end.

Definition not_found_msg : string :=
  ("FFmpeg/FFprobe not found. Please install FFmpeg and ensure both 'ffmpeg' and 'ffprobe' are in PATH,"
   ++ nl ++ "or place them in a './bin' folder next to this script.")%string.

Definition find_ffmpeg_binaries : result (string * string) :=
  let ffmpeg_path :=
    first_existing [shutil_which env "ffmpeg";
                    Some (script_dir env ++ "/bin/" ++ _exe_name "ffmpeg")%string] in
  let ffprobe_path :=
    first_existing [shutil_which env "ffprobe";
                    Some (script_dir env ++ "/bin/" ++ _exe_name "ffprobe")%string] in
  match ffmpeg_path, ffprobe_path with
  | Some a, Some b => Ok (a, b)
  | _, _ => Raise (Exn FileNotFoundError not_found_msg)
  end.

(* ---------- Probing utilities (main.py:93-122) ---------- *)

Definition subprocess_run (cmd : list string) : M CompletedProcess :=
  fun w => mkOut (Ok (proc_run env cmd (fs w))) w [ev_run cmd (fs w)].

Definition ffprobe_cmd (ffprobe_path input_path : string) : list string :=
  [ffprobe_path; "-v"; "error"; "-print_format"; "json";
   "-show_streams"; "-show_format"; input_path].

Definition ffprobe_streams (ffprobe_path input_path : string) : M json :=
  proc <- subprocess_run (ffprobe_cmd ffprobe_path input_path) ;;
  if negb (returncode proc =? 0)%Z
  then raise (Exn RuntimeError (strip (stderr proc)))
  else match json_loads env (stdout proc) with
       | Some meta => ret meta
       | None => raise (Exn JSONDecodeError "Expecting value")
       end.

(** [float(v)].  An [int] is converted when it rounds to a finite float. *)
Definition py_float (v : json) : result pyfloat :=
  match v with
  | JBool b => Ok (of_int (if b then 1 else 0))
  | JInt z =>
      if (Z.abs z <? float_int_limit)%Z then Ok (of_int z)
      else Raise (Exn OverflowError "int too large to convert to float")
  | JFloat f => Ok f
  | JStr s =>
      match float_of_str env s with
      | Some f => Ok f
      | None => Raise (Exn ValueError "could not convert string to float")
      end
  | _ => Raise (Exn TypeError "float() argument must be a string or a real number")
  end.

(** [meta.get("format", {}).get("duration", 0.0)] *)
Definition duration_field (meta : json) : result json :=
  fmt <-? py_get meta "format" (JDict []);
  py_get fmt "duration" (JFloat (Fin 0%Q)).

Definition get_duration_seconds (meta : json) : pyfloat :=
  match (d <-? duration_field meta; py_float d) with
  | Ok v => v
  | Raise _ => Fin 0%Q
  end.

(** The body of the loop of [codecs_are_hls_friendly], run over the streams
    left to visit. *)
Fixpoint scan_streams (streams : list json) (v_ok a_ok : bool) : result (bool * bool) :=
  match streams with
  | [] => Ok (v_ok, a_ok)
  | s :: rest =>
      ct <-? py_get s "codec_type" JNull;
      v_ok' <-? (if json_is_str ct "video"
                 then cn <-? py_get s "codec_name" JNull; Ok (json_in cn ["h264"])
                 else Ok v_ok);
      ct' <-? py_get s "codec_type" JNull;
      a_ok' <-? (if json_is_str ct' "audio"
                 then cn <-? py_get s "codec_name" JNull; Ok (json_in cn ["aac"; "mp3"; "ac3"])
                 else Ok a_ok);
      scan_streams rest v_ok' a_ok'
  end.

Definition codecs_are_hls_friendly (meta : json) : result bool :=
  streams <-? py_get meta "streams" (JList []);
  ss <-? py_iter streams;
  va <-? scan_streams ss false true;
  Ok (fst va && snd va).

(* ---------- Conversion worker (main.py:143-262) ---------- *)

Definition time_time : M Q :=
  fun w => mkOut (Ok (clock env (ticks w))) {| fs := fs w; ticks := S (ticks w) |} [].

(** [float(s)] on a piece of text. *)
Definition float_text (s : string) : result pyfloat := py_float (JStr s).

(** main.py:231-233: the position after the last [time=], as seconds. *)
Definition parse_time (line : string) : result pyfloat :=
  let tstr := strip (hd EmptyString (split " " (last (split "time=" line) EmptyString))) in
  match split ":" tstr with
  | [h; m; s] =>
      fh <-? float_text h;
      fm <-? float_text m;
      fsec <-? float_text s;
      Ok (fadd (fadd (fmul fh (of_int 3600)) (fmul fm (of_int 60))) fsec)
  | _ => Raise (Exn ValueError "not enough values to unpack (expected 3)")
  end.

(** main.py:234: [max(0, min(100, int(cur * 100 / duration)))] *)
Definition percent (cur duration : pyfloat) : result Z :=
  x <-? fdiv (fmul cur (of_int 100)) duration;
  i <-? py_int x;
  Ok (Z.max 0 (Z.min 100 i)).

(** main.py:219-240: the reading loop, over the lines still to come.  An
    empty read while the process lives is slept over.  After the last line
    comes either the empty read after the process has exited, which ends
    the loop, or the read that fails ([broken]): [readline] at main.py:220
    is outside the [try], so its exception leaves the loop. *)
Fixpoint read_progress (fname : string) (duration : pyfloat) (last_update : Q)
    (lines : list string) (broken : option string) : M unit :=
  match lines with
  | [] =>
      match broken with
      | Some msg => raise (Exn UnicodeDecodeError msg)
      | None => ret tt
      end
  | line :: rest =>
      if String.eqb line EmptyString
      then read_progress fname duration last_update rest broken
      else if contains "time=" line then
        match (cur <-? parse_time line; percent cur duration) with
        | Ok pct =>
            now <- time_time ;;
            if negb (Qle_bool (now - last_update) (5 # 100))
            then emit (sig_file_progress fname pct) ;;
                 last_update' <- time_time ;;
                 read_progress fname duration last_update' rest broken
            else read_progress fname duration last_update rest broken
        | Raise _ => read_progress fname duration last_update rest broken
        end
      else read_progress fname duration last_update rest broken
  end.

Definition Popen (args : list string) : M EncoderRun :=
  fun w => mkOut (Ok (proc_popen env args (fs w))) w [ev_popen args (fs w)].

(** [proc.wait()]: the process is over; the file system is as it left it. *)
Definition proc_wait (p : EncoderRun) : M Z :=
  fun w => mkOut (Ok (enc_returncode p)) {| fs := enc_fs p; ticks := ticks w |} [].

Definition copy_args : list string := ["-c:v"; "copy"; "-c:a"; "copy"].

Definition transcode_args : list string :=
  ["-c:v"; "libx264"; "-preset"; "veryfast"; "-crf"; "18"; "-c:a"; "aac"; "-b:a"; "192k"].

(** main.py:197-200 *)
Definition input_args (ffmpeg : string) (job : Job) : list string :=
  [ffmpeg; "-y"; "-hide_banner"; "-loglevel"; "error"; "-stats"; "-i"; path_str (src job)].

(** main.py:193-194, 207-214 *)
Definition output_args (job : Job) (out_dir : Path) : list string :=
  let m3u8_path := out_dir ++ ["playlist.m3u8"] in
  let seg_tmpl := out_dir ++ ["segment_%05d.ts"] in
  ["-movflags"; "+faststart"; "-f"; "hls";
   "-hls_time"; str_of_int (segment_seconds job);
   "-hls_list_size"; "0";
   "-hls_segment_filename"; path_str seg_tmpl;
   path_str m3u8_path].

(** main.py:197-214 *)
Definition build_args (ffmpeg : string) (job : Job) (out_dir : Path) (hls_ok : bool)
  : list string :=
  input_args ffmpeg job
  ++ (if hls_ok then copy_args else transcode_args)
  ++ output_args job out_dir.

Definition ffmpeg_failed : exn :=
  Exn RuntimeError "ffmpeg failed — check logs and ensure codecs are supported.".

(** Leaving the [with subprocess.Popen(...) as proc] block, at its end or
    by an exception: [Popen.__exit__] closes the pipes and waits for the
    process, so the file system is as the process left it. *)
Definition Popen_exit {A} (proc : EncoderRun) (body : M A) : M A :=
  fun w =>
    let o := body w in
    mkOut (res o) {| fs := enc_fs proc; ticks := ticks (world o) |} (emitted o).

(** main.py:217-244 *)
Definition encode (args : list string) (fname : string) (duration : pyfloat) : M unit :=
  proc <- Popen args ;;
  Popen_exit proc
    (last_update <- time_time ;;
     read_progress fname duration last_update (enc_stderr proc) (enc_broken proc) ;;
     rc <- proc_wait proc ;;
     if negb (rc =? 0)%Z then raise ffmpeg_failed else ret tt).

(** [shutil.rmtree(p)] *)
Definition rmtree (p : Path) : M unit :=
  root <- get_fs ;;
  match lookup p root with
  | Some (Dir _) => set_fs (remove_at p root)
  | Some (File _) => raise (Exn OSError "Not a directory")
  | None => raise (Exn FileNotFoundError "No such file or directory")
  end.

(** [shutil.rmtree(p, ignore_errors=True)] *)
Definition rmtree_ignore_errors (p : Path) : M unit :=
  root <- get_fs ;;
  match lookup p root with
  | Some (Dir _) => set_fs (remove_at p root)
  | _ => ret tt
  end.

(** [p.mkdir(parents=True, exist_ok=True)] *)
Definition mkdir (p : Path) : M unit :=
  root <- get_fs ;;
  match mkdir_p p root with
  | Some root' => set_fs root'
  | None => raise (Exn OSError "File exists")
  end.

(** [p.unlink()] *)
Definition unlink (p : Path) : M unit :=
  root <- get_fs ;;
  match lookup p root with
  | Some (File _) => set_fs (remove_at p root)
  | Some (Dir _) => raise (Exn OSError "Is a directory")
  | None => raise (Exn FileNotFoundError "No such file or directory")
  end.

(** Writing the regular file [p], as opening it for writing and closing it
    does. *)
Definition write_file (p : Path) (c : content) : M unit :=
  root <- get_fs ;;
  match write_at p c root with
  | Some root' => set_fs root'
  | None => raise (Exn OSError "cannot open for writing")
  end.

(** main.py:251-253: the paths [Path(root) / f], for the triples of a
    walk in their order. *)
Definition joined (triples : list (Path * list string * list string)) : list Path :=
  flat_map (fun t => map (fun f => fst (fst t) ++ [f]) (snd t)) triples.

Definition walked_files (out_dir : Path) (root : node) : list Path :=
  match lookup out_dir root with
  | Some d => joined (walk out_dir d)
  | None => []
  end.

(** main.py:255-256 over those paths: the members written, and the
    exception that stopped the writing, if one did.  [zf.write] of a path
    that turns out to be a directory stores no file. *)
Fixpoint zip_write_all (root : node) (out_dir : Path) (ps : list Path)
  : list (Path * content) * option exn :=
  match ps with
  | [] => ([], None)
  | p :: ps' =>
      let arcname := relpath p out_dir in
      match lookup p root with
      | Some (File c) =>
          let r := zip_write_all root out_dir ps' in ((arcname, c) :: fst r, snd r)
      | Some (Dir _) => zip_write_all root out_dir ps'
      | None => ([], Some (Exn FileNotFoundError "No such file or directory"))
      end
  end.

(** main.py:181 *)
Definition out_dir_of (job : Job) : Path :=
  out_root job ++ [(stem (src job) ++ "_hls")%string].

(** main.py:247 *)
Definition zip_path_of (job : Job) : Path :=
  out_root job ++ [(stem (src job) ++ ".zip")%string].

(** main.py:247-259.  The archive file exists, empty, from the moment it is
    opened; leaving the [with] block closes it with the members written so
    far, also when the block is left by an exception. *)
Definition package (job : Job) (out_dir : Path) : M Path :=
  let zip_path := zip_path_of job in
  present <- (root <- get_fs ;; ret (exists_at zip_path root)) ;;
  (if present then unlink zip_path else ret tt) ;;
  write_file zip_path (Zip []) ;;
  root <- get_fs ;;
  let written := zip_write_all root out_dir (walked_files out_dir root) in
  write_file zip_path (Zip (fst written)) ;;
  match snd written with
  | Some e => raise e
  | None => rmtree_ignore_errors out_dir ;; ret zip_path
  end.

Definition skip_error : exn :=
  Exn SkipError "Codecs not HLS-friendly (need H.264 video and AAC/MP3/AC3 audio).".

(** main.py:182-184 *)
Definition prepare_out_dir (out_dir : Path) : M unit :=
  present <- (root <- get_fs ;; ret (exists_at out_dir root)) ;;
  (if present then rmtree out_dir else ret tt) ;;
  mkdir out_dir.

(** main.py:186-188: the duration with its floor, and the compatibility
    bit. *)
Definition probe (ffprobe : string) (job : Job) : M (pyfloat * bool) :=
  meta <- ffprobe_streams ffprobe (path_str (src job)) ;;
  let duration := py_max (of_int 1) (get_duration_seconds meta) in
  hls_ok <- lift (codecs_are_hls_friendly meta) ;;
  ret (duration, hls_ok).

(** main.py:190-262: what follows the probe. *)
Definition convert (ffmpeg : string) (job : Job) (duration : pyfloat) (hls_ok : bool)
  : M unit :=
  let out_dir := out_dir_of job in
  if negb hls_ok && skip_if_incompatible job && negb (enable_transcode_if_needed job)
  then raise skip_error
  else
    encode (build_args ffmpeg job out_dir hls_ok) (name (src job)) duration ;;
    zip_path <- package job out_dir ;;
    emit (sig_log ("DONE: " ++ name (src job) ++ " → " ++ name zip_path)%string) ;;
    emit (sig_file_progress (name (src job)) 100).

(** main.py:180-188: everything up to the decision. *)
Definition probing (ffprobe : string) (job : Job) : M (pyfloat * bool) :=
  prepare_out_dir (out_dir_of job) ;;
  probe ffprobe job.

(** [ConverterThread._process_one] (main.py:179-262) *)
Definition _process_one (ffmpeg ffprobe : string) (job : Job) : M unit :=
  dh <- probing ffprobe job ;;
  convert ffmpeg job (fst dh) (snd dh).

(** main.py:162-171: one turn of the loop of [run], for the [i]-th job of
    [total].  [int(i * 100 / total)] truncates the quotient of two
    non-negative integers: it is their integer quotient. *)
Definition run_job (ffmpeg ffprobe : string) (total i : nat) (job : Job) : M unit :=
  try_except
    (_process_one ffmpeg ffprobe job ;;
     emit (sig_file_done (name (src job)) "OK"))
    (fun e =>
       if is_SkipError e
       then emit (sig_log ("SKIP: " ++ name (src job) ++ " — " ++ exn_str e)%string) ;;
            emit (sig_file_done (name (src job)) "SKIP")
       else emit (sig_log ("FAIL: " ++ name (src job) ++ " — " ++ exn_str e)%string) ;;
            emit (sig_file_done (name (src job)) "FAIL")) ;;
  emit (sig_progress (Z.of_nat i * 100 / Z.of_nat total)).

(** main.py:159-171: the loop over [enumerate(self.jobs, start=1)], from
    the [i]-th job on. *)
Fixpoint run_jobs (ffmpeg ffprobe : string) (total i : nat) (jobs : list Job) : M unit :=
  match jobs with
  | [] => ret tt
  | job :: rest =>
      if stop_flag env i then ret tt
      else run_job ffmpeg ffprobe total i job ;;
           run_jobs ffmpeg ffprobe total (S i) rest
  end.

(** [ConverterThread.run] (main.py:150-173) *)
Definition run (jobs : list Job) : M unit :=
  match find_ffmpeg_binaries with
  | Raise e =>
      emit (sig_log ("ERROR: " ++ exn_str e)%string) ;;
      emit sig_all_done
  | Ok (ffmpeg, ffprobe) =>
      run_jobs ffmpeg ffprobe (List.length jobs) 1 jobs ;;
      emit sig_all_done
  end.

End Pipeline.

(* ------------------------------------------------------------------ *)
(** ** Concrete environments, for the closed examples *)

Module Ex.

Definition dq : string := String (ascii_of_nat 34) EmptyString.

(** The JSON text of a value built from strings, lists and objects; the
    examples' prober prints its answer with it. *)
Fixpoint json_text (v : json) : string :=
  match v with
  | JNull => "null"
  | JBool b => if b then "true" else "false"
  | JInt z => str_of_int z
  | JFloat _ => "NaN"
  | JStr s => dq ++ s ++ dq
  | JList items =>
      "[" ++ String.concat ", " (map json_text items) ++ "]"
  | JDict items =>
      "{" ++ String.concat ", "
               ((fix fields (l : list (string * json)) : list string :=
                   match l with
                   | [] => []
                   | (k, x) :: l' => (dq ++ k ++ dq ++ ": " ++ json_text x)%string :: fields l'
                   end) items) ++ "}"
  end%string.

Definition digit (c : ascii) : option Z :=
  let n := nat_of_ascii c in
  if ((48 <=? n) && (n <=? 57))%nat then Some (Z.of_nat (n - 48)) else None.

Fixpoint digits (s : string) (acc : Z) : option Z :=
  match s with
  | EmptyString => Some acc
  | String c t =>
      match digit c with
      | Some d => digits t (10 * acc + d)%Z
      | None => None
      end
  end.

(** [float] on an unsigned decimal numeral ([12], [12.5], [05.00]); every
    other text is refused. *)
Definition decimal_float (s : string) : option pyfloat :=
  match split "." s with
  | [a] =>
      if String.eqb a EmptyString then None
      else option_map of_int (digits a 0)
  | [a; b] =>
      if String.eqb a EmptyString && String.eqb b EmptyString then None
      else match digits a 0, digits b 0 with
           | Some x, Some y =>
               Some (Fin (Qred (inject_Z x + inject_Z y / inject_Z (10 ^ Z.of_nat (String.length b)))))
           | _, _ => None
           end
  | _ => None
  end.

Definition stream (codec_type codec_name : string) : json :=
  JDict [("codec_type", JStr codec_type); ("codec_name", JStr codec_name)].

(** A twenty-second H.264/AAC file, and the same with HEVC video. *)
Definition meta_h264 : json :=
  JDict [("streams", JList [stream "video" "h264"; stream "audio" "aac"]);
         ("format", JDict [("duration", JStr "20.000000")])].

Definition meta_hevc : json :=
  JDict [("streams", JList [stream "video" "hevc"; stream "audio" "aac"]);
         ("format", JDict [("duration", JStr "20.000000")])].

(** H.264 video, no audio, and no duration in the container. *)
Definition meta_no_duration : json :=
  JDict [("streams", JList [stream "video" "h264"]); ("format", JDict [])].

(** H.264 video with two audio tracks, Opus first, AAC second. *)
Definition meta_two_audio : json :=
  JDict [("streams", JList [stream "video" "h264"; stream "audio" "opus";
                            stream "audio" "aac"]);
         ("format", JDict [("duration", JStr "20.000000")])].

Definition known_metas : list json :=
  [meta_h264; meta_hevc; meta_no_duration; meta_two_audio].

Definition loads (s : string) : option json :=
  find (fun m => String.eqb (json_text m) s) known_metas.

(** The disk: one source file, an output folder that already holds the
    working directory and the archive of an earlier conversion. *)
Definition disk : node :=
  Dir [("videos", Dir [("clip.mp4", File (Raw "mp4"))]);
       ("out", Dir [("clip_hls", Dir [("old.ts", File (Raw "old"))]);
                    ("clip.zip", File (Zip []))])].

(** An empty output folder. *)
Definition clean_disk : node :=
  Dir [("videos", Dir [("clip.mp4", File (Raw "mp4"))]); ("out", Dir [])].

Definition job (skip transcode : bool) : Job :=
  {| src := ["videos"; "clip.mp4"];
     out_root := ["out"];
     skip_if_incompatible := skip;
     enable_transcode_if_needed := transcode;
     segment_seconds := 6 |}.

(** What the encoder of the examples writes into the working directory. *)
Definition hls_files : list (string * node) :=
  [("playlist.m3u8", File (Raw "#EXTM3U"));
   ("segment_00000.ts", File (Raw "ts0"));
   ("segment_00001.ts", File (Raw "ts1"))].

Definition after_encoding (before : node) : node :=
  match lookup ["out"] before with
  | Some (Dir es) =>
      Dir [("videos", Dir [("clip.mp4", File (Raw "mp4"))]);
           ("out", Dir (set_key "clip_hls" (Dir hls_files) es))]
  | _ => before
  end.

(** An environment with both binaries on [PATH] when [found] and neither
    anywhere otherwise, a prober that answers [meta], an encoder that
    prints [lines], writes [hls_files] and exits with [rc], a clock
    advancing one second per reading, and the [_stop] flag given by
    [stop]. *)
Definition env_with (found : bool) (meta : json) (lines : list string) (rc : Z)
    (stop : nat -> bool) : Env :=
  {| sys_platform := "linux";
     shutil_which := fun nm => if found then Some ("/usr/bin/" ++ nm)%string else None;
     script_dir := "/opt/app";
     binary_exists := fun _ => found;
     float_of_str := decimal_float;
     json_loads := loads;
     proc_run := fun _ _ =>
       {| returncode := 0; stdout := json_text meta; stderr := EmptyString |};
     proc_popen := fun _ before =>
       {| enc_stderr := lines; enc_broken := None; enc_returncode := rc;
          enc_fs := after_encoding before |};
     clock := fun n => inject_Z (Z.of_nat n);
     stop_flag := stop |}.

Definition never : nat -> bool := fun _ => false.

(** The flag is seen set from the [n]-th job on. *)
Definition from (n : nat) : nat -> bool := fun i => (n <=? i)%nat.

Definition w0 (d : node) : World := {| fs := d; ticks := 0 |}.

Definition status_line (t : string) : string :=
  ("frame=  100 fps=0.0 q=-1.0 size=N/A time=" ++ t ++ " bitrate=N/A speed=10x" ++ nl)%string.

End Ex.


(* ------------------------------------------------------------------ *)
(** ** Reading what was let out *)

(** The command lines the encoder was started with. *)
Definition encoder_calls (evs : list Event) : list (list string) :=
  flat_map (fun e => match e with ev_popen argv _ => [argv] | _ => [] end) evs.

(** The command lines the prober was run with. *)
Definition prober_calls (evs : list Event) : list (list string) :=
  flat_map (fun e => match e with ev_run argv _ => [argv] | _ => [] end) evs.

(** The per-file percents. *)
Definition percents (evs : list Event) : list Z :=
  flat_map (fun e => match e with sig_file_progress _ p => [p] | _ => [] end) evs.

(** The overall percents. *)
Definition overall (evs : list Event) : list Z :=
  flat_map (fun e => match e with sig_progress p => [p] | _ => [] end) evs.

(** The terminal statuses, one per job that reached one. *)
Definition outcomes (evs : list Event) : list string :=
  flat_map (fun e => match e with sig_file_done _ st => [st] | _ => [] end) evs.

(** The log lines. *)
Definition logged (evs : list Event) : list string :=
  flat_map (fun e => match e with sig_log m => [m] | _ => [] end) evs.

(** How many times the batch was declared complete. *)
Definition completions (evs : list Event) : nat :=
  List.length (filter (fun e => match e with sig_all_done => true | _ => false end) evs).

(** Every terminal event is directly followed by an overall-progress event,
    and an overall-progress event occurs nowhere else. *)
Fixpoint paired (evs : list Event) : bool :=
  match evs with
  | [] => true
  | sig_file_done _ _ :: rest =>
      match rest with
      | sig_progress _ :: rest' => paired rest'
      | _ => false
      end
  | sig_progress _ :: _ => false
  | _ :: rest => paired rest
  end.

(** [floor(k * 100 / n)] for k = 1 .. m *)
Definition floors (n m : nat) : list Z :=
  map (fun k => (Z.of_nat k * 100 / Z.of_nat n)%Z) (seq 1 m).

(** An event a single job may let out before its terminal event. *)
Definition job_level (e : Event) : bool :=
  match e with
  | sig_log _ | sig_file_progress _ _ | ev_run _ _ | ev_popen _ _ => true
  | _ => false
  end.

(** *** The compatibility rule in the words of the specification *)

Definition is_stream (kind : string) (s : json) : bool :=
  match py_get s "codec_type" JNull with
  | Ok ct => json_is_str ct kind
  | Raise _ => false
  end.

Definition codec_in (accepted : list string) (s : json) : bool :=
  match py_get s "codec_name" JNull with
  | Ok cn => json_in cn accepted
  | Raise _ => false
  end.

(** There is a video stream, video is H.264, and every audio stream, if
    any, is AAC, MP3 or AC-3. *)
Definition spec_hls_friendly (streams : list json) : bool :=
  existsb (is_stream "video") streams
  && forallb (codec_in ["h264"]) (filter (is_stream "video") streams)
  && forallb (codec_in ["aac"; "mp3"; "ac3"]) (filter (is_stream "audio") streams).

(** What the loop of the source leaves in a flag: the verdict on the last
    stream of the kind, or the initial value when there is none. *)
Definition last_verdict (kind : string) (accepted : list string) (init : bool)
    (streams : list json) : bool :=
  fold_left (fun acc s => if is_stream kind s then codec_in accepted s else acc)
            streams init.

Definition is_dict (v : json) : bool :=
  match v with JDict _ => true | _ => false end.

(** The regular files below a directory with their paths relative to it,
    in the order [os.walk] meets them. *)
Fixpoint all_files (pre : Path) (n : node) : list (Path * content) :=
  match n with
  | File _ => []
  | Dir es =>
      flat_map (fun e => match snd e with
                         | File c => [(pre ++ [fst e], c)]
                         | Dir _ => []
                         end) es
      ++ (fix below (l : list (string * node)) :=
            match l with
            | [] => []
            | (d, child) :: l' => all_files (pre ++ [d]) child ++ below l'
            end) es
  end.

(* ------------------------------------------------------------------ *)
(** ** Notions the statements use *)

(** Every event a computation lets out satisfies [P], whatever the world
    it starts in. *)
Definition emits {A} (P : Event -> bool) (m : M A) : Prop :=
  forall w, forallb P (emitted (m w)) = true.

(** Nothing at all is let out by a block that only touches the disk. *)
Definition silent (_ : Event) : bool := false.

(** What a single job may let out before its terminal event, with every
    per-file percent between 0 and 100. *)
Definition job_event (e : Event) : bool :=
  match e with
  | sig_log _ | ev_run _ _ | ev_popen _ _ => true
  | sig_file_progress _ p => (0 <=? p)%Z && (p <=? 100)%Z
  | _ => false
  end.

(** The status [run] reports for a job, and the line it logs first. *)
Definition status_of (r : result unit) : string :=
  match r with
  | Ok _ => "OK"
  | Raise e => if is_SkipError e then "SKIP" else "FAIL"
  end.

Definition report_of (fname : string) (r : result unit) : list Event :=
  match r with
  | Ok _ => []
  | Raise e =>
      [sig_log (status_of r ++ ": " ++ fname ++ " — " ++ exn_str e)%string]
  end.

(** How the reading loop ends: by the exception of the read that fails, if
    one does. *)
Definition read_result (broken : option string) : result unit :=
  match broken with
  | Some msg => Raise (Exn UnicodeDecodeError msg)
  | None => Ok tt
  end.

(** What the reading loop lets out for the run [p] started in world [w]. *)
Definition reading (env : Env) (fname : string) (duration : pyfloat)
    (p : EncoderRun) (w : World) : Out unit :=
  read_progress env fname duration (clock env (ticks w)) (enc_stderr p) (enc_broken p)
                {| fs := fs w; ticks := S (ticks w) |}.

Definition raises {A} (P : exn -> bool) (m : M A) : Prop :=
  forall w e, res (m w) = Raise e -> P e = true.

Definition not_skip (e : exn) : bool := negb (is_SkipError e).

(** The job is skipped exactly on this condition. *)
Definition skips (job : Job) (hls_ok : bool) : bool :=
  negb hls_ok && skip_if_incompatible job && negb (enable_transcode_if_needed job).

(** What a line of the encoder's status channel stands for in percent,
    when it stands for any (main.py:221-234). *)
Definition line_percent (env : Env) (duration : pyfloat) (line : string) : option Z :=
  if String.eqb line EmptyString then None
  else if contains "time=" line then
    match rbind (parse_time env line) (fun cur => percent cur duration) with
    | Ok p => Some p
    | Raise _ => None
    end
  else None.

(** The position a line reports is not later than the one a second line
    reports, when both report a finite one. *)
Definition time_le (env : Env) (l1 l2 : string) : Prop :=
  forall a b,
    parse_time env l1 = Ok (Fin a) -> parse_time env l2 = Ok (Fin b) -> (a <= b)%Q.

(* ------------------------------------------------------------------ *)
(** ** Further notions and examples *)

(** [str(Path(__file__).parent / "bin" / _exe_name(nm))] (main.py:74, 80) *)
Definition local_binary (env : Env) (nm : string) : string :=
  (script_dir env ++ "/bin/" ++ _exe_name env nm)%string.

(** Neither [PATH] nor the [bin] folder next to the script has the binary
    [nm]. *)
Definition no_candidate (env : Env) (nm : string) : Prop :=
  (forall s, shutil_which env nm = Some s ->
             s = EmptyString \/ binary_exists env s = false)
  /\ binary_exists env (local_binary env nm) = false.

(** The file names of the terminal events, in order. *)
Definition done_names (evs : list Event) : list string :=
  flat_map (fun e => match e with sig_file_done f _ => [f] | _ => [] end) evs.

(* ------------------------------------------------------------------ *)
(** ** The list of dropped files (main.py:293-343) *)

(** [s.lower()], on the letters A to Z.  The result is only ever compared
    with [".mp4"], and no character other than [M] and [P] has [m] or [p]
    as its lower case. *)
Definition lower_ascii (c : ascii) : ascii :=
  let n := nat_of_ascii c in
  if ((65 <=? n) && (n <=? 90))%nat then ascii_of_nat (n + 32) else c.

Fixpoint lower (s : string) : string :=
  match s with
  | EmptyString => EmptyString
  | String c t => String (lower_ascii c) (lower t)
  end.

(** [p.suffix]: the name from its last dot on, unless that dot is the first
    or the last character. *)
Definition suffix (p : Path) : string :=
  let n := name p in
  match rfind "." n with
  | Some i =>
      if ((0 <? i) && (i <? String.length n - 1))%nat
      then substring i (String.length n - i) n
      else EmptyString
  | None => EmptyString
  end.

Definition path_eqb (p q : Path) : bool :=
  if list_eq_dec string_dec p q then true else false.

(** A [QListWidgetItem] as [add_path] fills it.  The string [str(p)] kept
    under [Qt.UserRole] is held as the path it stands for: two paths have
    the same string exactly when they are equal, and [Path(str(p))] is
    [p]. *)
Record Item := { text : string; toolTip : string; data : Path }.

Definition item_of (p : Path) : Item :=
  {| text := name p; toolTip := path_str p; data := p |}.

(** The rows of the widget, first row first. *)
Definition DropList := list Item.

(** [DropList.add_path] (main.py:322-330) *)
Definition add_path (p : Path) (l : DropList) : DropList :=
  if existsb (fun it => path_eqb (data it) p) l then l else l ++ [item_of p].

(** [DropList.paths] (main.py:332-336) *)
Definition paths (l : DropList) : list Path := map data l.

(** [DropList.dropEvent] (main.py:313-320) for a drop that has URLs, on the
    disk [root]. *)
Definition dropEvent (root : node) (urls : list Path) (l : DropList) : DropList :=
  fold_left
    (fun acc p =>
       if String.eqb (lower (suffix p)) ".mp4" && exists_at p root
       then add_path p acc
       else acc)
    urls l.

(** [QListWidget.takeItem(row)]: the row is taken out; a row that is not
    there takes nothing out. *)
Fixpoint takeItem (row : nat) (l : DropList) : DropList :=
  match l, row with
  | [], _ => []
  | _ :: l', O => l'
  | it :: l', S r => it :: takeItem r l'
  end.

(** [sorted(rows, reverse=True)] *)
Fixpoint insert_desc (n : nat) (l : list nat) : list nat :=
  match l with
  | [] => [n]
  | m :: l' => if (m <=? n)%nat then n :: l else m :: insert_desc n l'
  end.

Definition sorted_reverse (l : list nat) : list nat := fold_right insert_desc [] l.

(** [DropList.remove_selected] (main.py:338-340), for the selected rows
    [selected]. *)
Definition remove_selected (selected : list nat) (l : DropList) : DropList :=
  fold_left (fun acc i => takeItem i acc) (sorted_reverse selected) l.

(** [DropList.clear_all] (main.py:342-343) *)
Definition clear_all (l : DropList) : DropList := [].

(** The rows of [l], numbered from [i], whose number satisfies [keep]. *)
Fixpoint keep_rows (keep : nat -> bool) (i : nat) (l : DropList) : DropList :=
  match l with
  | [] => []
  | it :: l' =>
      if keep i then it :: keep_rows keep (S i) l' else keep_rows keep (S i) l'
  end.

(** The row [j] is one of [rows]. *)
Definition row_in (rows : list nat) (j : nat) : bool := existsb (Nat.eqb j) rows.

(* ------------------------------------------------------------------ *)
(** ** The window (main.py:346-517) *)

Module MainWindow.

(** What the handlers read and write: the list of dropped files, the chosen
    output folder, the two policy check boxes, the segment spin box, the
    overall progress bar, the paragraphs of the log pane, the message of the
    status bar, whether the Convert button is enabled, and the job list of
    the thread started last. *)
Record Window := {
  drop : DropList;
  out_dir : option Path;
  chk_skip : bool;
  chk_trans : bool;
  segment_input : Z;
  progress_all : Z;
  log : list string;
  status_message : option string;
  btn_convert_enabled : bool;
  worker : option (list Job)
}.

(** [QProgressBar.setValue] with the default range 0..100: a value outside
    the range changes nothing. *)
Definition setValue (v : Z) (w : Window) : Window :=
  if ((0 <=? v) && (v <=? 100))%Z then
    {| drop := drop w; out_dir := out_dir w; chk_skip := chk_skip w;
       chk_trans := chk_trans w; segment_input := segment_input w;
       progress_all := v; log := log w; status_message := status_message w;
       btn_convert_enabled := btn_convert_enabled w; worker := worker w |}
  else w.

(** [MainWindow._log] (main.py:515-517) *)
Definition _log (msg : string) (w : Window) : Window :=
  {| drop := drop w; out_dir := out_dir w; chk_skip := chk_skip w;
     chk_trans := chk_trans w; segment_input := segment_input w;
     progress_all := progress_all w; log := log w ++ [msg];
     status_message := status_message w;
     btn_convert_enabled := btn_convert_enabled w; worker := worker w |}.

(** [MainWindow._on_file_progress] (main.py:504-505) *)
Definition _on_file_progress (nm : string) (pct : Z) (w : Window) : Window :=
  {| drop := drop w; out_dir := out_dir w; chk_skip := chk_skip w;
     chk_trans := chk_trans w; segment_input := segment_input w;
     progress_all := progress_all w; log := log w;
     status_message := Some (nm ++ ": " ++ str_of_int pct ++ "%")%string;
     btn_convert_enabled := btn_convert_enabled w; worker := worker w |}.

(** [MainWindow._on_file_done] (main.py:507-508) *)
Definition _on_file_done (nm status : string) (w : Window) : Window :=
  _log (status ++ ": " ++ nm)%string w.

(** [MainWindow._on_all_done] (main.py:510-513) *)
Definition _on_all_done (w : Window) : Window :=
  let w1 := _log "Semua pekerjaan selesai." w in
  {| drop := drop w1; out_dir := out_dir w1; chk_skip := chk_skip w1;
     chk_trans := chk_trans w1; segment_input := segment_input w1;
     progress_all := progress_all w1; log := log w1;
     status_message := None;
     btn_convert_enabled := true; worker := worker w1 |}.

(** [MainWindow.update_convert_enabled] (main.py:468-470) *)
Definition update_convert_enabled (w : Window) : Window :=
  let ok := (0 <? List.length (drop w))%nat
            && match out_dir w with Some _ => true | None => false end in
  {| drop := drop w; out_dir := out_dir w; chk_skip := chk_skip w;
     chk_trans := chk_trans w; segment_input := segment_input w;
     progress_all := progress_all w; log := log w;
     status_message := status_message w;
     btn_convert_enabled := ok; worker := worker w |}.

(** main.py:480-490: one job per row, in the order of the rows. *)
Definition jobs_of (w : Window) (dest : Path) : list Job :=
  map (fun it =>
         {| src := data it;
            out_root := dest;
            skip_if_incompatible := chk_skip w;
            enable_transcode_if_needed := chk_trans w;
            segment_seconds := segment_input w |})
      (drop w).

(** [MainWindow.start_convert] (main.py:472-502), up to the start of the
    thread; the two message boxes leave the window as it is. *)
Definition start_convert (w : Window) : Window :=
  match out_dir w with
  | None => w
  | Some dest =>
      if (List.length (drop w) =? 0)%nat then w
      else
        let w1 := setValue 0 w in
        {| drop := drop w1; out_dir := out_dir w1; chk_skip := chk_skip w1;
           chk_trans := chk_trans w1; segment_input := segment_input w1;
           progress_all := progress_all w1; log := [];
           status_message := status_message w1;
           btn_convert_enabled := false;
           worker := Some (jobs_of w dest) |}
  end.

(** main.py:495-500: the slot each signal of the thread is connected to.
    The starts of the external programs are no signals. *)
Definition deliver (w : Window) (e : Event) : Window :=
  match e with
  | sig_log msg => _log msg w
  | sig_progress pct => setValue pct w
  | sig_file_progress nm pct => _on_file_progress nm pct w
  | sig_file_done nm status => _on_file_done nm status w
  | sig_all_done => _on_all_done w
  | ev_run _ _ | ev_popen _ _ => w
  end.

(** A click on Convert followed by the whole batch: the window once every
    signal of the thread started has been handled, in the order let out. *)
Definition session (env : Env) (disk : World) (w : Window) : Window :=
  match out_dir w with
  | None => start_convert w
  | Some dest =>
      if (List.length (drop w) =? 0)%nat then start_convert w
      else fold_left deliver (emitted (run env (jobs_of w dest) disk)) (start_convert w)
  end.

End MainWindow.

(** The paths [p] and [q] part ways: at the first component where they
    differ both still have one, so neither is above, below or at the
    other. *)
Fixpoint apart (p q : Path) : bool :=
  match p, q with
  | a :: p', b :: q' => if String.eqb a b then apart p' q' else true
  | _, _ => false
  end.

(** Whatever [m] does, and however it ends, what is at [q] afterwards is
    what was there before. *)
Definition keeps {A} (q : Path) (m : M A) : Prop :=
  forall w, lookup q (fs (world (m w))) = lookup q (fs w).

(** [p.is_dir()] *)
Definition dir_at (p : Path) (root : node) : bool :=
  match lookup p root with Some (Dir _) => true | _ => false end.

Module More.

(** [ffmpeg] is on [PATH], [ffprobe] is nowhere. *)
Definition env_no_ffprobe : Env :=
  {| sys_platform := "linux";
     shutil_which := fun nm =>
       if String.eqb nm "ffmpeg" then Some "/usr/bin/ffmpeg" else None;
     script_dir := "/opt/app";
     binary_exists := fun s => String.eqb s "/usr/bin/ffmpeg";
     float_of_str := Ex.decimal_float;
     json_loads := Ex.loads;
     proc_run := fun _ _ =>
       {| returncode := 0; stdout := Ex.json_text Ex.meta_h264; stderr := EmptyString |};
     proc_popen := fun _ before =>
       {| enc_stderr := []; enc_broken := None; enc_returncode := 0;
          enc_fs := Ex.after_encoding before |};
     clock := fun n => inject_Z (Z.of_nat n);
     stop_flag := Ex.never |}.



(** A cover image next to the audio: no video stream at all. *)
Definition meta_audio_only : json :=
  JDict [("streams", JList [Ex.stream "audio" "aac"]);
         ("format", JDict [("duration", JStr "20.000000")])].

(** A stream list with an entry that is not an object. *)
Definition meta_null_stream : json :=
  JDict [("streams", JList [Ex.stream "video" "h264"; JNull])].

(** A twenty-second H.264/AAC file, an encoder that prints [lines] and
    exits with [rc], and a wall clock that reads [time n] at its [n]-th
    reading. *)
Definition env_clock (time : nat -> Q) (lines : list string) (rc : Z) : Env :=
  {| sys_platform := "linux";
     shutil_which := fun nm => Some ("/usr/bin/" ++ nm)%string;
     script_dir := "/opt/app";
     binary_exists := fun _ => true;
     float_of_str := Ex.decimal_float;
     json_loads := Ex.loads;
     proc_run := fun _ _ =>
       {| returncode := 0; stdout := Ex.json_text Ex.meta_h264; stderr := EmptyString |};
     proc_popen := fun _ before =>
       {| enc_stderr := lines; enc_broken := None; enc_returncode := rc;
          enc_fs := Ex.after_encoding before |};
     clock := time;
     stop_flag := Ex.never |}.

(** A disk on which the encoder has written its files while a directory
    sits where the archive goes. *)
Definition disk_zip_is_dir : node :=
  Dir [("videos", Dir [("clip.mp4", File (Raw "mp4"))]);
       ("out", Dir [("clip_hls", Dir Ex.hls_files); ("clip.zip", Dir [])])].

Definition env_zip_is_dir : Env :=
  {| sys_platform := "linux";
     shutil_which := fun nm => Some ("/usr/bin/" ++ nm)%string;
     script_dir := "/opt/app";
     binary_exists := fun _ => true;
     float_of_str := Ex.decimal_float;
     json_loads := Ex.loads;
     proc_run := fun _ _ =>
       {| returncode := 0; stdout := Ex.json_text Ex.meta_h264; stderr := EmptyString |};
     proc_popen := fun _ _ =>
       {| enc_stderr := []; enc_broken := None; enc_returncode := 0;
          enc_fs := disk_zip_is_dir |};
     clock := fun n => inject_Z (Z.of_nat n);
     stop_flag := Ex.never |}.




(** The text of a [UnicodeDecodeError]. *)
Definition decode_error : string :=
  "'utf-8' codec can't decode byte 0xff in position 0: invalid start byte".

(** A twenty-second H.264/AAC file and an encoder whose status channel
    gives [lines] and then bytes that do not decode, so that the next read
    raises [UnicodeDecodeError] with the text [msg]; the encoder writes
    its files and exits with [rc]. *)
Definition env_undecodable (lines : list string) (msg : string) (rc : Z) : Env :=
  {| sys_platform := "linux";
     shutil_which := fun nm => Some ("/usr/bin/" ++ nm)%string;
     script_dir := "/opt/app";
     binary_exists := fun _ => true;
     float_of_str := Ex.decimal_float;
     json_loads := Ex.loads;
     proc_run := fun _ _ =>
       {| returncode := 0; stdout := Ex.json_text Ex.meta_h264; stderr := EmptyString |};
     proc_popen := fun _ before =>
       {| enc_stderr := lines; enc_broken := Some msg; enc_returncode := rc;
          enc_fs := Ex.after_encoding before |};
     clock := fun n => inject_Z (Z.of_nat n);
     stop_flag := Ex.never |}.

(** A window with two files dropped and an output folder chosen. *)
Definition window : MainWindow.Window :=
  {| MainWindow.drop := [item_of ["videos"; "clip.mp4"]; item_of ["videos"; "b.mp4"]];
     MainWindow.out_dir := Some ["out"];
     MainWindow.chk_skip := true;
     MainWindow.chk_trans := false;
     MainWindow.segment_input := 6;
     MainWindow.progress_all := 0;
     MainWindow.log := ["FFmpeg: /usr/bin/ffmpeg"];
     MainWindow.status_message := None;
     MainWindow.btn_convert_enabled := true;
     MainWindow.worker := None |}.

End More.

(* ================================================================== *)
(** * Properties *)

(** ** The compatibility rule *)

Lemma scan_streams_last :
  forall streams v a,
    forallb is_dict streams = true ->
    scan_streams streams v a
    = Ok (last_verdict "video" ["h264"] v streams,
          last_verdict "audio" ["aac"; "mp3"; "ac3"] a streams).
Proof.
  induction streams as [|s rest IH]; intros v a Hd; simpl in *.
  - reflexivity.
  - apply andb_true_iff in Hd. destruct Hd as [Hs Hrest].
    destruct s; try discriminate.
    unfold last_verdict. simpl.
    unfold is_stream, codec_in. simpl.
    destruct (json_is_str _ "video"); destruct (json_is_str _ "audio");
      simpl; rewrite IH by assumption; reflexivity.
Qed.

(** On well-formed prober output the source computes: the last video
    stream is H.264 and the last audio stream, if any, is accepted. *)
Lemma codecs_are_hls_friendly_last :
  forall streams rest,
    forallb is_dict streams = true ->
    codecs_are_hls_friendly (JDict (("streams", JList streams) :: rest))
    = Ok (last_verdict "video" ["h264"] false streams
          && last_verdict "audio" ["aac"; "mp3"; "ac3"] true streams).
Proof.
  intros streams rest Hd. unfold codecs_are_hls_friendly. simpl.
  rewrite scan_streams_last by assumption. reflexivity.
Qed.

Lemma last_verdict_none :
  forall kind accepted init streams,
    filter (is_stream kind) streams = [] ->
    last_verdict kind accepted init streams = init.
Proof.
  intros kind accepted init streams. unfold last_verdict. revert init.
  induction streams as [|s rest IH]; intros init H; cbn [filter fold_left] in *;
    [reflexivity|].
  destruct (is_stream kind s); [discriminate | apply IH; exact H].
Qed.

Lemma last_verdict_single :
  forall kind accepted init streams,
    List.length (filter (is_stream kind) streams) <= 1 ->
    last_verdict kind accepted init streams
    = match filter (is_stream kind) streams with
      | [] => init
      | s :: _ => codec_in accepted s
      end.
Proof.
  intros kind accepted init streams. revert init.
  induction streams as [|s rest IH]; intros init H; cbn [filter] in *; [reflexivity|].
  destruct (is_stream kind s) eqn:E.
  - cbn [List.length] in H. assert (Hnone : filter (is_stream kind) rest = []).
    { destruct (filter (is_stream kind) rest); [reflexivity | simpl in H; lia]. }
    unfold last_verdict. cbn [fold_left]. rewrite E.
    apply (last_verdict_none kind accepted _ rest Hnone).
  - unfold last_verdict. cbn [fold_left]. rewrite E. apply IH. exact H.
Qed.

(** On files with at most one video and at most one audio stream the
    source computes the rule as the specification words it. *)
Lemma codecs_are_hls_friendly_single_track :
  forall streams rest,
    forallb is_dict streams = true ->
    List.length (filter (is_stream "video") streams) <= 1 ->
    List.length (filter (is_stream "audio") streams) <= 1 ->
    codecs_are_hls_friendly (JDict (("streams", JList streams) :: rest))
    = Ok (spec_hls_friendly streams).
Proof.
  intros streams rest Hd Hv Ha.
  rewrite codecs_are_hls_friendly_last by exact Hd.
  rewrite (last_verdict_single "video" _ _ _ Hv), (last_verdict_single "audio" _ _ _ Ha).
  unfold spec_hls_friendly. f_equal.
  assert (Hex : existsb (is_stream "video") streams
                = match filter (is_stream "video") streams with [] => false | _ => true end).
  { clear. induction streams as [|s l IH]; simpl; [reflexivity|].
    destruct (is_stream "video" s); simpl; [reflexivity | exact IH]. }
  rewrite Hex.
  destruct (filter (is_stream "video") streams) as [|v [|v' vs]];
    destruct (filter (is_stream "audio") streams) as [|a [|a' al]];
    simpl in *; try lia; rewrite ?andb_true_r; reflexivity.
Qed.

(** C8: on a file with H.264 video and two audio tracks, Opus then AAC,
    [codecs_are_hls_friendly] answers true, because each audio stream
    overwrites the verdict on the one before; the rule as the specification
    words it (every audio stream accepted) answers false on the same
    streams. *)
Theorem C8_last_audio_stream_overrides :
  codecs_are_hls_friendly Ex.meta_two_audio = Ok true
  /\ spec_hls_friendly
       [Ex.stream "video" "h264"; Ex.stream "audio" "opus"; Ex.stream "audio" "aac"]
     = false.
Proof. split; reflexivity. Qed.

(** ** The duration floor *)

Lemma at_least_one_py_max :
  forall x, at_least_one (py_max (of_int 1) x).
Proof.
  intros x. unfold py_max.
  destruct x as [q| | |]; simpl.
  - destruct (Qle_bool q (inject_Z 1)) eqn:E; simpl.
    + apply Qle_refl.
    + apply Qlt_le_weak. apply Qnot_le_lt. intro H.
      apply Qle_bool_iff in H. unfold inject_Z in E. congruence.
  - exact I.
  - apply Qle_refl.
  - apply Qle_refl.
Qed.




(* ------------------------------------------------------------------ *)
(** ** Laws of the thread monad *)

Lemma bind_Ok :
  forall A B (m : M A) (f : A -> M B) w a,
    res (m w) = Ok a ->
    bind m f w
    = mkOut (res (f a (world (m w)))) (world (f a (world (m w))))
            (emitted (m w) ++ emitted (f a (world (m w)))).
Proof. intros A B m f w a H. unfold bind. rewrite H. reflexivity. Qed.

Lemma bind_Raise :
  forall A B (m : M A) (f : A -> M B) w e,
    res (m w) = Raise e ->
    bind m f w = mkOut (Raise e) (world (m w)) (emitted (m w)).
Proof. intros A B m f w e H. unfold bind. rewrite H. reflexivity. Qed.

Lemma emits_ret : forall A P (a : A), emits P (ret a).
Proof. intros A P a w. reflexivity. Qed.

Lemma emits_raise : forall A P e, emits P (@raise A e).
Proof. intros A P e w. reflexivity. Qed.

Lemma emits_lift : forall A P (r : result A), emits P (lift r).
Proof. intros A P r w. reflexivity. Qed.

Lemma emits_get_fs : forall P, emits P get_fs.
Proof. intros P w. reflexivity. Qed.

Lemma emits_set_fs : forall P n, emits P (set_fs n).
Proof. intros P n w. reflexivity. Qed.

Lemma emits_emit : forall (P : Event -> bool) e, P e = true -> emits P (emit e).
Proof. intros P e H w. simpl. rewrite H. reflexivity. Qed.

Lemma emits_bind :
  forall A B P (m : M A) (f : A -> M B),
    emits P m -> (forall a, emits P (f a)) -> emits P (bind m f).
Proof.
  intros A B P m f Hm Hf w. unfold bind.
  destruct (res (m w)); simpl.
  - rewrite forallb_app, Hm, Hf. reflexivity.
  - apply Hm.
Qed.

Lemma emits_try_except :
  forall A P (m : M A) (h : exn -> M A),
    emits P m -> (forall e, emits P (h e)) -> emits P (try_except m h).
Proof.
  intros A P m h Hm Hh w. unfold try_except.
  destruct (res (m w)); simpl.
  - apply Hm.
  - rewrite forallb_app, Hm, Hh. reflexivity.
Qed.

Lemma emits_time_time : forall env P, emits P (time_time env).
Proof. intros env P w. reflexivity. Qed.

Lemma emits_proc_wait : forall P p, emits P (proc_wait p).
Proof. intros P p w. reflexivity. Qed.

Create HintDb emits discriminated.
#[local] Hint Resolve emits_ret emits_raise emits_lift emits_get_fs emits_set_fs
  emits_time_time emits_proc_wait : emits.

(** Goes through a computation written with [bind], splitting on whatever
    it branches on. *)
Ltac emits_step :=
  match goal with
  | |- emits _ (bind _ _) => apply emits_bind; [| intros ?]
  | |- emits _ (try_except _ _) => apply emits_try_except; [| intros ?]
  | |- emits _ (emit _) => apply emits_emit; reflexivity
  | |- emits _ (match ?x with _ => _ end) => destruct x
  | |- emits _ (if ?x then _ else _) => destruct x
  | |- emits _ _ => solve [auto with emits]
  end.

Ltac emits_all := repeat emits_step.

(** *** What each block lets out *)

Lemma emits_weaken :
  forall A (P Q : Event -> bool) (m : M A),
    (forall e, P e = true -> Q e = true) -> emits P m -> emits Q m.
Proof.
  intros A P Q m HPQ Hm w. specialize (Hm w).
  rewrite forallb_forall in *. auto.
Qed.

Lemma silent_nil :
  forall A (m : M A) w, emits silent m -> emitted (m w) = [].
Proof.
  intros A m w H. specialize (H w).
  destruct (emitted (m w)); [reflexivity | discriminate].
Qed.

Lemma percent_clamped :
  forall cur duration p, percent cur duration = Ok p -> (0 <= p <= 100)%Z.
Proof.
  intros cur duration p. unfold percent.
  destruct (fdiv _ duration); simpl; [| discriminate].
  destruct (py_int a); simpl; [| discriminate].
  intros H. inversion H. lia.
Qed.

Lemma read_progress_emits :
  forall env fname duration lines broken last_update,
    emits (fun e => match e with
                    | sig_file_progress f p =>
                        String.eqb f fname && (0 <=? p)%Z && (p <=? 100)%Z
                    | _ => false
                    end)
          (read_progress env fname duration last_update lines broken).
Proof.
  intros env fname duration lines broken.
  induction lines as [|line rest IH]; intros last_update; simpl.
  - destruct broken; auto with emits.
  - destruct (String.eqb line EmptyString); [apply IH|].
    destruct (contains "time=" line); [| apply IH].
    destruct (rbind (parse_time env line) _) as [p|] eqn:E; [| apply IH].
    assert (Hp : (0 <= p <= 100)%Z).
    { destruct (parse_time env line); simpl in E; [| discriminate].
      eapply percent_clamped; eauto. }
    apply emits_bind; [auto with emits|]. intros now.
    destruct (negb _); [| apply IH].
    apply emits_bind.
    + apply emits_emit. rewrite String.eqb_refl. simpl.
      apply andb_true_iff. split; apply Z.leb_le; lia.
    + intros _. apply emits_bind; [auto with emits|]. intros t. apply IH.
Qed.

Lemma prepare_out_dir_silent : forall out_dir, emits silent (prepare_out_dir out_dir).
Proof. intros. unfold prepare_out_dir, rmtree, mkdir. emits_all. Qed.

Lemma package_silent : forall job out_dir, emits silent (package job out_dir).
Proof.
  intros. unfold package, unlink, write_file, rmtree_ignore_errors. emits_all.
Qed.

Lemma emits_Popen_exit :
  forall A P proc (m : M A), emits P m -> emits P (Popen_exit proc m).
Proof. intros A P proc m H w. exact (H w). Qed.

Lemma encode_emits_job_event :
  forall env args fname duration, emits job_event (encode env args fname duration).
Proof.
  intros. unfold encode.
  apply emits_bind; [intros w; reflexivity | intros p].
  apply emits_Popen_exit.
  apply emits_bind; [auto with emits | intros t].
  apply emits_bind.
  - eapply emits_weaken; [| apply read_progress_emits].
    intros e He. destruct e; try discriminate. simpl in *.
    apply andb_true_iff in He. destruct He as [He1 He2].
    apply andb_true_iff in He1. destruct He1 as [_ He1].
    rewrite He1, He2. reflexivity.
  - intros _. emits_all.
Qed.

Lemma probing_emits_job_event :
  forall env ffprobe job, emits job_event (probing env ffprobe job).
Proof.
  intros. unfold probing.
  apply emits_bind.
  - eapply emits_weaken; [| apply prepare_out_dir_silent]. discriminate.
  - intros _. unfold probe, ffprobe_streams.
    apply emits_bind; [| intros meta; emits_all].
    apply emits_bind; [intros w; reflexivity | intros p]. emits_all.
Qed.

Lemma convert_emits_job_event :
  forall env ffmpeg job duration hls_ok,
    emits job_event (convert env ffmpeg job duration hls_ok).
Proof.
  intros. unfold convert.
  destruct (_ && _); [auto with emits|].
  apply emits_bind; [apply encode_emits_job_event | intros _].
  apply emits_bind.
  - eapply emits_weaken; [| apply package_silent]. discriminate.
  - intros z. emits_all.
Qed.

Lemma _process_one_emits_job_event :
  forall env ffmpeg ffprobe job, emits job_event (_process_one env ffmpeg ffprobe job).
Proof.
  intros. unfold _process_one.
  apply emits_bind; [apply probing_emits_job_event | intros dh].
  apply convert_emits_job_event.
Qed.

Lemma _process_one_emits_job_level :
  forall env ffmpeg ffprobe job, emits job_level (_process_one env ffmpeg ffprobe job).
Proof.
  intros. eapply emits_weaken; [| apply _process_one_emits_job_event].
  intros e He. destruct e; try discriminate; reflexivity.
Qed.

(** ** One turn of the loop of [run] *)

Lemma run_job_eq :
  forall env ffmpeg ffprobe total i job w,
    let o := _process_one env ffmpeg ffprobe job w in
    run_job env ffmpeg ffprobe total i job w
    = mkOut (Ok tt) (world o)
        (emitted o ++ report_of (name (src job)) (res o)
         ++ [sig_file_done (name (src job)) (status_of (res o));
             sig_progress (Z.of_nat i * 100 / Z.of_nat total)]).
Proof.
  intros. subst o. unfold run_job, bind, try_except.
  destruct (_process_one env ffmpeg ffprobe job w) as [r w1 evs]; simpl.
  destruct r as [[]|e]; simpl.
  - rewrite <- app_assoc. reflexivity.
  - destruct (is_SkipError e); simpl; rewrite <- app_assoc; reflexivity.
Qed.

Lemma overall_app : forall a b, overall (a ++ b) = overall a ++ overall b.
Proof. intros. unfold overall. apply flat_map_app. Qed.

Lemma outcomes_app : forall a b, outcomes (a ++ b) = outcomes a ++ outcomes b.
Proof. intros. unfold outcomes. apply flat_map_app. Qed.

Lemma percents_app : forall a b, percents (a ++ b) = percents a ++ percents b.
Proof. intros. unfold percents. apply flat_map_app. Qed.

Lemma encoder_calls_app :
  forall a b, encoder_calls (a ++ b) = encoder_calls a ++ encoder_calls b.
Proof. intros. unfold encoder_calls. apply flat_map_app. Qed.

Lemma prober_calls_app :
  forall a b, prober_calls (a ++ b) = prober_calls a ++ prober_calls b.
Proof. intros. unfold prober_calls. apply flat_map_app. Qed.

Lemma logged_app : forall a b, logged (a ++ b) = logged a ++ logged b.
Proof. intros. unfold logged. apply flat_map_app. Qed.

Lemma completions_app :
  forall a b, completions (a ++ b) = completions a + completions b.
Proof. intros. unfold completions. rewrite filter_app, length_app. reflexivity. Qed.

Lemma job_level_quiet :
  forall evs,
    forallb job_level evs = true ->
    overall evs = [] /\ outcomes evs = [] /\ completions evs = 0 /\ paired evs = true.
Proof.
  induction evs as [|e evs IH]; intros H; simpl in *.
  - auto.
  - apply andb_true_iff in H. destruct H as [He Hevs].
    destruct (IH Hevs) as (H1 & H2 & H3 & H4).
    destruct e; try discriminate; simpl; auto.
Qed.

Lemma paired_app :
  forall a b, paired a = true -> paired b = true -> paired (a ++ b) = true.
Proof.
  intros a. remember (List.length a) as n eqn:Hn.
  revert a Hn. induction n as [n IH] using lt_wf_ind.
  intros a Hn b Ha Hb. destruct a as [|e a]; simpl in *; [assumption|].
  destruct e; try discriminate;
    try (apply (IH (List.length a)); [subst; simpl; lia | reflexivity | assumption | assumption]).
  destruct a as [|e' a]; [discriminate|]. destruct e'; try discriminate.
  simpl. apply (IH (List.length a)); [subst; simpl; lia | reflexivity | assumption | assumption].
Qed.

Lemma run_job_quiet_prefix :
  forall env ffmpeg ffprobe job w,
    let o := _process_one env ffmpeg ffprobe job w in
    forallb job_level (emitted o ++ report_of (name (src job)) (res o)) = true.
Proof.
  intros. rewrite forallb_app. subst o.
  rewrite (_process_one_emits_job_level env ffmpeg ffprobe job w). simpl.
  destruct (res _); reflexivity.
Qed.

(** ** The loop of [run] *)

Lemma run_jobs_events :
  forall env ffmpeg ffprobe total jobs i w,
    let o := run_jobs env ffmpeg ffprobe total i jobs w in
    res o = Ok tt
    /\ exists m,
         m <= List.length jobs
         /\ List.length (outcomes (emitted o)) = m
         /\ overall (emitted o)
            = map (fun k => (Z.of_nat k * 100 / Z.of_nat total)%Z) (seq i m)
         /\ paired (emitted o) = true
         /\ completions (emitted o) = 0
         /\ ((forall k, stop_flag env k = false) -> m = List.length jobs).
Proof.
  intros env ffmpeg ffprobe total jobs.
  induction jobs as [|job rest IH]; intros i w; simpl.
  - split; [reflexivity|]. exists 0. simpl. repeat split; auto.
  - destruct (stop_flag env i) eqn:Hstop.
    + simpl. split; [reflexivity|]. exists 0. simpl.
      repeat split; auto; try lia.
      intros Hnever. rewrite Hnever in Hstop. discriminate.
    + rewrite (bind_Ok _ _ _ _ _ tt) by (rewrite run_job_eq; reflexivity).
      rewrite run_job_eq. cbn [res world emitted].
      set (o1 := _process_one env ffmpeg ffprobe job w).
      destruct (IH (S i) (world o1)) as (Hres & m & Hm & Hout & Hov & Hpair & Hcomp & Hall).
      split; [exact Hres|]. exists (S m).
      pose proof (run_job_quiet_prefix env ffmpeg ffprobe job w) as Hq.
      fold o1 in Hq. cbv zeta in Hq.
      rewrite app_assoc.
      set (pre := emitted o1 ++ report_of (name (src job)) (res o1)) in *.
      destruct (job_level_quiet pre Hq) as (Q1 & Q2 & Q3 & Q4).
      repeat split.
      * lia.
      * rewrite !outcomes_app, Q2. simpl. rewrite Hout. reflexivity.
      * rewrite !overall_app, Q1, Hov. reflexivity.
      * rewrite <- app_assoc. apply paired_app; [exact Q4|]. simpl. exact Hpair.
      * rewrite !completions_app, Q3, Hcomp. reflexivity.
      * intros Hnever. rewrite (Hall Hnever). reflexivity.
Qed.

Lemma floors_last :
  forall n, 0 < n -> last (floors n n) 0%Z = 100%Z.
Proof.
  intros n Hn. unfold floors. destruct n as [|k]; [lia|].
  rewrite seq_S, map_app. cbn [map]. rewrite last_last. simpl Nat.add.
  rewrite Z.mul_comm. apply Z.div_mul. lia.
Qed.

Lemma find_ffmpeg_binaries_error :
  forall env e,
    find_ffmpeg_binaries env = Raise e -> e = Exn FileNotFoundError not_found_msg.
Proof.
  intros env e. unfold find_ffmpeg_binaries.
  destruct (first_existing env _); [destruct (first_existing env _)|];
    intros H; inversion H; reflexivity.
Qed.

(** C7: every execution of [run] ends normally and lets out exactly one
    batch-complete signal, as its last event: whatever the job list (empty
    included), whatever the jobs' outcomes, whatever the [_stop] flag shows
    between jobs.  When the binaries cannot be located the whole output is
    one [ERROR] log line followed by the batch-complete signal, and the
    world is untouched: no job is started, none is reported. *)
Theorem C7_exactly_one_batch_complete :
  forall env jobs w,
    let o := run env jobs w in
    res o = Ok tt
    /\ completions (emitted o) = 1
    /\ (exists evs, emitted o = evs ++ [sig_all_done])
    /\ (forall e, find_ffmpeg_binaries env = Raise e ->
          emitted o = [sig_log ("ERROR: " ++ not_found_msg); sig_all_done]
          /\ world o = w).
Proof.
  intros env jobs w o. subst o. unfold run.
  destruct (find_ffmpeg_binaries env) as [[ffmpeg ffprobe]|e] eqn:Hfind.
  - destruct (run_jobs_events env ffmpeg ffprobe (List.length jobs) jobs 1 w)
      as (Hres & m & _ & _ & _ & _ & Hcomp & _).
    rewrite (bind_Ok _ _ _ _ _ tt) by exact Hres. cbn [res world emitted emit].
    repeat split.
    + rewrite completions_app, Hcomp. reflexivity.
    + eexists. reflexivity.
    + discriminate.
    + discriminate.
  - apply find_ffmpeg_binaries_error in Hfind. subst e.
    cbn. repeat split.
    exists [sig_log ("ERROR: " ++ not_found_msg)]. reflexivity.
Qed.

Lemma C7_exactly_one_batch_complete_witness :
  find_ffmpeg_binaries (Ex.env_with false Ex.meta_h264 [] 0 Ex.never)
  = Raise (Exn FileNotFoundError not_found_msg)
  /\ emitted (run (Ex.env_with false Ex.meta_h264 [] 0 Ex.never)
                  [Ex.job true false; Ex.job true false] (Ex.w0 Ex.disk))
     = [sig_log ("ERROR: " ++ not_found_msg); sig_all_done].
Proof.
  assert (H : find_ffmpeg_binaries (Ex.env_with false Ex.meta_h264 [] 0 Ex.never)
              = Raise (Exn FileNotFoundError not_found_msg)) by reflexivity.
  split; [exact H|].
  pose proof (C7_exactly_one_batch_complete
                (Ex.env_with false Ex.meta_h264 [] 0 Ex.never)
                [Ex.job true false; Ex.job true false] (Ex.w0 Ex.disk))
    as (_ & _ & _ & Hmissing).
  exact (proj1 (Hmissing _ H)).
Defined.

(** C4, as the code has it: for a non-empty job list of length N, the jobs
    that reach a terminal outcome are the first m, for some m <= N; the
    overall-progress events are, in order, floor(k*100/N) for k = 1..m;
    each directly follows the terminal event of its job and no
    overall-progress event occurs anywhere else.  When the binaries were
    located and the [_stop] flag is never seen set, m = N and the last
    overall-progress value is 100. *)
Theorem C4_overall_progress :
  forall env jobs w,
    jobs <> [] ->
    let o := run env jobs w in
    let N := List.length jobs in
    exists m,
      m <= N
      /\ List.length (outcomes (emitted o)) = m
      /\ overall (emitted o) = floors N m
      /\ paired (emitted o) = true
      /\ ((exists bins, find_ffmpeg_binaries env = Ok bins) ->
          (forall k, stop_flag env k = false) ->
          m = N /\ last (overall (emitted o)) 0%Z = 100%Z).
Proof.
  intros env jobs w Hne o N. subst o. unfold run.
  destruct (find_ffmpeg_binaries env) as [[ffmpeg ffprobe]|e] eqn:Hfind.
  - destruct (run_jobs_events env ffmpeg ffprobe (List.length jobs) jobs 1 w)
      as (Hres & m & Hm & Hout & Hov & Hpair & Hcomp & Hall).
    rewrite (bind_Ok _ _ _ _ _ tt) by exact Hres. cbn [res world emitted emit].
    exists m. repeat split.
    + exact Hm.
    + rewrite outcomes_app, length_app, Hout. simpl. lia.
    + rewrite overall_app, Hov. simpl. rewrite app_nil_r. reflexivity.
    + apply paired_app; [exact Hpair | reflexivity].
    + apply Hall. assumption.
    + rewrite overall_app, Hov. simpl. rewrite app_nil_r.
      rewrite (Hall H0). apply floors_last.
      subst N. destruct jobs; [congruence | simpl; lia].
  - exists 0. cbn. repeat split; try lia.
    + destruct H as [bins Hb]. discriminate.
    + destruct H as [bins Hb]. discriminate.
Qed.

Lemma C4_overall_progress_witness :
  [Ex.job true false; Ex.job true false] <> []
  /\ exists m,
       m <= 2
       /\ List.length
            (outcomes (emitted (run (Ex.env_with true Ex.meta_h264 [] 0 Ex.never)
                                    [Ex.job true false; Ex.job true false]
                                    (Ex.w0 Ex.clean_disk)))) = m
       /\ overall (emitted (run (Ex.env_with true Ex.meta_h264 [] 0 Ex.never)
                                [Ex.job true false; Ex.job true false]
                                (Ex.w0 Ex.clean_disk))) = floors 2 m
       /\ paired (emitted (run (Ex.env_with true Ex.meta_h264 [] 0 Ex.never)
                               [Ex.job true false; Ex.job true false]
                               (Ex.w0 Ex.clean_disk))) = true
       /\ ((exists bins,
              find_ffmpeg_binaries (Ex.env_with true Ex.meta_h264 [] 0 Ex.never) = Ok bins) ->
           (forall k, stop_flag (Ex.env_with true Ex.meta_h264 [] 0 Ex.never) k = false) ->
           m = 2
           /\ last (overall (emitted (run (Ex.env_with true Ex.meta_h264 [] 0 Ex.never)
                                          [Ex.job true false; Ex.job true false]
                                          (Ex.w0 Ex.clean_disk)))) 0%Z = 100%Z).
Proof.
  split.
  - discriminate.
  - apply (C4_overall_progress (Ex.env_with true Ex.meta_h264 [] 0 Ex.never)
             [Ex.job true false; Ex.job true false] (Ex.w0 Ex.clean_disk)).
    discriminate.
Defined.

(** C4, as stated, fails on two runs.  With two jobs and the [_stop] flag
    seen set before the second, the only overall-progress value is 50; with
    the binaries missing, a one-job batch has no overall-progress event at
    all.  In neither run is the final overall-progress value 100. *)
Lemma C4_counterexample :
  overall (emitted (run (Ex.env_with true Ex.meta_h264 [] 0 (Ex.from 2))
                        [Ex.job true false; Ex.job true false]
                        (Ex.w0 Ex.clean_disk)))
  = [50%Z]
  /\ overall (emitted (run (Ex.env_with false Ex.meta_h264 [] 0 Ex.never)
                           [Ex.job true false] (Ex.w0 Ex.clean_disk)))
     = [].
Proof. split; vm_compute; reflexivity. Qed.

(* ------------------------------------------------------------------ *)
(** ** The file system *)

Lemma assoc_set_key_same :
  forall A k (v : A) l, assoc k (set_key k v l) = Some v.
Proof.
  intros A k v l. induction l as [|[k' v'] l IH]; simpl.
  - rewrite String.eqb_refl. reflexivity.
  - destruct (String.eqb k k') eqn:E; simpl.
    + rewrite String.eqb_refl. reflexivity.
    + rewrite E. exact IH.
Qed.

Lemma assoc_set_key_other :
  forall A k k' (v : A) l, k <> k' -> assoc k' (set_key k v l) = assoc k' l.
Proof.
  intros A k k' v l Hne. induction l as [|[k0 v0] l IH]; simpl.
  - destruct (String.eqb k' k) eqn:E; [|reflexivity].
    apply String.eqb_eq in E. congruence.
  - destruct (String.eqb k k0) eqn:E; simpl.
    + apply String.eqb_eq in E. subst k0.
      destruct (String.eqb k' k) eqn:E'; [|reflexivity].
      apply String.eqb_eq in E'. congruence.
    + destruct (String.eqb k' k0); [reflexivity | exact IH].
Qed.

Lemma assoc_remove_key_same :
  forall A k (l : list (string * A)), assoc k (remove_key k l) = None.
Proof.
  intros A k l. induction l as [|[k' v'] l IH]; simpl; [reflexivity|].
  destruct (String.eqb k k') eqn:E; simpl; [exact IH|].
  rewrite E. exact IH.
Qed.

Lemma assoc_remove_key_other :
  forall A k k' (l : list (string * A)),
    k <> k' -> assoc k' (remove_key k l) = assoc k' l.
Proof.
  intros A k k' l Hne. induction l as [|[k0 v0] l IH]; simpl; [reflexivity|].
  destruct (String.eqb k k0) eqn:E; simpl.
  - apply String.eqb_eq in E. subst k0.
    destruct (String.eqb k' k) eqn:E'; [|exact IH].
    apply String.eqb_eq in E'. congruence.
  - destruct (String.eqb k' k0); [reflexivity | exact IH].
Qed.

Lemma remove_at_deeper :
  forall c c' p es,
    remove_at (c :: c' :: p) (Dir es)
    = match assoc c es with
      | Some child => Dir (set_key c (remove_at (c' :: p) child) es)
      | None => Dir es
      end.
Proof. reflexivity. Qed.

Lemma mkdir_p_cons :
  forall c p es,
    mkdir_p (c :: p) (Dir es)
    = match mkdir_p p (match assoc c es with Some child => child | None => Dir [] end) with
      | Some child' => Some (Dir (set_key c child' es))
      | None => None
      end.
Proof. reflexivity. Qed.

Lemma lookup_cons :
  forall c p es,
    lookup (c :: p) (Dir es)
    = match assoc c es with Some child => lookup p child | None => None end.
Proof. reflexivity. Qed.

(** After [remove_at p] nothing is at [p]. *)
Lemma lookup_remove_at :
  forall p n, p <> [] -> lookup p (remove_at p n) = None.
Proof.
  induction p as [|c p IH]; intros n Hne; [congruence|].
  destruct n as [x|es].
  - destruct p; reflexivity.
  - destruct p as [|c' p'].
    + simpl. rewrite assoc_remove_key_same. reflexivity.
    + rewrite remove_at_deeper. destruct (assoc c es) as [child|] eqn:E.
      * rewrite lookup_cons, assoc_set_key_same. apply IH. discriminate.
      * rewrite lookup_cons, E. reflexivity.
Qed.

(** [mkdir_p] on a path where nothing is yields an empty directory there. *)
Lemma lookup_mkdir_p_fresh :
  forall p n n',
    lookup p n = None -> mkdir_p p n = Some n' -> lookup p n' = Some (Dir []).
Proof.
  induction p as [|c p IH]; intros n n' Hnone Hmk.
  - discriminate.
  - destruct n as [x|es]; [discriminate|].
    cbn [mkdir_p] in Hmk. cbn [lookup] in Hnone.
    destruct (mkdir_p p _) as [child'|] eqn:E; [|discriminate].
    inversion Hmk; subst n'. cbn [lookup]. rewrite assoc_set_key_same.
    destruct (assoc c es) as [child|].
    + eapply IH; eauto.
    + destruct p as [|c' p'].
      * simpl in E. inversion E. reflexivity.
      * eapply IH; [|exact E]. reflexivity.
Qed.

(** Where a directory was removed, [mkdir_p] succeeds. *)
Lemma mkdir_p_after_remove :
  forall p n es,
    p <> [] -> lookup p n = Some (Dir es) ->
    exists n', mkdir_p p (remove_at p n) = Some n'.
Proof.
  induction p as [|c p IH]; intros n es Hne Hl; [congruence|].
  destruct n as [x|es0]; [discriminate|].
  cbn [lookup] in Hl. destruct (assoc c es0) as [child|] eqn:E; [|discriminate].
  destruct p as [|c' p'].
  - simpl. rewrite assoc_remove_key_same. eexists. reflexivity.
  - rewrite remove_at_deeper, E, mkdir_p_cons, assoc_set_key_same.
    destruct (IH child es) as [n' Hn']; [discriminate | exact Hl |].
    rewrite Hn'. eexists. reflexivity.
Qed.

Lemma out_dir_of_not_root : forall job, out_dir_of job <> [].
Proof. intros job. unfold out_dir_of. destruct (out_root job); discriminate. Qed.

(** ** Preparing the working directory (main.py:182-184) *)

Lemma prepare_out_dir_eq :
  forall p w,
    prepare_out_dir p w
    = match lookup p (fs w) with
      | Some (Dir _) =>
          match mkdir_p p (remove_at p (fs w)) with
          | Some n' => mkOut (Ok tt) {| fs := n'; ticks := ticks w |} []
          | None => mkOut (Raise (Exn OSError "File exists"))
                          {| fs := remove_at p (fs w); ticks := ticks w |} []
          end
      | Some (File _) => mkOut (Raise (Exn OSError "Not a directory")) w []
      | None =>
          match mkdir_p p (fs w) with
          | Some n' => mkOut (Ok tt) {| fs := n'; ticks := ticks w |} []
          | None => mkOut (Raise (Exn OSError "File exists")) w []
          end
      end.
Proof.
  intros p [root t].
  unfold prepare_out_dir, rmtree, mkdir, exists_at, bind, get_fs, ret, set_fs, raise.
  simpl.
  destruct (lookup p root) as [[x|es]|] eqn:E; simpl; rewrite ?E; simpl.
  - reflexivity.
  - destruct (mkdir_p p (remove_at p root)); reflexivity.
  - destruct (mkdir_p p root); reflexivity.
Qed.

(** If [prepare_out_dir] returns, the working directory is there and
    empty. *)
Lemma prepare_out_dir_fresh :
  forall out_dir w,
    out_dir <> [] ->
    res (prepare_out_dir out_dir w) = Ok tt ->
    lookup out_dir (fs (world (prepare_out_dir out_dir w))) = Some (Dir []).
Proof.
  intros out_dir w Hne. rewrite prepare_out_dir_eq.
  destruct (lookup out_dir (fs w)) as [[x|es]|] eqn:El.
  - discriminate.
  - pose proof (lookup_remove_at out_dir (fs w) Hne) as Hrm.
    destruct (mkdir_p out_dir (remove_at out_dir (fs w))) as [n'|] eqn:Em.
    + intros _. simpl. eapply lookup_mkdir_p_fresh; eauto.
    + discriminate.
  - destruct (mkdir_p out_dir (fs w)) as [n'|] eqn:Em.
    + intros _. simpl. eapply lookup_mkdir_p_fresh; eauto.
    + discriminate.
Qed.

(** It does return when a directory of that name was there. *)
Lemma prepare_out_dir_existing :
  forall out_dir w es,
    out_dir <> [] ->
    lookup out_dir (fs w) = Some (Dir es) ->
    res (prepare_out_dir out_dir w) = Ok tt.
Proof.
  intros out_dir w es Hne Hl. rewrite prepare_out_dir_eq, Hl.
  destruct (mkdir_p_after_remove out_dir (fs w) es Hne Hl) as [n' Hn'].
  rewrite Hn'. reflexivity.
Qed.

(** ** The probe (main.py:186-188) *)

(** The prober is run once, on the file system as it is; the probe changes
    nothing. *)
Lemma probe_effects :
  forall env ffprobe job w,
    let o := probe env ffprobe job w in
    world o = w
    /\ emitted o = [ev_run (ffprobe_cmd ffprobe (path_str (src job))) (fs w)].
Proof.
  intros env ffprobe job w. unfold probe, ffprobe_streams, subprocess_run, bind, lift, ret, raise.
  simpl. destruct (negb _); simpl; [auto|].
  destruct (json_loads env _); simpl; [|auto].
  destruct (codecs_are_hls_friendly j); simpl; auto.
Qed.

(** Either the preparation of the working directory fails, and then nothing
    was let out; or the prober runs, once, on a file system where the
    working directory is there and empty, which is also the file system at
    the end of the probing. *)
Lemma probing_spec :
  forall env ffprobe job w,
    let o := probing env ffprobe job w in
    (exists e, res (prepare_out_dir (out_dir_of job) w) = Raise e
               /\ res o = Raise e /\ emitted o = [])
    \/ (res (prepare_out_dir (out_dir_of job) w) = Ok tt
        /\ res o = res (probe env ffprobe job (world (prepare_out_dir (out_dir_of job) w)))
        /\ emitted o = [ev_run (ffprobe_cmd ffprobe (path_str (src job))) (fs (world o))]
        /\ lookup (out_dir_of job) (fs (world o)) = Some (Dir [])).
Proof.
  intros env ffprobe job w o. subst o. unfold probing.
  pose proof (silent_nil _ _ w (prepare_out_dir_silent (out_dir_of job))) as Hsil.
  destruct (res (prepare_out_dir (out_dir_of job) w)) as [[]|e] eqn:Hp.
  - right. rewrite (bind_Ok _ _ _ _ _ tt) by exact Hp. cbn [res world emitted].
    destruct (probe_effects env ffprobe job (world (prepare_out_dir (out_dir_of job) w)))
      as [Hw He].
    rewrite Hsil, Hw, He. simpl. repeat split.
    apply prepare_out_dir_fresh; [apply out_dir_of_not_root | exact Hp].
  - left. exists e. rewrite (bind_Raise _ _ _ _ _ e) by exact Hp. simpl. auto.
Qed.

Lemma probe_res :
  forall env ffprobe job w,
    let proc := proc_run env (ffprobe_cmd ffprobe (path_str (src job))) (fs w) in
    res (probe env ffprobe job w)
    = if negb (returncode proc =? 0)%Z
      then Raise (Exn RuntimeError (strip (stderr proc)))
      else match json_loads env (stdout proc) with
           | None => Raise (Exn JSONDecodeError "Expecting value")
           | Some meta =>
               match codecs_are_hls_friendly meta with
               | Ok hls_ok =>
                   Ok (py_max (of_int 1) (get_duration_seconds env meta), hls_ok)
               | Raise e => Raise e
               end
           end.
Proof.
  intros env ffprobe job w proc. subst proc.
  unfold probe, ffprobe_streams, subprocess_run, bind, lift, ret, raise.
  cbn [res world emitted]. destruct (negb _); cbn [res world emitted]; [reflexivity|].
  destruct (json_loads env _); cbn [res world emitted]; [| reflexivity].
  destruct (codecs_are_hls_friendly j); reflexivity.
Qed.

Lemma probing_after_prepare :
  forall env ffprobe job w,
    res (prepare_out_dir (out_dir_of job) w) = Ok tt ->
    let w1 := world (prepare_out_dir (out_dir_of job) w) in
    probing env ffprobe job w
    = mkOut (res (probe env ffprobe job w1)) w1
            [ev_run (ffprobe_cmd ffprobe (path_str (src job))) (fs w1)].
Proof.
  intros env ffprobe job w Hp w1. subst w1. unfold probing.
  rewrite (bind_Ok _ _ _ _ _ tt Hp).
  rewrite (silent_nil _ _ w (prepare_out_dir_silent (out_dir_of job))).
  destruct (probe_effects env ffprobe job (world (prepare_out_dir (out_dir_of job) w)))
    as [Hw He].
  rewrite Hw, He. reflexivity.
Qed.


Lemma probing_ok_intro :
  forall env ffprobe job w meta hls_ok,
    res (prepare_out_dir (out_dir_of job) w) = Ok tt ->
    let w1 := world (prepare_out_dir (out_dir_of job) w) in
    let proc := proc_run env (ffprobe_cmd ffprobe (path_str (src job))) (fs w1) in
    returncode proc = 0%Z ->
    json_loads env (stdout proc) = Some meta ->
    codecs_are_hls_friendly meta = Ok hls_ok ->
    res (probing env ffprobe job w)
    = Ok (py_max (of_int 1) (get_duration_seconds env meta), hls_ok).
Proof.
  intros env ffprobe job w meta hls_ok Hp w1 proc Hrc Hj Hc.
  rewrite (probing_after_prepare env ffprobe job w Hp). cbn [res].
  rewrite probe_res. fold w1. fold proc. rewrite Hrc, Hj, Hc. reflexivity.
Qed.

(** ** The encoder run (main.py:217-244) *)

(** The reading loop raises exactly when a read fails, whatever the lines
    hold, and leaves the disk alone. *)
Lemma read_progress_spec :
  forall env fname duration lines broken last_update w,
    let o := read_progress env fname duration last_update lines broken w in
    res o = read_result broken /\ fs (world o) = fs w.
Proof.
  intros env fname duration lines broken.
  induction lines as [|line rest IH]; intros last_update w; simpl.
  - destruct broken; auto.
  - destruct (String.eqb line EmptyString); [apply IH|].
    destruct (contains "time=" line); [| apply IH].
    destruct (rbind (parse_time env line) _) as [p|]; [| apply IH].
    unfold bind, time_time, emit. cbn [res world emitted fs ticks].
    destruct (negb _); cbn [res world emitted fs ticks].
    + destruct (IH (clock env (S (ticks w)))
                   {| fs := fs w; ticks := S (S (ticks w)) |}) as [H1 H2].
      rewrite H1. destruct broken; cbn [read_result res world emitted fs ticks]; auto.
    + destruct (IH last_update {| fs := fs w; ticks := S (ticks w) |}) as [H1 H2].
      rewrite H1. destruct broken; cbn [read_result res world emitted fs ticks]; auto.
Qed.

Lemma encode_eq :
  forall env args fname duration w,
    let p := proc_popen env args (fs w) in
    let rp := reading env fname duration p w in
    encode env args fname duration w
    = mkOut (match enc_broken p with
             | Some msg => Raise (Exn UnicodeDecodeError msg)
             | None => if negb (enc_returncode p =? 0)%Z then Raise ffmpeg_failed else Ok tt
             end)
            {| fs := enc_fs p; ticks := ticks (world rp) |}
            (ev_popen args (fs w) :: emitted rp).
Proof.
  intros env args fname duration w p rp. subst p rp. unfold reading.
  unfold encode, Popen_exit, bind, Popen, time_time, proc_wait.
  cbn [res world emitted fs ticks].
  destruct (read_progress_spec env fname duration
              (enc_stderr (proc_popen env args (fs w)))
              (enc_broken (proc_popen env args (fs w))) (clock env (ticks w))
              {| fs := fs w; ticks := S (ticks w) |}) as [H1 H2].
  rewrite H1. destruct (enc_broken (proc_popen env args (fs w)));
    cbn [read_result res world emitted fs ticks].
  - rewrite ?app_nil_r. reflexivity.
  - destruct (negb _); cbn [res world emitted fs ticks raise ret];
      rewrite ?app_nil_r; reflexivity.
Qed.

(** *** Which exceptions a block can raise *)

Lemma raises_ret : forall A P (a : A), raises P (ret a).
Proof. intros A P a w e H. discriminate. Qed.

Lemma raises_raise : forall A (P : exn -> bool) e, P e = true -> raises P (@raise A e).
Proof. intros A P e H w e' H'. inversion H'. subst. exact H. Qed.

Lemma raises_get_fs : forall P, raises P get_fs.
Proof. intros P w e H. discriminate. Qed.

Lemma raises_set_fs : forall P n, raises P (set_fs n).
Proof. intros P n w e H. discriminate. Qed.

Lemma raises_emit : forall P ev, raises P (emit ev).
Proof. intros P ev w e H. discriminate. Qed.

Lemma raises_bind :
  forall A B P (m : M A) (f : A -> M B),
    raises P m -> (forall a, raises P (f a)) -> raises P (bind m f).
Proof.
  intros A B P m f Hm Hf w e. unfold bind.
  destruct (res (m w)) eqn:E; simpl; intros H.
  - eapply Hf; eauto.
  - inversion H; subst. eapply Hm; eauto.
Qed.

#[local] Hint Resolve raises_ret raises_get_fs raises_set_fs raises_emit : emits.

Ltac raises_step :=
  match goal with
  | |- raises _ (bind _ _) => apply raises_bind; [| intros ?]
  | |- raises _ (raise _) => apply raises_raise; reflexivity
  | |- raises _ (match ?x with _ => _ end) => destruct x
  | |- raises _ (if ?x then _ else _) => destruct x
  | |- raises _ _ => solve [auto with emits]
  end.

Lemma zip_write_all_error :
  forall root out_dir ps e,
    snd (zip_write_all root out_dir ps) = Some e -> not_skip e = true.
Proof.
  intros root out_dir ps e. induction ps as [|p ps IH]; simpl.
  - discriminate.
  - destruct (lookup p root) as [[c|es]|]; simpl.
    + exact IH.
    + exact IH.
    + intros H. inversion H. reflexivity.
Qed.

Lemma package_raises : forall job out_dir, raises not_skip (package job out_dir).
Proof.
  intros job out_dir. unfold package, unlink, write_file, rmtree_ignore_errors.
  apply raises_bind; [repeat raises_step | intros present].
  apply raises_bind; [repeat raises_step | intros _].
  apply raises_bind; [repeat raises_step | intros _].
  apply raises_bind; [repeat raises_step | intros root].
  apply raises_bind; [repeat raises_step | intros _].
  destruct (snd (zip_write_all root out_dir (walked_files out_dir root))) as [e|] eqn:E.
  - apply raises_raise. eapply zip_write_all_error; eauto.
  - repeat raises_step.
Qed.

Lemma encode_raises :
  forall env args fname duration, raises not_skip (encode env args fname duration).
Proof.
  intros env args fname duration w e. rewrite encode_eq. cbn [res].
  destruct (enc_broken _); [| destruct (negb _)]; intros H; inversion H; reflexivity.
Qed.

(** ** The decision (main.py:190-205) *)

Lemma no_percent_no_call :
  forall evs,
    forallb (fun e => match e with sig_file_progress _ _ => true | _ => false end) evs = true ->
    encoder_calls evs = [].
Proof.
  induction evs as [|e evs IH]; simpl; intros H; [reflexivity|].
  apply andb_true_iff in H. destruct H as [He Hevs].
  destruct e; try discriminate. simpl. auto.
Qed.

Lemma reading_calls :
  forall env fname duration p w, encoder_calls (emitted (reading env fname duration p w)) = [].
Proof.
  intros. unfold reading. apply no_percent_no_call.
  pose proof (read_progress_emits env fname duration (enc_stderr p) (enc_broken p)
                (clock env (ticks w)) {| fs := fs w; ticks := S (ticks w) |}) as H.
  rewrite forallb_forall in *. intros e He. specialize (H e He).
  destruct e; try discriminate. reflexivity.
Qed.

Lemma emitted_bind :
  forall A B (m : M A) (f : A -> M B) w,
    emitted (bind m f w)
    = emitted (m w)
      ++ match res (m w) with
         | Ok a => emitted (f a (world (m w)))
         | Raise _ => []
         end.
Proof.
  intros. unfold bind. destruct (res (m w)); simpl; [reflexivity|].
  rewrite app_nil_r. reflexivity.
Qed.

Lemma convert_skips :
  forall env ffmpeg job duration hls_ok w,
    skips job hls_ok = true ->
    convert env ffmpeg job duration hls_ok w = mkOut (Raise skip_error) w [].
Proof.
  intros env ffmpeg job duration hls_ok w H. unfold convert.
  fold (skips job hls_ok). rewrite H. reflexivity.
Qed.

Lemma convert_encodes :
  forall env ffmpeg job duration hls_ok w,
    skips job hls_ok = false ->
    let o := convert env ffmpeg job duration hls_ok w in
    encoder_calls (emitted o) = [build_args ffmpeg job (out_dir_of job) hls_ok]
    /\ (forall e, res o = Raise e -> not_skip e = true).
Proof.
  intros env ffmpeg job duration hls_ok w H o. subst o. unfold convert.
  fold (skips job hls_ok). rewrite H. split.
  - rewrite emitted_bind, encoder_calls_app, encode_eq. cbn [res emitted world].
    cbn [encoder_calls flat_map app]. fold (encoder_calls (emitted (reading env (name (src job)) duration
           (proc_popen env (build_args ffmpeg job (out_dir_of job) hls_ok) (fs w)) w))).
    rewrite reading_calls. simpl app.
    destruct (enc_broken _); [reflexivity|].
    destruct (negb _); [reflexivity|].
    rewrite emitted_bind, encoder_calls_app.
    rewrite (silent_nil _ _ _ (package_silent job (out_dir_of job))). simpl.
    match goal with |- context [match ?r with Ok _ => _ | Raise _ => _ end] => destruct r end;
      reflexivity.
  - intros e. revert w e.
    change (raises not_skip
              (bind (encode env (build_args ffmpeg job (out_dir_of job) hls_ok)
                            (name (src job)) duration)
                    (fun _ => bind (package job (out_dir_of job))
                                (fun zip_path =>
                                   bind (emit (sig_log ("DONE: " ++ name (src job) ++ " → " ++ name zip_path)%string))
                                        (fun _ => emit (sig_file_progress (name (src job)) 100)))))).
    apply raises_bind; [apply encode_raises | intros _].
    apply raises_bind; [apply package_raises | intros z].
    repeat raises_step.
Qed.

Lemma _process_one_after_probing :
  forall env ffmpeg ffprobe job w duration hls_ok,
    res (probing env ffprobe job w) = Ok (duration, hls_ok) ->
    let w1 := world (probing env ffprobe job w) in
    let c := convert env ffmpeg job duration hls_ok w1 in
    _process_one env ffmpeg ffprobe job w
    = mkOut (res c) (world c) (emitted (probing env ffprobe job w) ++ emitted c)
    /\ emitted (probing env ffprobe job w)
       = [ev_run (ffprobe_cmd ffprobe (path_str (src job))) (fs w1)]
    /\ lookup (out_dir_of job) (fs w1) = Some (Dir []).
Proof.
  intros env ffmpeg ffprobe job w duration hls_ok H w1 c. subst w1 c.
  split.
  - unfold _process_one. rewrite (bind_Ok _ _ _ _ _ _ H). reflexivity.
  - destruct (probing_spec env ffprobe job w) as [(e & _ & He & _)|(_ & _ & H1 & H2)].
    + congruence.
    + auto.
Qed.

(** C1: once the probing has given its bit, the encoder command line of
    the job is decided by that bit and the two policy flags alone.  With the
    bit set the encoder is started once, with the stream-copy arguments, and
    the job is not skipped; with the bit clear and ([skip_if_incompatible]
    off or [enable_transcode_if_needed] on) it is started once, with the
    transcode arguments, and the job is not skipped; otherwise the encoder
    is not started and the job raises [SkipError]. *)
Theorem C1_path_decided_by_three_bits :
  forall env ffmpeg ffprobe job w duration hls_ok,
    res (probing env ffprobe job w) = Ok (duration, hls_ok) ->
    let o := _process_one env ffmpeg ffprobe job w in
    let call codec := input_args ffmpeg job ++ codec ++ output_args job (out_dir_of job) in
    (hls_ok = true ->
     encoder_calls (emitted o) = [call copy_args] /\ status_of (res o) <> "SKIP")
    /\ (hls_ok = false ->
        skip_if_incompatible job = false \/ enable_transcode_if_needed job = true ->
        encoder_calls (emitted o) = [call transcode_args] /\ status_of (res o) <> "SKIP")
    /\ (hls_ok = false ->
        skip_if_incompatible job = true ->
        enable_transcode_if_needed job = false ->
        encoder_calls (emitted o) = [] /\ res o = Raise skip_error).
Proof.
  intros env ffmpeg ffprobe job w duration hls_ok H o call. subst o call.
  destruct (_process_one_after_probing env ffmpeg ffprobe job w duration hls_ok H)
    as (Heq & Hev & _).
  rewrite Heq. cbn [res emitted].
  rewrite encoder_calls_app, Hev. cbn [encoder_calls flat_map app].
  assert (Hrun : skips job hls_ok = false ->
                 encoder_calls
                   (emitted (convert env ffmpeg job duration hls_ok
                               (world (probing env ffprobe job w))))
                 = [build_args ffmpeg job (out_dir_of job) hls_ok]
                 /\ status_of
                      (res (convert env ffmpeg job duration hls_ok
                              (world (probing env ffprobe job w)))) <> "SKIP").
  { intros Hs.
    destruct (convert_encodes env ffmpeg job duration hls_ok
                (world (probing env ffprobe job w)) Hs) as [Hc Hr].
    split; [exact Hc|].
    destruct (res (convert _ _ _ _ _ _)) as [[]|e]; simpl; [discriminate|].
    specialize (Hr e eq_refl). unfold not_skip in Hr.
    destruct (is_SkipError e); [discriminate Hr | discriminate]. }
  split; [| split].
  - intros Hb. subst hls_ok. apply Hrun. reflexivity.
  - intros Hb Hflags. subst hls_ok. apply Hrun. unfold skips.
    destruct Hflags as [Hk|Ht]; rewrite ?Hk, ?Ht; simpl.
    + reflexivity.
    + destruct (skip_if_incompatible job); reflexivity.
  - intros Hb Hk Ht. rewrite convert_skips.
    + split; reflexivity.
    + unfold skips. rewrite Hb, Hk, Ht. reflexivity.
Qed.

Lemma C1_path_decided_by_three_bits_witness :
  res (probing (Ex.env_with true Ex.meta_h264 [] 0 Ex.never) "/usr/bin/ffprobe"
               (Ex.job true false) (Ex.w0 Ex.disk))
  = Ok (Fin (20 # 1), true)
  /\ encoder_calls
       (emitted (_process_one (Ex.env_with true Ex.meta_h264 [] 0 Ex.never)
                              "/usr/bin/ffmpeg" "/usr/bin/ffprobe"
                              (Ex.job true false) (Ex.w0 Ex.disk)))
     = [["/usr/bin/ffmpeg"; "-y"; "-hide_banner"; "-loglevel"; "error"; "-stats";
         "-i"; "/videos/clip.mp4"; "-c:v"; "copy"; "-c:a"; "copy";
         "-movflags"; "+faststart"; "-f"; "hls"; "-hls_time"; "6";
         "-hls_list_size"; "0"; "-hls_segment_filename";
         "/out/clip_hls/segment_%05d.ts"; "/out/clip_hls/playlist.m3u8"]].
Proof.
  assert (H : res (probing (Ex.env_with true Ex.meta_h264 [] 0 Ex.never) "/usr/bin/ffprobe"
                           (Ex.job true false) (Ex.w0 Ex.disk))
              = Ok (Fin (20 # 1), true)) by (vm_compute; reflexivity).
  split; [exact H|].
  exact (proj1 (proj1 (C1_path_decided_by_three_bits
                         (Ex.env_with true Ex.meta_h264 [] 0 Ex.never)
                         "/usr/bin/ffmpeg" "/usr/bin/ffprobe"
                         (Ex.job true false) (Ex.w0 Ex.disk) _ _ H) eq_refl)).
Defined.

(** ** Skipped jobs *)

(** C2, as the code has it: a job on whose probed metadata the worker's own
    check, [codecs_are_hls_friendly], answers [False], with
    [skip_if_incompatible] on and [enable_transcode_if_needed] off, ends
    with the single terminal status SKIP (not FAIL), logged once as a skip;
    the encoder is never started for it; and the working directory, created
    before the probe, is left on disk, empty.  The check is the one of
    main.py:115-122, which is not the rule "every audio stream accepted". *)
Theorem C2_skipped_job_leaves_empty_directory :
  forall env ffmpeg ffprobe total i job w meta,
    res (prepare_out_dir (out_dir_of job) w) = Ok tt ->
    returncode (proc_run env (ffprobe_cmd ffprobe (path_str (src job)))
                         (fs (world (prepare_out_dir (out_dir_of job) w)))) = 0%Z ->
    json_loads env
      (stdout (proc_run env (ffprobe_cmd ffprobe (path_str (src job)))
                        (fs (world (prepare_out_dir (out_dir_of job) w))))) = Some meta ->
    codecs_are_hls_friendly meta = Ok false ->
    skip_if_incompatible job = true ->
    enable_transcode_if_needed job = false ->
    let o := run_job env ffmpeg ffprobe total i job w in
    outcomes (emitted o) = ["SKIP"]
    /\ logged (emitted o)
       = [("SKIP: " ++ name (src job)
           ++ " — Codecs not HLS-friendly (need H.264 video and AAC/MP3/AC3 audio).")%string]
    /\ encoder_calls (emitted o) = []
    /\ prober_calls (emitted o) = [ffprobe_cmd ffprobe (path_str (src job))]
    /\ lookup (out_dir_of job) (fs (world o)) = Some (Dir []).
Proof.
  intros env ffmpeg ffprobe total i job w meta Hp Hrc Hj Hc Hk Ht o. subst o.
  pose proof (probing_ok_intro env ffprobe job w meta false Hp Hrc Hj Hc) as H.
  destruct (_process_one_after_probing env ffmpeg ffprobe job w _ false H)
    as (Heq & Hev & Hdir).
  rewrite convert_skips in Heq by (unfold skips; rewrite Hk, Ht; reflexivity).
  cbn [res world emitted] in Heq.
  rewrite run_job_eq. cbv zeta. rewrite Heq. cbn [res world emitted].
  rewrite Hev. simpl. repeat split. exact Hdir.
Qed.

Lemma C2_skipped_job_leaves_empty_directory_witness :
  codecs_are_hls_friendly Ex.meta_hevc = Ok false
  /\ outcomes (emitted (run_job (Ex.env_with true Ex.meta_hevc [] 0 Ex.never)
                                "/usr/bin/ffmpeg" "/usr/bin/ffprobe" 1 1
                                (Ex.job true false) (Ex.w0 Ex.disk)))
     = ["SKIP"]
  /\ lookup ["out"; "clip_hls"]
       (fs (world (run_job (Ex.env_with true Ex.meta_hevc [] 0 Ex.never)
                           "/usr/bin/ffmpeg" "/usr/bin/ffprobe" 1 1
                           (Ex.job true false) (Ex.w0 Ex.disk))))
     = Some (Dir []).
Proof.
  assert (Hp : res (prepare_out_dir (out_dir_of (Ex.job true false)) (Ex.w0 Ex.disk)) = Ok tt)
    by (vm_compute; reflexivity).
  assert (Hj : json_loads (Ex.env_with true Ex.meta_hevc [] 0 Ex.never)
                 (stdout (proc_run (Ex.env_with true Ex.meta_hevc [] 0 Ex.never)
                            (ffprobe_cmd "/usr/bin/ffprobe" (path_str (src (Ex.job true false))))
                            (fs (world (prepare_out_dir (out_dir_of (Ex.job true false))
                                                        (Ex.w0 Ex.disk))))))
               = Some Ex.meta_hevc) by (vm_compute; reflexivity).
  assert (Hc : codecs_are_hls_friendly Ex.meta_hevc = Ok false) by reflexivity.
  pose proof (C2_skipped_job_leaves_empty_directory
                (Ex.env_with true Ex.meta_hevc [] 0 Ex.never)
                "/usr/bin/ffmpeg" "/usr/bin/ffprobe" 1 1
                (Ex.job true false) (Ex.w0 Ex.disk) Ex.meta_hevc
                Hp eq_refl Hj Hc eq_refl eq_refl) as (H1 & _ & _ & _ & H5).
  split; [exact Hc | split; [exact H1 | exact H5]].
Defined.

(** C2, as stated, fails twice.  On an HEVC file converted with the default
    flags into an output folder that holds no working directory, the job is
    skipped and the encoder is not started, but the working directory,
    absent before, is on disk afterwards.  And on a file with H.264 video
    and two audio tracks, Opus then AAC, whose codecs the rule "every audio
    stream accepted" does not accept, the worker's check answers true: with
    the same flags the job is not skipped, the encoder is started, and the
    job completes. *)
Lemma C2_counterexample :
  (lookup ["out"; "clip_hls"] Ex.clean_disk = None
   /\ codecs_are_hls_friendly Ex.meta_hevc = Ok false
   /\ outcomes (emitted (run (Ex.env_with true Ex.meta_hevc [] 0 Ex.never)
                             [Ex.job true false] (Ex.w0 Ex.clean_disk)))
      = ["SKIP"]
   /\ encoder_calls (emitted (run (Ex.env_with true Ex.meta_hevc [] 0 Ex.never)
                                  [Ex.job true false] (Ex.w0 Ex.clean_disk)))
      = []
   /\ lookup ["out"; "clip_hls"]
        (fs (world (run (Ex.env_with true Ex.meta_hevc [] 0 Ex.never)
                        [Ex.job true false] (Ex.w0 Ex.clean_disk))))
      = Some (Dir []))
  /\ (spec_hls_friendly
        [Ex.stream "video" "h264"; Ex.stream "audio" "opus"; Ex.stream "audio" "aac"]
      = false
      /\ codecs_are_hls_friendly Ex.meta_two_audio = Ok true
      /\ skip_if_incompatible (Ex.job true false) = true
      /\ enable_transcode_if_needed (Ex.job true false) = false
      /\ outcomes (emitted (run (Ex.env_with true Ex.meta_two_audio [] 0 Ex.never)
                                [Ex.job true false] (Ex.w0 Ex.clean_disk)))
         = ["OK"]
      /\ List.length
           (encoder_calls (emitted (run (Ex.env_with true Ex.meta_two_audio [] 0 Ex.never)
                                        [Ex.job true false] (Ex.w0 Ex.clean_disk))))
         = 1).
Proof. repeat split; vm_compute; reflexivity. Qed.

(** ** Encoder failure *)

(** C5, as the code has it: when the encoder, once started, exits with a
    non-zero status, the job ends with the single terminal status FAIL and
    the file system is left exactly as the encoder left it: the worker
    removes nothing.  The reason logged is the fixed text of main.py:244
    when every read of the encoder's status channel gave a line; when a
    read failed on bytes that do not decode, the loop was left by that
    [UnicodeDecodeError] (main.py:220 is outside the [try]), the exit
    status is never looked at, and the reason logged is its text. *)
Theorem C5_encoder_failure_keeps_directory :
  forall env ffmpeg ffprobe total i job w duration hls_ok,
    res (probing env ffprobe job w) = Ok (duration, hls_ok) ->
    skips job hls_ok = false ->
    let p := proc_popen env (build_args ffmpeg job (out_dir_of job) hls_ok)
                        (fs (world (probing env ffprobe job w))) in
    enc_returncode p <> 0%Z ->
    let o := run_job env ffmpeg ffprobe total i job w in
    outcomes (emitted o) = ["FAIL"]
    /\ logged (emitted o)
       = [("FAIL: " ++ name (src job) ++ " — "
           ++ match enc_broken p with
              | None => "ffmpeg failed — check logs and ensure codecs are supported."
              | Some msg => msg
              end)%string]
    /\ fs (world o) = enc_fs p
    /\ lookup (out_dir_of job) (fs (world o)) = lookup (out_dir_of job) (enc_fs p).
Proof.
  intros env ffmpeg ffprobe total i job w duration hls_ok H Hs p Hrc o. subst o.
  destruct (_process_one_after_probing env ffmpeg ffprobe job w duration hls_ok H)
    as (Heq & Hev & Hdir).
  set (err := match enc_broken p with
              | Some msg => Exn UnicodeDecodeError msg
              | None => ffmpeg_failed
              end).
  assert (Hc : convert env ffmpeg job duration hls_ok (world (probing env ffprobe job w))
               = mkOut (Raise err)
                   {| fs := enc_fs p;
                      ticks := ticks (world (reading env (name (src job)) duration p
                                               (world (probing env ffprobe job w)))) |}
                   (ev_popen (build_args ffmpeg job (out_dir_of job) hls_ok)
                             (fs (world (probing env ffprobe job w)))
                    :: emitted (reading env (name (src job)) duration p
                                  (world (probing env ffprobe job w))))).
  { unfold convert. fold (skips job hls_ok). rewrite Hs.
    rewrite (bind_Raise _ _ _ _ _ err); rewrite encode_eq; cbn [res world emitted];
      fold p; subst err; destruct (enc_broken p); try reflexivity;
      destruct (enc_returncode p =? 0)%Z eqn:E; try reflexivity;
      apply Z.eqb_eq in E; congruence. }
  rewrite Hc in Heq. cbn [res world emitted] in Heq.
  rewrite run_job_eq. cbv zeta. rewrite Heq. cbn [res world emitted fs].
  rewrite Hev.
  assert (Hq : forallb (fun e => match e with sig_file_progress _ _ => true | _ => false end)
                 (emitted (reading env (name (src job)) duration p
                             (world (probing env ffprobe job w)))) = true).
  { unfold reading.
    pose proof (read_progress_emits env (name (src job)) duration (enc_stderr p) (enc_broken p)
                  (clock env (ticks (world (probing env ffprobe job w))))
                  {| fs := fs (world (probing env ffprobe job w));
                     ticks := S (ticks (world (probing env ffprobe job w))) |}) as Hr.
    rewrite forallb_forall in *. intros e He. specialize (Hr e He).
    destruct e; try discriminate. reflexivity. }
  assert (Hquiet : forall evs,
             forallb (fun e => match e with sig_file_progress _ _ => true | _ => false end) evs = true ->
             outcomes evs = [] /\ logged evs = []).
  { induction evs as [|e evs IH]; simpl; intros Hall; [auto|].
    apply andb_true_iff in Hall. destruct Hall as [He Hevs].
    destruct e; try discriminate. simpl. auto. }
  destruct (Hquiet _ Hq) as [Ho Hl].
  assert (Hstatus : status_of (@Raise unit err) = "FAIL")
    by (subst err; destruct (enc_broken p); reflexivity).
  assert (Hstr : exn_str err
                 = match enc_broken p with
                   | None => "ffmpeg failed — check logs and ensure codecs are supported."
                   | Some msg => msg
                   end)
    by (subst err; destruct (enc_broken p); reflexivity).
  split; [| split; [| split; reflexivity]].
  - rewrite !outcomes_app. cbn [outcomes flat_map app].
    fold (outcomes (emitted (reading env (name (src job)) duration p
                               (world (probing env ffprobe job w))))).
    rewrite Ho. cbn [report_of]. cbn [flat_map app]. rewrite Hstatus. reflexivity.
  - rewrite !logged_app. cbn [logged flat_map app].
    fold (logged (emitted (reading env (name (src job)) duration p
                             (world (probing env ffprobe job w))))).
    rewrite Hl. cbn [report_of flat_map app]. rewrite Hstatus, Hstr. reflexivity.
Qed.

Lemma C5_encoder_failure_keeps_directory_witness :
  (res (probing (Ex.env_with true Ex.meta_h264 [] 1 Ex.never) "/usr/bin/ffprobe"
                (Ex.job true false) (Ex.w0 Ex.disk))
   = Ok (Fin (20 # 1), true)
   /\ skips (Ex.job true false) true = false
   /\ logged (emitted (run_job (Ex.env_with true Ex.meta_h264 [] 1 Ex.never)
                               "/usr/bin/ffmpeg" "/usr/bin/ffprobe" 1 1
                               (Ex.job true false) (Ex.w0 Ex.disk)))
      = ["FAIL: clip.mp4 — ffmpeg failed — check logs and ensure codecs are supported."]
   /\ lookup ["out"; "clip_hls"]
        (fs (world (run_job (Ex.env_with true Ex.meta_h264 [] 1 Ex.never)
                            "/usr/bin/ffmpeg" "/usr/bin/ffprobe" 1 1
                            (Ex.job true false) (Ex.w0 Ex.disk))))
      = Some (Dir Ex.hls_files))
  /\ (res (probing (More.env_undecodable [] More.decode_error 1) "/usr/bin/ffprobe"
                   (Ex.job true false) (Ex.w0 Ex.disk))
      = Ok (Fin (20 # 1), true)
      /\ logged (emitted (run_job (More.env_undecodable [] More.decode_error 1)
                                  "/usr/bin/ffmpeg" "/usr/bin/ffprobe" 1 1
                                  (Ex.job true false) (Ex.w0 Ex.disk)))
         = [("FAIL: clip.mp4 — " ++ More.decode_error)%string]
      /\ lookup ["out"; "clip_hls"]
           (fs (world (run_job (More.env_undecodable [] More.decode_error 1)
                               "/usr/bin/ffmpeg" "/usr/bin/ffprobe" 1 1
                               (Ex.job true false) (Ex.w0 Ex.disk))))
         = Some (Dir Ex.hls_files)).
Proof.
  assert (H : res (probing (Ex.env_with true Ex.meta_h264 [] 1 Ex.never) "/usr/bin/ffprobe"
                           (Ex.job true false) (Ex.w0 Ex.disk))
              = Ok (Fin (20 # 1), true)) by (vm_compute; reflexivity).
  assert (H' : res (probing (More.env_undecodable [] More.decode_error 1) "/usr/bin/ffprobe"
                            (Ex.job true false) (Ex.w0 Ex.disk))
               = Ok (Fin (20 # 1), true)) by (vm_compute; reflexivity).
  assert (Hrc : 1%Z <> 0%Z) by discriminate.
  pose proof (C5_encoder_failure_keeps_directory
                (Ex.env_with true Ex.meta_h264 [] 1 Ex.never)
                "/usr/bin/ffmpeg" "/usr/bin/ffprobe" 1 1
                (Ex.job true false) (Ex.w0 Ex.disk) _ _ H eq_refl Hrc)
    as (_ & H2 & _ & H4).
  pose proof (C5_encoder_failure_keeps_directory
                (More.env_undecodable [] More.decode_error 1)
                "/usr/bin/ffmpeg" "/usr/bin/ffprobe" 1 1
                (Ex.job true false) (Ex.w0 Ex.disk) _ _ H' eq_refl Hrc)
    as (_ & H2' & _ & H4').
  split.
  - split; [exact H | split; [reflexivity | split; [exact H2 | exact H4]]].
  - split; [exact H' | split; [exact H2' | exact H4']].
Defined.

(** C5, as stated, fails on its reason: when the encoder exits with status
    1 the job ends FAIL and the directory is kept, but the one line logged
    for it does not contain the words "non-zero status". *)
Lemma C5_counterexample :
  enc_returncode
    (proc_popen (Ex.env_with true Ex.meta_h264 [] 1 Ex.never) [] Ex.disk) = 1%Z
  /\ outcomes (emitted (run (Ex.env_with true Ex.meta_h264 [] 1 Ex.never)
                            [Ex.job true false] (Ex.w0 Ex.disk)))
     = ["FAIL"]
  /\ logged (emitted (run (Ex.env_with true Ex.meta_h264 [] 1 Ex.never)
                          [Ex.job true false] (Ex.w0 Ex.disk)))
     = ["FAIL: clip.mp4 — ffmpeg failed — check logs and ensure codecs are supported."]
  /\ forallb (fun m => negb (contains "non-zero status" m))
       (logged (emitted (run (Ex.env_with true Ex.meta_h264 [] 1 Ex.never)
                             [Ex.job true false] (Ex.w0 Ex.disk))))
     = true.
Proof. repeat split; vm_compute; reflexivity. Qed.

(** ** The duration floor (main.py:108-112, 187) *)



(** ** The working directory is refreshed before anything else *)

Lemma convert_starts_on :
  forall env ffmpeg job duration hls_ok w argv before,
    In (ev_popen argv before) (emitted (convert env ffmpeg job duration hls_ok w)) ->
    before = fs w.
Proof.
  intros env ffmpeg job duration hls_ok w argv before. unfold convert.
  destruct (_ && _); [intros []|].
  rewrite emitted_bind, encode_eq. cbn [res world emitted].
  intros Hin. apply in_app_or in Hin. destruct Hin as [Hin|Hin].
  - destruct Hin as [Heq|Hin]; [inversion Heq; reflexivity|].
    exfalso. unfold reading in Hin.
    pose proof (read_progress_emits env (name (src job)) duration
                  (enc_stderr (proc_popen env (build_args ffmpeg job (out_dir_of job) hls_ok) (fs w)))
                  (enc_broken (proc_popen env (build_args ffmpeg job (out_dir_of job) hls_ok) (fs w)))
                  (clock env (ticks w)) {| fs := fs w; ticks := S (ticks w) |}) as Hr.
    rewrite forallb_forall in Hr. specialize (Hr _ Hin). discriminate.
  - exfalso. destruct (enc_broken _); [destruct Hin|].
    destruct (negb _); [destruct Hin|].
    rewrite emitted_bind in Hin.
    rewrite (silent_nil _ _ _ (package_silent job (out_dir_of job))) in Hin.
    simpl in Hin.
    match type of Hin with
    | In _ (match ?r with Ok _ => _ | Raise _ => _ end) => destruct r
    end; simpl in Hin; intuition discriminate.
Qed.

Lemma convert_runs_no_prober :
  forall env ffmpeg job duration hls_ok w,
    prober_calls (emitted (convert env ffmpeg job duration hls_ok w)) = [].
Proof.
  intros.
  assert (Hn : forall argv before,
             ~ In (ev_run argv before) (emitted (convert env ffmpeg job duration hls_ok w))).
  { intros argv before. unfold convert.
    destruct (_ && _); [intros []|].
    rewrite emitted_bind, encode_eq. cbn [res world emitted].
    intros Hin. apply in_app_or in Hin. destruct Hin as [Hin|Hin].
    - destruct Hin as [Heq|Hin]; [discriminate|].
      unfold reading in Hin.
      pose proof (read_progress_emits env (name (src job)) duration
                    (enc_stderr (proc_popen env (build_args ffmpeg job (out_dir_of job) hls_ok) (fs w)))
                    (enc_broken (proc_popen env (build_args ffmpeg job (out_dir_of job) hls_ok) (fs w)))
                    (clock env (ticks w)) {| fs := fs w; ticks := S (ticks w) |}) as Hr.
      rewrite forallb_forall in Hr. specialize (Hr _ Hin). discriminate.
    - destruct (enc_broken _); [destruct Hin|].
      destruct (negb _); [destruct Hin|].
      rewrite emitted_bind in Hin.
      rewrite (silent_nil _ _ _ (package_silent job (out_dir_of job))) in Hin.
      simpl in Hin.
      match type of Hin with
      | In _ (match ?r with Ok _ => _ | Raise _ => _ end) => destruct r
      end; simpl in Hin; intuition discriminate. }
  induction (emitted (convert env ffmpeg job duration hls_ok w)) as [|e evs IH].
  - reflexivity.
  - simpl. destruct e; simpl;
      try (apply IH; intros a b Hin; apply (Hn a b); right; exact Hin).
    exfalso. apply (Hn argv before). left. reflexivity.
Qed.

(** C10: the working directory is refreshed before anything else happens
    to the job.  A directory already there under that name never stops the
    job: the prober is then run, exactly once.  Whenever the prober is run,
    and whenever the encoder is started, the file system it sees has the
    working directory in place and empty, so whatever an earlier directory
    held is gone before the compatibility decision is taken.  A job that is
    skipped, and a job whose probe raises, both end with that empty
    directory left on disk. *)
Theorem C10_working_directory_refreshed_first :
  forall env ffmpeg ffprobe job w,
    let out_dir := out_dir_of job in
    let o := _process_one env ffmpeg ffprobe job w in
    (forall es, lookup out_dir (fs w) = Some (Dir es) ->
       prober_calls (emitted o) = [ffprobe_cmd ffprobe (path_str (src job))])
    /\ (forall argv before,
          In (ev_run argv before) (emitted o) \/ In (ev_popen argv before) (emitted o) ->
          lookup out_dir before = Some (Dir []))
    /\ (forall e, res o = Raise e -> is_SkipError e = true ->
          lookup out_dir (fs (world o)) = Some (Dir []))
    /\ (forall e,
          res (prepare_out_dir out_dir w) = Ok tt ->
          res (probe env ffprobe job (world (prepare_out_dir out_dir w))) = Raise e ->
          res o = Raise e /\ lookup out_dir (fs (world o)) = Some (Dir [])).
Proof.
  intros env ffmpeg ffprobe job w out_dir o. subst out_dir o.
  unfold _process_one.
  destruct (probing_spec env ffprobe job w)
    as [(e0 & Hprep & Hres & Hev)|(Hprep & Hres & Hev & Hdir)].
  - (* the preparation failed *)
    rewrite (bind_Raise _ _ _ _ _ e0 Hres). cbn [res world emitted]. rewrite Hev.
    split; [| split; [| split]].
    + intros es Hl. exfalso.
      rewrite (prepare_out_dir_existing _ _ es (out_dir_of_not_root job) Hl) in Hprep.
      discriminate.
    + intros argv before [[]|[]].
    + intros e He Hskip. inversion He; subst e. exfalso.
      rewrite prepare_out_dir_eq in Hprep.
      destruct (lookup (out_dir_of job) (fs w)) as [[x|es]|];
        [| destruct (mkdir_p _ _) | destruct (mkdir_p _ _)];
        simpl in Hprep; inversion Hprep; subst e0; discriminate.
    + intros e Hok. rewrite Hok in Hprep. discriminate.
  - (* the prober ran on the fresh directory *)
    destruct (res (probing env ffprobe job w)) as [[duration hls_ok]|e0] eqn:Hp.
    + rewrite (bind_Ok _ _ _ _ _ _ Hp). cbn [res world emitted fst snd].
      rewrite Hev.
      split; [| split; [| split]].
      * intros es _. rewrite prober_calls_app, convert_runs_no_prober. reflexivity.
      * intros argv before [Hin|Hin]; apply in_app_or in Hin; destruct Hin as [Hin|Hin].
        -- destruct Hin as [Heq|[]]. inversion Heq; subst. exact Hdir.
        -- exfalso.
           assert (Hnone : prober_calls
                             (emitted (convert env ffmpeg job duration hls_ok
                                         (world (probing env ffprobe job w)))) = [])
             by apply convert_runs_no_prober.
           induction (emitted (convert env ffmpeg job duration hls_ok
                                 (world (probing env ffprobe job w)))) as [|e evs IH];
             [destruct Hin|].
           destruct Hin as [Heq|Hin].
           ++ subst e. discriminate.
           ++ apply IH; [exact Hin|]. destruct e; simpl in Hnone; try exact Hnone.
              discriminate.
        -- destruct Hin as [Heq|[]]. discriminate.
        -- apply convert_starts_on in Hin. subst before. exact Hdir.
      * intros e He Hskip.
        destruct (skips job hls_ok) eqn:Hs.
        -- rewrite convert_skips by exact Hs. exact Hdir.
        -- exfalso.
           destruct (convert_encodes env ffmpeg job duration hls_ok
                       (world (probing env ffprobe job w)) Hs) as [_ Hr].
           specialize (Hr e He). unfold not_skip in Hr. rewrite Hskip in Hr. discriminate.
      * intros e _ Hraise. rewrite Hraise in Hres. discriminate.
    + rewrite (bind_Raise _ _ _ _ _ e0 Hp). cbn [res world emitted]. rewrite Hev.
      split; [| split; [| split]].
      * intros es _. reflexivity.
      * intros argv before [[Heq|[]]|[Heq|[]]]; [| discriminate].
        inversion Heq; subst. exact Hdir.
      * intros e _ _. exact Hdir.
      * intros e _ Hraise. rewrite Hraise in Hres. inversion Hres; subst e0.
        split; [reflexivity | exact Hdir].
Qed.

(* ------------------------------------------------------------------ *)
(** ** Per-file progress *)

Lemma trunc_monotone :
  forall q1 q2 : Q,
    (q1 <= q2)%Q ->
    (Z.quot (Qnum q1) (Zpos (Qden q1)) <= Z.quot (Qnum q2) (Zpos (Qden q2)))%Z.
Proof.
  intros [n1 d1] [n2 d2] H. unfold Qle in H. simpl in *.
  rewrite <- (Z.quot_mul_cancel_r n1 (Zpos d1) (Zpos d2)) by discriminate.
  rewrite <- (Z.quot_mul_cancel_r n2 (Zpos d2) (Zpos d1)) by discriminate.
  rewrite (Z.mul_comm (Zpos d2) (Zpos d1)).
  apply Z.quot_le_mono; [reflexivity | exact H].
Qed.

Lemma percent_finite :
  forall cur duration p,
    percent cur duration = Ok p -> exists a, cur = Fin a.
Proof.
  intros cur duration p. unfold percent.
  destruct cur as [a| | |]; [eauto | | |]; intros H; exfalso;
    destruct duration as [y| | |]; simpl in H; unfold Qsign, inf_times, Qsign in H; simpl in H;
    try discriminate;
    destruct (Qnum y ?= 0)%Z; simpl in H; discriminate.
Qed.

Lemma percent_monotone :
  forall a b duration pa pb,
    at_least_one duration ->
    (a <= b)%Q ->
    percent (Fin a) duration = Ok pa ->
    percent (Fin b) duration = Ok pb ->
    (pa <= pb)%Z.
Proof.
  intros a b duration pa pb Hd Hab. unfold percent.
  destruct duration as [y| | |]; simpl in Hd; try contradiction.
  - assert (Hy : (0 < y)%Q).
    { apply Qlt_le_trans with (y := 1%Q); [reflexivity | exact Hd]. }
    assert (Hs : Qsign y = Gt).
    { unfold Qsign. unfold Qlt in Hy. simpl in Hy. apply Z.compare_gt_iff. lia. }
    simpl. rewrite Hs. simpl. intros Ha Hb. inversion Ha. inversion Hb.
    assert (Hq : (a * inject_Z 100 / y <= b * inject_Z 100 / y)%Q).
    { unfold Qdiv. apply Qmult_le_compat_r.
      - apply Qmult_le_compat_r; [exact Hab | discriminate].
      - apply Qinv_le_0_compat. apply Qlt_le_weak. exact Hy. }
    pose proof (trunc_monotone _ _ Hq) as Ht. simpl in Ht. lia.
  - simpl. intros Ha Hb. inversion Ha. inversion Hb. lia.
Qed.

Lemma line_percent_time :
  forall env duration line p,
    line_percent env duration line = Some p ->
    exists a, parse_time env line = Ok (Fin a) /\ percent (Fin a) duration = Ok p.
Proof.
  intros env duration line p. unfold line_percent.
  destruct (String.eqb line EmptyString); [discriminate|].
  destruct (contains "time=" line); [|discriminate].
  destruct (parse_time env line) as [cur|e]; simpl; [|discriminate].
  destruct (percent cur duration) as [q|e] eqn:E; [|discriminate].
  intros H. inversion H; subst q.
  destruct (percent_finite _ _ _ E) as [a Ha]. subst cur. eauto.
Qed.

Lemma percents_cons_progress :
  forall f q evs, percents (sig_file_progress f q :: evs) = q :: percents evs.
Proof. reflexivity. Qed.

(** Every percent the reading loop lets out is the percent of one of the
    lines it read. *)
Lemma read_progress_from_lines :
  forall env fname duration lines broken last_update w p,
    In p (percents (emitted (read_progress env fname duration last_update lines broken w))) ->
    exists line, In line lines /\ line_percent env duration line = Some p.
Proof.
  intros env fname duration lines broken.
  induction lines as [|line rest IH]; intros last_update w p; simpl.
  - destruct broken; intros [].
  - assert (Hrest : forall lu w',
               In p (percents (emitted (read_progress env fname duration lu rest broken w'))) ->
               exists l, (line = l \/ In l rest) /\ line_percent env duration l = Some p).
    { intros lu w' Hin. destruct (IH lu w' p Hin) as (l & Hl & Hp). eauto. }
    destruct (String.eqb line EmptyString) eqn:E1; [apply Hrest|].
    destruct (contains "time=" line) eqn:E2; [| apply Hrest].
    destruct (rbind (parse_time env line) _) as [q|] eqn:E3; [| apply Hrest].
    rewrite emitted_bind. cbn [time_time res world emitted app].
    destruct (negb _); [| apply Hrest].
    rewrite emitted_bind. cbn [emit res world emitted].
    rewrite emitted_bind. cbn [time_time res world emitted app].
    rewrite percents_cons_progress.
    intros [Heq|Hin].
    + subst q. exists line. split; [auto|].
      unfold line_percent. rewrite E1, E2, E3. reflexivity.
    + apply (Hrest _ _ Hin).
Qed.

(** When the positions reported go forward, so do the percents let out. *)
Lemma read_progress_sorted :
  forall env fname duration lines broken last_update w,
    at_least_one duration ->
    ForallOrdPairs (time_le env) lines ->
    StronglySorted Z.le
      (percents (emitted (read_progress env fname duration last_update lines broken w))).
Proof.
  intros env fname duration lines broken last_update w Hd Hord. revert last_update w.
  induction Hord as [|line rest Hhead Htail IH]; intros last_update w; simpl.
  - destruct broken; constructor.
  - destruct (String.eqb line EmptyString) eqn:E1; [apply IH|].
    destruct (contains "time=" line) eqn:E2; [| apply IH].
    destruct (rbind (parse_time env line) _) as [q|] eqn:E3; [| apply IH].
    rewrite emitted_bind. cbn [time_time res world emitted app].
    destruct (negb _); [| apply IH].
    rewrite emitted_bind. cbn [emit res world emitted].
    rewrite emitted_bind. cbn [time_time res world emitted app].
    rewrite percents_cons_progress.
    constructor; [apply IH|].
    apply Forall_forall. intros p Hin.
    destruct (read_progress_from_lines _ _ _ _ _ _ _ _ Hin) as (l & Hl & Hp).
    assert (Hq : line_percent env duration line = Some q).
    { unfold line_percent. rewrite E1, E2, E3. reflexivity. }
    destruct (line_percent_time _ _ _ _ Hq) as (a & Ha & Hpa).
    destruct (line_percent_time _ _ _ _ Hp) as (b & Hb & Hpb).
    rewrite Forall_forall in Hhead.
    eapply percent_monotone; eauto. apply (Hhead l Hl a b Ha Hb).
Qed.

Lemma percents_in_range :
  forall evs,
    forallb job_event evs = true ->
    Forall (fun p => (0 <= p <= 100)%Z) (percents evs).
Proof.
  induction evs as [|e evs IH]; simpl; intros H; [constructor|].
  apply andb_true_iff in H. destruct H as [He Hevs].
  destruct e; try discriminate; simpl; auto.
  constructor; [| auto].
  simpl in He. apply andb_true_iff in He. destruct He as [H1 H2].
  apply Z.leb_le in H1. apply Z.leb_le in H2. lia.
Qed.

Lemma probing_percents :
  forall env ffprobe job w, percents (emitted (probing env ffprobe job w)) = [].
Proof.
  intros. destruct (probing_spec env ffprobe job w) as [(e & _ & _ & H)|(_ & _ & H & _)];
    rewrite H; reflexivity.
Qed.

Lemma probing_duration :
  forall env ffprobe job w duration hls_ok,
    res (probing env ffprobe job w) = Ok (duration, hls_ok) -> at_least_one duration.
Proof.
  intros env ffprobe job w duration hls_ok H.
  destruct (probing_spec env ffprobe job w) as [(e & _ & He & _)|(_ & Hres & _ & _)].
  - congruence.
  - rewrite Hres in H. revert H. unfold probe, bind, lift, ret.
    destruct (res (ffprobe_streams env ffprobe (path_str (src job)) _)) as [meta|e];
      cbn [res world emitted]; [| discriminate].
    destruct (codecs_are_hls_friendly meta); cbn [res world emitted]; [| discriminate].
    intros H. inversion H. apply at_least_one_py_max.
Qed.

Lemma percents_cons_popen :
  forall argv before evs, percents (ev_popen argv before :: evs) = percents evs.
Proof. reflexivity. Qed.

(** What a job that is not skipped lets out in percents: those of the
    reading loop, then 100 if it completes. *)
Lemma convert_percents :
  forall env ffmpeg job duration hls_ok w,
    skips job hls_ok = false ->
    let p := proc_popen env (build_args ffmpeg job (out_dir_of job) hls_ok) (fs w) in
    let o := convert env ffmpeg job duration hls_ok w in
    percents (emitted o)
    = percents (emitted (reading env (name (src job)) duration p w))
      ++ match res o with Ok _ => [100%Z] | Raise _ => [] end
    /\ In (ev_popen (build_args ffmpeg job (out_dir_of job) hls_ok) (fs w)) (emitted o).
Proof.
  intros env ffmpeg job duration hls_ok w Hs p o. subst o. unfold convert.
  fold (skips job hls_ok). rewrite Hs.
  pose proof (encode_eq env (build_args ffmpeg job (out_dir_of job) hls_ok)
                (name (src job)) duration w) as He. cbv zeta in He. fold p in He.
  destruct (enc_broken p) as [msg|] eqn:Ebr;
    [| destruct (negb (enc_returncode p =? 0)%Z) eqn:Erc].
  - rewrite (bind_Raise _ _ _ _ _ (Exn UnicodeDecodeError msg)) by (rewrite He; reflexivity).
    rewrite He. cbn [res world emitted]. split; [| left; reflexivity].
    rewrite app_nil_r. reflexivity.
  - rewrite (bind_Raise _ _ _ _ _ ffmpeg_failed) by (rewrite He; reflexivity).
    rewrite He. cbn [res world emitted]. split; [| left; reflexivity].
    rewrite app_nil_r. reflexivity.
  - rewrite (bind_Ok _ _ _ _ _ tt) by (rewrite He; reflexivity).
    rewrite He. cbn [res world emitted].
    set (w1 := {| fs := enc_fs p;
                  ticks := ticks (world (reading env (name (src job)) duration p w)) |}).
    pose proof (silent_nil _ _ w1 (package_silent job (out_dir_of job))) as Hsil.
    split; [| left; reflexivity].
    destruct (res (package job (out_dir_of job) w1)) as [z|e] eqn:Ep.
    + rewrite (bind_Ok _ _ _ _ _ z Ep). cbn [res world emitted]. rewrite Hsil.
      cbn [bind emit res world emitted app].
      rewrite percents_cons_popen, percents_app. reflexivity.
    + rewrite (bind_Raise _ _ _ _ _ e Ep). cbn [res world emitted]. rewrite Hsil.
      rewrite !app_nil_r. reflexivity.
Qed.

Lemma sorted_snoc_100 :
  forall l,
    StronglySorted Z.le l ->
    Forall (fun p => (0 <= p <= 100)%Z) l ->
    StronglySorted Z.le (l ++ [100%Z]).
Proof.
  induction l as [|x l IH]; intros Hs Hr; simpl.
  - repeat constructor.
  - inversion Hs; subst. inversion Hr; subst.
    constructor; [apply IH; assumption|].
    apply Forall_app. split; [assumption|]. constructor; [lia | constructor].
Qed.

(** C3, as the code has it: every per-file percent a job lets out is an
    integer between 0 and 100; a job that completes lets out 100 last; a job
    that is skipped lets out none.  The percents follow the positions the
    encoder reports: when those never go backwards, the percents of the job
    never decrease.  Nothing keeps 100 for a completed job: the clamp maps
    every position at or past the duration to 100 while the encoder is
    still running. *)
Theorem C3_percents_of_a_job :
  forall env ffmpeg ffprobe job w,
    let o := _process_one env ffmpeg ffprobe job w in
    Forall (fun p => (0 <= p <= 100)%Z) (percents (emitted o))
    /\ (res o = Ok tt -> exists ps, percents (emitted o) = ps ++ [100%Z])
    /\ (forall e, res o = Raise e -> is_SkipError e = true -> percents (emitted o) = [])
    /\ ((forall argv before,
           In (ev_popen argv before) (emitted o) ->
           ForallOrdPairs (time_le env) (enc_stderr (proc_popen env argv before))) ->
        StronglySorted Z.le (percents (emitted o))).
Proof.
  intros env ffmpeg ffprobe job w o.
  assert (Hrange : Forall (fun p => (0 <= p <= 100)%Z) (percents (emitted o))).
  { apply percents_in_range. apply _process_one_emits_job_event. }
  split; [exact Hrange|]. subst o.
  destruct (res (probing env ffprobe job w)) as [[duration hls_ok]|e0] eqn:Hp.
  - destruct (_process_one_after_probing env ffmpeg ffprobe job w duration hls_ok Hp)
      as (Heq & Hev & _).
    rewrite Heq in *. cbn [res world emitted] in *.
    rewrite percents_app, probing_percents in *. cbn [app] in *.
    destruct (skips job hls_ok) eqn:Hs.
    + rewrite convert_skips in * by exact Hs. cbn [res world emitted percents flat_map] in *.
      split; [discriminate|]. split; [reflexivity|]. intros _. constructor.
    + destruct (convert_percents env ffmpeg job duration hls_ok
                  (world (probing env ffprobe job w)) Hs) as [Hpc Hin].
      destruct (convert_encodes env ffmpeg job duration hls_ok
                  (world (probing env ffprobe job w)) Hs) as [_ Hns].
      rewrite Hpc in *.
      split; [| split].
      * intros Hok. rewrite Hok. eexists. reflexivity.
      * intros e He Hskip. specialize (Hns e He). unfold not_skip in Hns.
        rewrite Hskip in Hns. discriminate.
      * intros Hord.
        assert (Hsorted : StronglySorted Z.le
                  (percents (emitted (reading env (name (src job)) duration
                     (proc_popen env (build_args ffmpeg job (out_dir_of job) hls_ok)
                        (fs (world (probing env ffprobe job w))))
                     (world (probing env ffprobe job w)))))).
        { unfold reading. apply read_progress_sorted.
          - eapply probing_duration; eauto.
          - apply Hord. apply in_or_app. right. exact Hin. }
        destruct (res (convert _ _ _ _ _ _)).
        -- apply sorted_snoc_100; [exact Hsorted|].
           apply Forall_app in Hrange. apply Hrange.
        -- rewrite app_nil_r. exact Hsorted.
  - unfold _process_one. rewrite (bind_Raise _ _ _ _ _ e0 Hp). cbn [res world emitted].
    rewrite probing_percents.
    split; [discriminate|]. split; [reflexivity|]. intros _. constructor.
Qed.

(** C3, as stated, fails on a twenty-second file whose encoder reports the
    positions 10 s and 20 s and then exits with status 1: the job ends FAIL
    after the percents 50 and 100.  It fails again on a file with no
    duration in its container whose encoder reports 2 s and then 0.5 s: the
    percents are 100 then 50. *)
Lemma C3_counterexample :
  percents (emitted (run (Ex.env_with true Ex.meta_h264
                            [Ex.status_line "00:00:10.00"; Ex.status_line "00:00:20.00"]
                            1 Ex.never)
                         [Ex.job true false] (Ex.w0 Ex.disk)))
  = [50%Z; 100%Z]
  /\ outcomes (emitted (run (Ex.env_with true Ex.meta_h264
                               [Ex.status_line "00:00:10.00"; Ex.status_line "00:00:20.00"]
                               1 Ex.never)
                            [Ex.job true false] (Ex.w0 Ex.disk)))
     = ["FAIL"]
  /\ percents (emitted (run (Ex.env_with true Ex.meta_no_duration
                               [Ex.status_line "00:00:02.00"; Ex.status_line "00:00:00.50"]
                               0 Ex.never)
                            [Ex.job true false] (Ex.w0 Ex.disk)))
     = [100%Z; 50%Z; 100%Z].
Proof. repeat split; vm_compute; reflexivity. Qed.

Lemma C3_percents_of_a_job_witness :
  StronglySorted Z.le
    (percents (emitted (_process_one
                          (Ex.env_with true Ex.meta_h264
                             [Ex.status_line "00:00:10.00"; Ex.status_line "00:00:20.00"]
                             0 Ex.never)
                          "/usr/bin/ffmpeg" "/usr/bin/ffprobe"
                          (Ex.job true false) (Ex.w0 Ex.disk)))).
Proof.
  apply (C3_percents_of_a_job
           (Ex.env_with true Ex.meta_h264
              [Ex.status_line "00:00:10.00"; Ex.status_line "00:00:20.00"] 0 Ex.never)
           "/usr/bin/ffmpeg" "/usr/bin/ffprobe" (Ex.job true false) (Ex.w0 Ex.disk)).
  intros argv before _. simpl.
  constructor; [| constructor; [constructor | constructor]].
  constructor; [| constructor].
  intros a b Ha Hb. vm_compute in Ha. vm_compute in Hb.
  inversion Ha. inversion Hb. discriminate.
Defined.

(* ------------------------------------------------------------------ *)
(** ** Packaging *)

Lemma node_induction :
  forall P : node -> Prop,
    (forall c, P (File c)) ->
    (forall es, Forall (fun e => P (snd e)) es -> P (Dir es)) ->
    forall n, P n.
Proof.
  intros P Hfile Hdir. fix IH 1. intros [c|es].
  - apply Hfile.
  - apply Hdir. induction es as [|[k child] es IHes]; constructor.
    + apply IH.
    + exact IHes.
Qed.

Lemma walk_Dir :
  forall top es,
    walk top (Dir es)
    = (top, dir_names es, file_names es)
      :: flat_map (fun e => walk (top ++ [fst e]) (snd e)) es.
Proof.
  intros top es. cbn [walk]. f_equal.
  induction es as [|[d child] es IH]; [reflexivity|].
  cbn [flat_map fst snd]. rewrite <- IH. reflexivity.
Qed.

Lemma all_files_Dir :
  forall pre es,
    all_files pre (Dir es)
    = flat_map (fun e => match snd e with
                         | File c => [(pre ++ [fst e], c)]
                         | Dir _ => []
                         end) es
      ++ flat_map (fun e => all_files (pre ++ [fst e]) (snd e)) es.
Proof.
  intros pre es. cbn [all_files]. f_equal.
  induction es as [|[d child] es IH]; [reflexivity|].
  cbn [flat_map fst snd]. rewrite <- IH. reflexivity.
Qed.

Lemma wf_node_cons :
  forall k child es,
    wf_node (Dir ((k, child) :: es))
    = negb (existsb (String.eqb k) (map fst es)) && wf_node child && wf_node (Dir es).
Proof. reflexivity. Qed.

Lemma wf_node_children :
  forall es, wf_node (Dir es) = true -> Forall (fun e => wf_node (snd e) = true) es.
Proof.
  induction es as [|[k child] es IH]; intros H; [constructor|].
  rewrite wf_node_cons in H.
  apply andb_true_iff in H. destruct H as [H Hes].
  apply andb_true_iff in H. destruct H as [_ Hc].
  constructor; [exact Hc | apply IH; exact Hes].
Qed.

(** In a directory that lists no name twice, an entry is what its name
    looks up. *)
Lemma assoc_entry :
  forall es k x, wf_node (Dir es) = true -> In (k, x) es -> assoc k es = Some x.
Proof.
  induction es as [|[k0 x0] es IH]; intros k x Hwf Hin; [destruct Hin|].
  rewrite wf_node_cons in Hwf.
  apply andb_true_iff in Hwf. destruct Hwf as [Hwf Hes].
  apply andb_true_iff in Hwf. destruct Hwf as [Hnew _].
  simpl. destruct Hin as [Heq|Hin].
  - inversion Heq; subst. rewrite String.eqb_refl. reflexivity.
  - destruct (String.eqb k k0) eqn:E.
    + apply String.eqb_eq in E. subst k0. exfalso.
      apply negb_true_iff in Hnew.
      assert (Hex : existsb (String.eqb k) (map fst es) = true).
      { apply existsb_exists. exists k. split.
        - apply in_map_iff. exists (k, x). auto.
        - apply String.eqb_refl. }
      congruence.
    + apply IH; assumption.
Qed.

Lemma lookup_app :
  forall a b n,
    lookup (a ++ b) n
    = match lookup a n with Some m => lookup b m | None => None end.
Proof.
  induction a as [|c a IH]; intros b n; [reflexivity|].
  destruct n as [x|es]; [reflexivity|].
  simpl. destruct (assoc c es); [apply IH | reflexivity].
Qed.

Lemma relpath_under :
  forall d r, r <> [] -> relpath (d ++ r) d = r.
Proof.
  induction d as [|a d IH]; intros r Hr; simpl.
  - destruct r; [congruence | reflexivity].
  - rewrite String.eqb_refl. apply IH. exact Hr.
Qed.

Lemma zip_write_all_app :
  forall root out_dir ps1 ps2,
    snd (zip_write_all root out_dir ps1) = None ->
    zip_write_all root out_dir (ps1 ++ ps2)
    = (fst (zip_write_all root out_dir ps1) ++ fst (zip_write_all root out_dir ps2),
       snd (zip_write_all root out_dir ps2)).
Proof.
  intros root out_dir ps1 ps2. induction ps1 as [|p ps1 IH]; simpl; intros H.
  - destruct (zip_write_all root out_dir ps2); reflexivity.
  - destruct (lookup p root) as [[c|es]|]; simpl in *.
    + rewrite (IH H). reflexivity.
    + apply IH. exact H.
    + discriminate.
Qed.

Lemma joined_cons :
  forall top dirs files rest,
    joined ((top, dirs, files) :: rest) = map (fun f => top ++ [f]) files ++ joined rest.
Proof. reflexivity. Qed.

Lemma joined_app : forall a b, joined (a ++ b) = joined a ++ joined b.
Proof. intros. unfold joined. apply flat_map_app. Qed.

(** The members [zip_write_all] stores for the files [os.walk] finds below
    a directory are its regular files under their paths relative to
    [out_dir]. *)
Lemma zip_of_subtree :
  forall root out_dir n pre,
    lookup (out_dir ++ pre) root = Some n ->
    wf_node n = true ->
    zip_write_all root out_dir (joined (walk (out_dir ++ pre) n))
    = (all_files pre n, None).
Proof.
  intros root out_dir n. induction n as [c|es IH] using node_induction;
    intros pre Hl Hwf.
  - reflexivity.
  - assert (Hentry : forall k x, In (k, x) es ->
                       lookup (out_dir ++ pre ++ [k]) root = Some x /\ wf_node x = true).
    { intros k x Hin. split.
      - rewrite app_assoc, lookup_app, Hl. simpl.
        rewrite (assoc_entry es k x Hwf Hin). reflexivity.
      - pose proof (wf_node_children es Hwf) as Hc. rewrite Forall_forall in Hc.
        apply (Hc (k, x) Hin). }
    clear Hl Hwf.
    rewrite walk_Dir, all_files_Dir, joined_cons.
    assert (Hfiles : forall l,
               (forall k x, In (k, x) l -> In (k, x) es) ->
               zip_write_all root out_dir
                 (map (fun f => (out_dir ++ pre) ++ [f]) (file_names l))
               = (flat_map (fun e => match snd e with
                                     | File c => [(pre ++ [fst e], c)]
                                     | Dir _ => []
                                     end) l, None)).
    { induction l as [|[k x] l IHl]; intros Hsub; [reflexivity|].
      assert (Hsub' : forall k' x', In (k', x') l -> In (k', x') es)
        by (intros; apply Hsub; right; assumption).
      specialize (IHl Hsub').
      destruct x as [c|es'].
      - unfold file_names in *. cbn [filter snd map fst flat_map app].
        cbn [zip_write_all].
        destruct (Hentry k (File c) (Hsub k (File c) (or_introl eq_refl))) as [Hk _].
        rewrite <- app_assoc, Hk, IHl. cbn [fst snd].
        rewrite relpath_under by (destruct pre; discriminate). reflexivity.
      - unfold file_names in *. cbn [filter snd map fst flat_map app]. exact IHl. }
    assert (Hdirs : forall l,
               (forall k x, In (k, x) l -> In (k, x) es) ->
               zip_write_all root out_dir
                 (joined (flat_map (fun e => walk ((out_dir ++ pre) ++ [fst e]) (snd e)) l))
               = (flat_map (fun e => all_files (pre ++ [fst e]) (snd e)) l, None)).
    { induction l as [|[k x] l IHl]; intros Hsub; [reflexivity|].
      assert (Hsub' : forall k' x', In (k', x') l -> In (k', x') es)
        by (intros; apply Hsub; right; assumption).
      specialize (IHl Hsub').
      pose proof (Hsub k x (or_introl eq_refl)) as Hin.
      destruct (Hentry k x Hin) as [Hk Hwfx].
      rewrite Forall_forall in IH. specialize (IH (k, x) Hin (pre ++ [k])).
      cbn [snd] in IH. specialize (IH Hk Hwfx).
      cbn [flat_map fst snd]. rewrite joined_app.
      rewrite <- (app_assoc out_dir pre [k]).
      rewrite zip_write_all_app by (rewrite IH; reflexivity).
      rewrite IH. cbn [fst snd].
      rewrite IHl. reflexivity. }
    rewrite zip_write_all_app by (rewrite Hfiles; auto).
    rewrite Hfiles, Hdirs by auto. reflexivity.
Qed.

(** The members are exactly the regular files below the directory, each
    under its path from the directory. *)
Lemma all_files_spec :
  forall n pre rel c,
    In (rel, c) (all_files pre n)
    <-> exists r, r <> [] /\ rel = pre ++ r /\ file_at r n c.
Proof.
  induction n as [c0|es IH] using node_induction; intros pre rel c.
  - simpl. split; [intros [] | intros (r & Hr & _ & Hf)].
    destruct r; [congruence | exact Hf].
  - rewrite all_files_Dir, in_app_iff, !in_flat_map. rewrite Forall_forall in IH.
    split.
    + intros [((k, x) & Hin & Hm)|((k, x) & Hin & Hm)]; cbn [fst snd] in Hm.
      * destruct x as [c'|es']; [| destruct Hm].
        destruct Hm as [Heq|[]]. inversion Heq; subst.
        exists [k]. split; [discriminate|]. split; [reflexivity|].
        simpl. exists (File c). auto.
      * apply (IH (k, x) Hin) in Hm. destruct Hm as (r & Hr & Hrel & Hf).
        exists (k :: r). split; [discriminate|]. split.
        -- rewrite Hrel, <- app_assoc. reflexivity.
        -- simpl. exists x. auto.
    + intros (r & Hr & Hrel & Hf). destruct r as [|k r]; [congruence|].
      simpl in Hf. destruct Hf as (x & Hin & Hf).
      destruct r as [|k' r].
      * left. exists (k, x). split; [exact Hin|]. cbn [fst snd].
        destruct x as [c'|es']; simpl in Hf; [| destruct Hf].
        subst. left. reflexivity.
      * right. exists (k, x). split; [exact Hin|]. cbn [fst snd].
        apply (IH (k, x) Hin). exists (k' :: r).
        split; [discriminate|]. split; [| exact Hf].
        rewrite Hrel, <- app_assoc. reflexivity.
Qed.

(** Below a directory that holds regular files only, the members are its
    entries, in order, each under its own name. *)
Lemma all_files_flat :
  forall es,
    flat (Dir es) = true ->
    map fst (all_files [] (Dir es)) = map (fun e => [fst e]) es
    /\ List.length (all_files [] (Dir es)) = List.length es.
Proof.
  intros es Hflat. rewrite all_files_Dir. simpl in Hflat.
  induction es as [|[k x] es IH]; [auto|].
  simpl in Hflat. apply andb_true_iff in Hflat. destruct Hflat as [Hx Hes].
  destruct x as [c|es']; [| discriminate].
  specialize (IH Hes). destruct IH as [IH1 IH2].
  cbn [flat_map fst snd app all_files map List.length] in *.
  rewrite IH1, IH2. auto.
Qed.

(** *** The archive and the working directory are siblings *)

Lemma zip_name_differs :
  forall s : string, (s ++ ".zip")%string <> (s ++ "_hls")%string.
Proof.
  induction s as [|a s IH]; simpl.
  - discriminate.
  - intros H. inversion H. contradiction.
Qed.

Lemma remove_at_cons :
  forall c p es,
    p <> [] ->
    remove_at (c :: p) (Dir es)
    = match assoc c es with
      | Some child => Dir (set_key c (remove_at p child) es)
      | None => Dir es
      end.
Proof. intros c p es Hp. destruct p; [congruence | reflexivity]. Qed.

Lemma write_at_cons :
  forall d p c es,
    p <> [] ->
    write_at (d :: p) c (Dir es)
    = match assoc d es with
      | Some child =>
          match write_at p c child with
          | Some child' => Some (Dir (set_key d child' es))
          | None => None
          end
      | None => None
      end.
Proof. intros d p c es Hp. destruct p; [congruence | reflexivity]. Qed.

Lemma lookup_remove_at_other :
  forall r a b rest n,
    a <> b ->
    lookup (r ++ b :: rest) (remove_at (r ++ [a]) n) = lookup (r ++ b :: rest) n.
Proof.
  induction r as [|d r IH]; intros a b rest n Hab.
  - destruct n as [x|es]; [reflexivity|].
    simpl. rewrite assoc_remove_key_other by exact Hab. reflexivity.
  - destruct n as [x|es].
    + cbn [app]. destruct (r ++ [a]); reflexivity.
    + cbn [app]. rewrite remove_at_cons by (destruct r; discriminate).
      destruct (assoc d es) as [child|] eqn:E; [| reflexivity].
      rewrite !lookup_cons, assoc_set_key_same, E. apply IH. exact Hab.
Qed.

Lemma lookup_write_at_other :
  forall r a b rest c n n',
    a <> b ->
    write_at (r ++ [a]) c n = Some n' ->
    lookup (r ++ b :: rest) n' = lookup (r ++ b :: rest) n.
Proof.
  induction r as [|d r IH]; intros a b rest c n n' Hab Hw.
  - destruct n as [x|es]; [discriminate|].
    simpl in Hw.
    assert (Hn' : n' = Dir (set_key a (File c) es)).
    { destruct (assoc a es) as [[y|es']|]; inversion Hw; reflexivity. }
    subst n'. simpl. rewrite assoc_set_key_other by exact Hab. reflexivity.
  - destruct n as [x|es].
    + cbn [app] in Hw. destruct (r ++ [a]); discriminate.
    + cbn [app] in *. rewrite write_at_cons in Hw by (destruct r; discriminate).
      destruct (assoc d es) as [child|] eqn:E; [| discriminate].
      destruct (write_at (r ++ [a]) c child) as [child'|] eqn:Ew; [| discriminate].
      inversion Hw; subst n'.
      rewrite !lookup_cons, assoc_set_key_same, E. eapply IH; eauto.
Qed.

Lemma lookup_write_at_same :
  forall p c n n', write_at p c n = Some n' -> lookup p n' = Some (File c).
Proof.
  induction p as [|d p IH]; intros c n n' Hw.
  - destruct n; discriminate.
  - destruct n as [x|es].
    + destruct p; discriminate.
    + destruct p as [|d' p'].
      * simpl in Hw.
        assert (Hn' : n' = Dir (set_key d (File c) es)).
        { destruct (assoc d es) as [[y|es']|]; inversion Hw; reflexivity. }
        subst n'. simpl. rewrite assoc_set_key_same. reflexivity.
      * rewrite write_at_cons in Hw by discriminate.
        destruct (assoc d es) as [child|] eqn:E; [| discriminate].
        destruct (write_at (d' :: p') c child) as [child'|] eqn:Ew; [| discriminate].
        inversion Hw; subst n'.
        rewrite lookup_cons, assoc_set_key_same. eapply IH; eauto.
Qed.

Lemma unlink_eq :
  forall p w,
    unlink p w
    = match lookup p (fs w) with
      | Some (File _) => mkOut (Ok tt) {| fs := remove_at p (fs w); ticks := ticks w |} []
      | Some (Dir _) => mkOut (Raise (Exn OSError "Is a directory")) w []
      | None => mkOut (Raise (Exn FileNotFoundError "No such file or directory")) w []
      end.
Proof.
  intros p [root t]. unfold unlink, bind, get_fs, set_fs, raise. simpl.
  destruct (lookup p root) as [[x|es]|]; reflexivity.
Qed.

Lemma write_file_eq :
  forall p c w,
    write_file p c w
    = match write_at p c (fs w) with
      | Some root' => mkOut (Ok tt) {| fs := root'; ticks := ticks w |} []
      | None => mkOut (Raise (Exn OSError "cannot open for writing")) w []
      end.
Proof.
  intros p c [root t]. unfold write_file, bind, get_fs, set_fs, raise. simpl.
  destruct (write_at p c root); reflexivity.
Qed.

Lemma rmtree_ignore_errors_eq :
  forall p w,
    rmtree_ignore_errors p w
    = match lookup p (fs w) with
      | Some (Dir _) => mkOut (Ok tt) {| fs := remove_at p (fs w); ticks := ticks w |} []
      | _ => mkOut (Ok tt) w []
      end.
Proof.
  intros p [root t]. unfold rmtree_ignore_errors, bind, get_fs, set_fs, ret. simpl.
  destruct (lookup p root) as [[x|es]|]; reflexivity.
Qed.

Lemma zip_of_dir :
  forall root out_dir n,
    lookup out_dir root = Some n ->
    wf_node n = true ->
    zip_write_all root out_dir (walked_files out_dir root) = (all_files [] n, None).
Proof.
  intros root out_dir n Hl Hwf. unfold walked_files. rewrite Hl.
  pose proof (zip_of_subtree root out_dir n [] ) as H.
  rewrite app_nil_r in H. apply H; assumption.
Qed.

Lemma bind_step :
  forall A B (m : M A) (f : A -> M B) w a w',
    m w = mkOut (Ok a) w' [] -> bind m f w = f a w'.
Proof.
  intros A B m f w a w' H. unfold bind. rewrite H. simpl.
  destruct (f a w'); reflexivity.
Qed.

Lemma bind_fail :
  forall A B (m : M A) (f : A -> M B) w e w',
    m w = mkOut (Raise e) w' [] -> bind m f w = mkOut (Raise e) w' [].
Proof. intros A B m f w e w' H. unfold bind. rewrite H. reflexivity. Qed.

Lemma package_unfold :
  forall job out_dir,
    package job out_dir
    = bind (bind get_fs (fun root => ret (exists_at (zip_path_of job) root)))
        (fun present =>
           bind (if present then unlink (zip_path_of job) else ret tt)
             (fun _ =>
                bind (write_file (zip_path_of job) (Zip []))
                  (fun _ =>
                     bind get_fs
                       (fun root =>
                          bind (write_file (zip_path_of job)
                                  (Zip (fst (zip_write_all root out_dir
                                               (walked_files out_dir root)))))
                            (fun _ =>
                               match snd (zip_write_all root out_dir
                                            (walked_files out_dir root)) with
                               | Some e => raise e
                               | None =>
                                   bind (rmtree_ignore_errors out_dir)
                                        (fun _ => ret (zip_path_of job))
                               end))))).
Proof. reflexivity. Qed.

Lemma sibling_of_zip :
  forall job rest root c root',
    write_at (zip_path_of job) c root = Some root' ->
    lookup (out_dir_of job ++ rest) root' = lookup (out_dir_of job ++ rest) root.
Proof.
  intros job rest root c root' H. unfold out_dir_of. rewrite <- app_assoc.
  eapply lookup_write_at_other; [| exact H]. apply zip_name_differs.
Qed.

Lemma package_ok :
  forall job w z es,
    res (package job (out_dir_of job) w) = Ok z ->
    lookup (out_dir_of job) (fs w) = Some (Dir es) ->
    wf_node (Dir es) = true ->
    let o := package job (out_dir_of job) w in
    z = zip_path_of job
    /\ lookup (zip_path_of job) (fs (world o)) = Some (File (Zip (all_files [] (Dir es))))
    /\ lookup (out_dir_of job) (fs (world o)) = None.
Proof.
  intros job w z es Hres Hdir Hwf. cbv zeta. revert Hres.
  rewrite package_unfold.
  rewrite (bind_step _ _ _ _ w (exists_at (zip_path_of job) (fs w)) w) by reflexivity.
  (* the archive of an earlier run *)
  assert (Hstep : exists w1,
             (if exists_at (zip_path_of job) (fs w) then unlink (zip_path_of job) else ret tt) w
             = mkOut (Ok tt) w1 []
             /\ lookup (out_dir_of job) (fs w1) = Some (Dir es)
             \/ exists e,
                 (if exists_at (zip_path_of job) (fs w) then unlink (zip_path_of job) else ret tt) w
                 = mkOut (Raise e) w []).
  { unfold exists_at.
    destruct (lookup (zip_path_of job) (fs w)) as [[x|es']|] eqn:Ez.
    - rewrite unlink_eq, Ez. eexists. left. split; [reflexivity|]. cbn [fs].
      rewrite <- Hdir. rewrite <- (app_nil_r (out_dir_of job)). unfold out_dir_of.
      rewrite <- !app_assoc. apply lookup_remove_at_other. apply zip_name_differs.
    - rewrite unlink_eq, Ez. exists w. right. eexists. reflexivity.
    - exists w. left. split; [reflexivity | exact Hdir]. }
  destruct Hstep as [w1 [[H1 Hdir1]|[e H1]]];
    [| rewrite (bind_fail _ _ _ _ _ _ _ H1); discriminate].
  rewrite (bind_step _ _ _ _ _ _ _ H1). cbv beta.
  (* the archive is opened *)
  pose proof (write_file_eq (zip_path_of job) (Zip []) w1) as Hw2.
  destruct (write_at (zip_path_of job) (Zip []) (fs w1)) as [root2|] eqn:E2;
    [| rewrite (bind_fail _ _ _ _ _ _ _ Hw2); discriminate].
  rewrite (bind_step _ _ _ _ _ _ _ Hw2). cbv beta.
  set (w2 := {| fs := root2; ticks := ticks w1 |}).
  rewrite (bind_step _ _ _ _ w2 (fs w2) w2) by reflexivity. cbv beta.
  assert (Hdir2 : lookup (out_dir_of job) (fs w2) = Some (Dir es)).
  { rewrite <- Hdir1. rewrite <- (app_nil_r (out_dir_of job)).
    eapply sibling_of_zip. exact E2. }
  rewrite (zip_of_dir _ _ _ Hdir2 Hwf). cbn [fst snd].
  (* the archive is closed *)
  pose proof (write_file_eq (zip_path_of job) (Zip (all_files [] (Dir es))) w2) as Hw3.
  destruct (write_at (zip_path_of job) (Zip (all_files [] (Dir es))) (fs w2))
    as [root3|] eqn:E3;
    [| rewrite (bind_fail _ _ _ _ _ _ _ Hw3); discriminate].
  rewrite (bind_step _ _ _ _ _ _ _ Hw3). cbv beta.
  set (w3 := {| fs := root3; ticks := ticks w2 |}).
  assert (Hdir3 : lookup (out_dir_of job) (fs w3) = Some (Dir es)).
  { rewrite <- Hdir2. rewrite <- (app_nil_r (out_dir_of job)).
    eapply sibling_of_zip. exact E3. }
  (* the working directory is removed *)
  rewrite (bind_step _ _ _ _ w3 tt {| fs := remove_at (out_dir_of job) root3; ticks := ticks w3 |})
    by (rewrite rmtree_ignore_errors_eq, Hdir3; reflexivity).
  cbn [ret res world fs]. intros Hz. inversion Hz. split; [reflexivity|]. split.
  - rewrite <- (lookup_write_at_same _ _ _ _ E3).
    unfold zip_path_of, out_dir_of. apply lookup_remove_at_other.
    intros H. symmetry in H. revert H. apply zip_name_differs.
  - apply lookup_remove_at. apply out_dir_of_not_root.
Qed.

Lemma file_at_lookup :
  forall rel n c,
    wf_node n = true -> file_at rel n c -> lookup rel n = Some (File c).
Proof.
  induction rel as [|k rel IH]; intros n c Hwf Hf.
  - destruct n as [c'|es]; simpl in Hf; [subst; reflexivity | destruct Hf].
  - destruct n as [c'|es]; simpl in Hf; [destruct Hf|].
    destruct Hf as (child & Hin & Hf).
    rewrite lookup_cons, (assoc_entry es k child Hwf Hin).
    apply IH; [| exact Hf].
    pose proof (wf_node_children es Hwf) as Hc. rewrite Forall_forall in Hc.
    apply (Hc (k, child) Hin).
Qed.

(** A job that completes went through the encoder and the packager. *)
Lemma convert_completes :
  forall env ffmpeg job duration hls_ok w,
    res (convert env ffmpeg job duration hls_ok w) = Ok tt ->
    let p := proc_popen env (build_args ffmpeg job (out_dir_of job) hls_ok) (fs w) in
    exists w_enc z,
      fs w_enc = enc_fs p
      /\ res (package job (out_dir_of job) w_enc) = Ok z
      /\ world (convert env ffmpeg job duration hls_ok w)
         = world (package job (out_dir_of job) w_enc).
Proof.
  intros env ffmpeg job duration hls_ok w. unfold convert.
  destruct (_ && _); [discriminate|].
  pose proof (encode_eq env (build_args ffmpeg job (out_dir_of job) hls_ok)
                (name (src job)) duration w) as He. cbv zeta in He.
  destruct (enc_broken _) as [msg|] eqn:Ebr in He;
    [| destruct (negb _) eqn:Erc in He].
  - rewrite (bind_Raise _ _ _ _ _ (Exn UnicodeDecodeError msg)) by (rewrite He; reflexivity).
    discriminate.
  - rewrite (bind_Raise _ _ _ _ _ ffmpeg_failed) by (rewrite He; reflexivity).
    discriminate.
  - rewrite (bind_Ok _ _ _ _ _ tt) by (rewrite He; reflexivity).
    rewrite He. cbn [res world emitted]. cbv beta.
    match goal with
    | |- context [bind (package job (out_dir_of job)) _ ?w1] => set (w_enc := w1)
    end.
    destruct (res (package job (out_dir_of job) w_enc)) as [z|e] eqn:Ep.
    + rewrite (bind_Ok _ _ _ _ _ z Ep). cbn [res world emitted bind emit].
      intros _. cbv zeta. exists w_enc, z. auto.
    + rewrite (bind_Raise _ _ _ _ _ e Ep). discriminate.
Qed.

(** C6: when a job completes, the archive at [<stem>.zip] under the
    destination root holds exactly the regular files found below the
    working directory as the encoder left it, each under its path relative
    to that directory: appending the member's name to the directory's path
    gives the path the file had, so no member name starts above the
    directory or repeats it.  When the directory holds regular files only
    (the manifest and the segments the encoder is told to write there),
    every member name is the single component that is the file's own name:
    extraction puts them at its root with no directory level in between. *)
Theorem C6_archive_members_relative :
  forall env ffmpeg ffprobe job w duration hls_ok es,
    res (probing env ffprobe job w) = Ok (duration, hls_ok) ->
    res (_process_one env ffmpeg ffprobe job w) = Ok tt ->
    let p := proc_popen env (build_args ffmpeg job (out_dir_of job) hls_ok)
                        (fs (world (probing env ffprobe job w))) in
    lookup (out_dir_of job) (enc_fs p) = Some (Dir es) ->
    wf_node (Dir es) = true ->
    let o := _process_one env ffmpeg ffprobe job w in
    exists members,
      lookup (zip_path_of job) (fs (world o)) = Some (File (Zip members))
      /\ (forall rel c, In (rel, c) members <-> file_at rel (Dir es) c)
      /\ (forall rel c,
            In (rel, c) members ->
            rel <> [] /\ lookup (out_dir_of job ++ rel) (enc_fs p) = Some (File c))
      /\ (flat (Dir es) = true ->
          map fst members = map (fun e => [fst e]) es
          /\ List.length members = List.length es).
Proof.
  intros env ffmpeg ffprobe job w duration hls_ok es Hp Hok p Hdir Hwf o. subst o.
  destruct (_process_one_after_probing env ffmpeg ffprobe job w duration hls_ok Hp)
    as (Heq & _ & _).
  rewrite Heq in *. cbn [res world emitted] in *.
  destruct (convert_completes env ffmpeg job duration hls_ok _ Hok)
    as (w_enc & z & Hfs & Hpk & Hworld).
  fold p in Hfs. rewrite Hworld.
  assert (Hdir' : lookup (out_dir_of job) (fs w_enc) = Some (Dir es))
    by (rewrite Hfs; exact Hdir).
  destruct (package_ok job w_enc z es Hpk Hdir' Hwf) as (_ & Hzip & _).
  exists (all_files [] (Dir es)). split; [exact Hzip|].
  assert (Hspec : forall rel c,
             In (rel, c) (all_files [] (Dir es)) <-> file_at rel (Dir es) c).
  { intros rel c. rewrite all_files_spec. split.
    - intros (r & _ & Hrel & Hf). simpl in Hrel. subst. exact Hf.
    - intros Hf. exists rel. split; [| split; [reflexivity | exact Hf]].
      destruct rel; [destruct Hf | discriminate]. }
  split; [exact Hspec|]. split.
  - intros rel c Hin. apply Hspec in Hin. split.
    + destruct rel; [destruct Hin | discriminate].
    + rewrite lookup_app, Hdir. apply file_at_lookup; assumption.
  - apply all_files_flat.
Qed.

Lemma C6_archive_members_relative_witness :
  res (probing (Ex.env_with true Ex.meta_h264 [] 0 Ex.never) "/usr/bin/ffprobe"
               (Ex.job true false) (Ex.w0 Ex.disk))
  = Ok (Fin (20 # 1), true)
  /\ res (_process_one (Ex.env_with true Ex.meta_h264 [] 0 Ex.never)
                       "/usr/bin/ffmpeg" "/usr/bin/ffprobe"
                       (Ex.job true false) (Ex.w0 Ex.disk))
     = Ok tt
  /\ wf_node (Dir Ex.hls_files) = true
  /\ exists members,
       lookup ["out"; "clip.zip"]
         (fs (world (_process_one (Ex.env_with true Ex.meta_h264 [] 0 Ex.never)
                                  "/usr/bin/ffmpeg" "/usr/bin/ffprobe"
                                  (Ex.job true false) (Ex.w0 Ex.disk))))
       = Some (File (Zip members))
       /\ map fst members
          = [["playlist.m3u8"]; ["segment_00000.ts"]; ["segment_00001.ts"]].
Proof.
  assert (H1 : res (probing (Ex.env_with true Ex.meta_h264 [] 0 Ex.never) "/usr/bin/ffprobe"
                            (Ex.job true false) (Ex.w0 Ex.disk))
               = Ok (Fin (20 # 1), true)) by (vm_compute; reflexivity).
  assert (H2 : res (_process_one (Ex.env_with true Ex.meta_h264 [] 0 Ex.never)
                                 "/usr/bin/ffmpeg" "/usr/bin/ffprobe"
                                 (Ex.job true false) (Ex.w0 Ex.disk))
               = Ok tt) by (vm_compute; reflexivity).
  assert (H4 : wf_node (Dir Ex.hls_files) = true) by reflexivity.
  split; [exact H1 | split; [exact H2 | split; [exact H4 |]]].
  destruct (C6_archive_members_relative
              (Ex.env_with true Ex.meta_h264 [] 0 Ex.never)
              "/usr/bin/ffmpeg" "/usr/bin/ffprobe" (Ex.job true false) (Ex.w0 Ex.disk)
              (Fin (20 # 1)) true Ex.hls_files H1 H2 eq_refl H4)
    as (members & Hzip & _ & _ & Hflat).
  exists members. split; [exact Hzip|].
  exact (proj1 (Hflat eq_refl)).
Defined.

Lemma C10_working_directory_refreshed_first_witness :
  lookup ["out"; "clip_hls"] Ex.disk = Some (Dir [("old.ts", File (Raw "old"))])
  /\ prober_calls
       (emitted (_process_one (Ex.env_with true Ex.meta_hevc [] 0 Ex.never)
                              "/usr/bin/ffmpeg" "/usr/bin/ffprobe"
                              (Ex.job true false) (Ex.w0 Ex.disk)))
     = [["/usr/bin/ffprobe"; "-v"; "error"; "-print_format"; "json";
         "-show_streams"; "-show_format"; "/videos/clip.mp4"]]
  /\ lookup ["out"; "clip_hls"]
       (fs (world (_process_one (Ex.env_with true Ex.meta_hevc [] 0 Ex.never)
                                "/usr/bin/ffmpeg" "/usr/bin/ffprobe"
                                (Ex.job true false) (Ex.w0 Ex.disk))))
     = Some (Dir []).
Proof.
  pose proof (C10_working_directory_refreshed_first
                (Ex.env_with true Ex.meta_hevc [] 0 Ex.never)
                "/usr/bin/ffmpeg" "/usr/bin/ffprobe" (Ex.job true false) (Ex.w0 Ex.disk))
    as (Hrun & _ & Hskip & _).
  split; [reflexivity|]. split.
  - exact (Hrun _ eq_refl).
  - exact (Hskip skip_error eq_refl eq_refl).
Defined.

(* ================================================================== *)
(** * Further properties of the code *)

(** ** Locating the binaries (main.py:70-89) *)


Lemma first_existing_None :
  forall env nm,
    no_candidate env nm ->
    first_existing env [shutil_which env nm; Some (local_binary env nm)] = None.
Proof.
  intros env nm [Hwhich Hlocal]. unfold first_existing. cbn [find].
  rewrite Hlocal, andb_false_r.
  destruct (shutil_which env nm) as [s|] eqn:E; [| reflexivity].
  destruct (Hwhich s eq_refl) as [Hs|Hs].
  - subst s. reflexivity.
  - rewrite Hs, andb_false_r. reflexivity.
Qed.



(** X2: [PATH] comes first.  When [shutil.which] names an existing file for
    a binary, that file is the one returned, whether or not the [bin]
    folder has one too; the [bin] folder is only used for a binary that
    [shutil.which] does not find. *)
Theorem X2_path_before_bin_folder :
  forall env ffmpeg ffprobe,
    find_ffmpeg_binaries env = Ok (ffmpeg, ffprobe) ->
    (forall s, shutil_which env "ffmpeg" = Some s -> s <> EmptyString ->
               binary_exists env s = true -> ffmpeg = s)
    /\ (forall s, shutil_which env "ffprobe" = Some s -> s <> EmptyString ->
                  binary_exists env s = true -> ffprobe = s)
    /\ (shutil_which env "ffmpeg" = None -> ffmpeg = local_binary env "ffmpeg")
    /\ (shutil_which env "ffprobe" = None -> ffprobe = local_binary env "ffprobe").
Proof.
  intros env ffmpeg ffprobe. unfold find_ffmpeg_binaries.
  fold (local_binary env "ffmpeg"). fold (local_binary env "ffprobe").
  destruct (first_existing env [shutil_which env "ffmpeg"; _]) as [a|] eqn:Ea;
    [| discriminate].
  destruct (first_existing env [shutil_which env "ffprobe"; _]) as [b|] eqn:Eb;
    [| discriminate].
  intros H. inversion H; subst a b. clear H.
  assert (Hfirst : forall nm r,
             first_existing env [shutil_which env nm; Some (local_binary env nm)] = Some r ->
             (forall s, shutil_which env nm = Some s -> s <> EmptyString ->
                        binary_exists env s = true -> r = s)
             /\ (shutil_which env nm = None -> r = local_binary env nm)).
  { intros nm r. unfold first_existing. cbn [find].
    destruct (shutil_which env nm) as [s0|].
    - destruct (negb (String.eqb s0 EmptyString) && binary_exists env s0) eqn:E.
      + intros Hr. inversion Hr; subst r. split; [| discriminate].
        intros s Hs _ _. inversion Hs. reflexivity.
      + intros Hr. split; [| discriminate].
        intros s Hs Hne Hex. inversion Hs; subst s0. exfalso.
        apply andb_false_iff in E. destruct E as [E|E].
        * apply negb_false_iff in E. apply String.eqb_eq in E. contradiction.
        * congruence.
    - intros Hr. split; [discriminate|]. intros _.
      destruct (negb _ && _); inversion Hr; reflexivity. }
  destruct (Hfirst _ _ Ea) as [A1 A2]. destruct (Hfirst _ _ Eb) as [B1 B2].
  auto.
Qed.

Lemma X2_path_before_bin_folder_witness :
  find_ffmpeg_binaries (Ex.env_with true Ex.meta_h264 [] 0 Ex.never)
  = Ok ("/usr/bin/ffmpeg", "/usr/bin/ffprobe")
  /\ binary_exists (Ex.env_with true Ex.meta_h264 [] 0 Ex.never)
       (local_binary (Ex.env_with true Ex.meta_h264 [] 0 Ex.never) "ffmpeg") = true
  /\ "/usr/bin/ffmpeg" = "/usr/bin/ffmpeg".
Proof.
  assert (H : find_ffmpeg_binaries (Ex.env_with true Ex.meta_h264 [] 0 Ex.never)
              = Ok ("/usr/bin/ffmpeg", "/usr/bin/ffprobe")) by reflexivity.
  split; [exact H|]. split; [reflexivity|].
  apply (proj1 (X2_path_before_bin_folder _ _ _ H) "/usr/bin/ffmpeg");
    [reflexivity | discriminate | reflexivity].
Defined.

(** X3: both binaries are needed.  When either of them has no usable
    candidate, [find_ffmpeg_binaries] raises [FileNotFoundError] with its
    fixed text, even though the other one is there. *)
Theorem X3_one_missing_binary_is_enough :
  forall env,
    no_candidate env "ffmpeg" \/ no_candidate env "ffprobe" ->
    find_ffmpeg_binaries env = Raise (Exn FileNotFoundError not_found_msg).
Proof.
  intros env H. unfold find_ffmpeg_binaries.
  fold (local_binary env "ffmpeg"). fold (local_binary env "ffprobe").
  destruct H as [H|H]; rewrite (first_existing_None env _ H).
  - reflexivity.
  - destruct (first_existing env _); reflexivity.
Qed.

Lemma X3_one_missing_binary_is_enough_witness :
  binary_exists More.env_no_ffprobe "/usr/bin/ffmpeg" = true
  /\ find_ffmpeg_binaries More.env_no_ffprobe
     = Raise (Exn FileNotFoundError not_found_msg).
Proof.
  split; [reflexivity|].
  apply X3_one_missing_binary_is_enough. right. split.
  - intros s Hs. discriminate.
  - reflexivity.
Defined.

(** ** A probe that fails (main.py:93-105, 186) *)



(** ** The compatibility rule on ordinary and on odd metadata
       (main.py:115-122) *)

Lemma codecs_are_hls_friendly_streams :
  forall meta streams,
    py_get meta "streams" (JList []) = Ok (JList streams) ->
    forallb is_dict streams = true ->
    codecs_are_hls_friendly meta
    = Ok (last_verdict "video" ["h264"] false streams
          && last_verdict "audio" ["aac"; "mp3"; "ac3"] true streams).
Proof.
  intros meta streams Hget Hd. unfold codecs_are_hls_friendly.
  rewrite Hget. cbn [rbind py_iter].
  rewrite scan_streams_last by assumption. reflexivity.
Qed.

(** X5: on the files the tool is made for, the rule is the documented one.
    When the stream list holds objects only, with at most one video stream
    and at most one audio stream, [codecs_are_hls_friendly] answers true
    exactly when there is a video stream, its codec is h264, and the audio
    stream, if there is one, has codec aac, mp3 or ac3. *)
Theorem X5_rule_on_single_track_files :
  forall meta streams,
    py_get meta "streams" (JList []) = Ok (JList streams) ->
    forallb is_dict streams = true ->
    List.length (filter (is_stream "video") streams) <= 1 ->
    List.length (filter (is_stream "audio") streams) <= 1 ->
    codecs_are_hls_friendly meta = Ok (spec_hls_friendly streams).
Proof.
  intros meta streams Hget Hd Hv Ha.
  rewrite (codecs_are_hls_friendly_streams meta streams Hget Hd).
  rewrite (last_verdict_single "video" _ _ _ Hv), (last_verdict_single "audio" _ _ _ Ha).
  unfold spec_hls_friendly. f_equal.
  assert (Hex : existsb (is_stream "video") streams
                = match filter (is_stream "video") streams with [] => false | _ => true end).
  { clear. induction streams as [|s l IH]; simpl; [reflexivity|].
    destruct (is_stream "video" s); simpl; [reflexivity | exact IH]. }
  rewrite Hex.
  destruct (filter (is_stream "video") streams) as [|v [|v' vs]];
    destruct (filter (is_stream "audio") streams) as [|a [|a' al]];
    simpl in *; try lia; rewrite ?andb_true_r; reflexivity.
Qed.

Lemma X5_rule_on_single_track_files_witness :
  codecs_are_hls_friendly Ex.meta_hevc
  = Ok (spec_hls_friendly [Ex.stream "video" "hevc"; Ex.stream "audio" "aac"])
  /\ spec_hls_friendly [Ex.stream "video" "hevc"; Ex.stream "audio" "aac"] = false.
Proof.
  split; [| reflexivity].
  apply X5_rule_on_single_track_files.
  - reflexivity.
  - reflexivity.
  - simpl. lia.
  - simpl. lia.
Defined.

(** X6: no video, no stream copy.  When the stream list holds objects only
    and none of them is a video stream (in particular when the metadata has
    no stream list at all), the answer is false, whatever the audio. *)
Theorem X6_no_video_stream_is_not_friendly :
  forall meta streams,
    py_get meta "streams" (JList []) = Ok (JList streams) ->
    forallb is_dict streams = true ->
    filter (is_stream "video") streams = [] ->
    codecs_are_hls_friendly meta = Ok false.
Proof.
  intros meta streams Hget Hd Hv.
  rewrite (codecs_are_hls_friendly_streams meta streams Hget Hd).
  rewrite (last_verdict_none "video" _ _ _ Hv). reflexivity.
Qed.

Lemma X6_no_video_stream_is_not_friendly_witness :
  codecs_are_hls_friendly More.meta_audio_only = Ok false
  /\ codecs_are_hls_friendly (JDict [("format", JDict [])]) = Ok false.
Proof.
  split.
  - apply (X6_no_video_stream_is_not_friendly More.meta_audio_only
             [Ex.stream "audio" "aac"]); reflexivity.
  - apply (X6_no_video_stream_is_not_friendly (JDict [("format", JDict [])]) []);
      reflexivity.
Defined.

Lemma scan_streams_raises :
  forall streams v a,
    existsb (fun s => negb (is_dict s)) streams = true ->
    exists msg, scan_streams streams v a = Raise (Exn AttributeError msg).
Proof.
  induction streams as [|s rest IH]; intros v a H; [discriminate|].
  cbn [existsb] in H. cbn [scan_streams].
  destruct s as [| b | z | f | t | l | kv];
    try (eexists; reflexivity).
  cbn [is_dict negb orb] in H. cbn [py_get rbind].
  destruct (json_is_str _ "video"); destruct (json_is_str _ "audio");
    cbn [rbind]; apply IH; exact H.
Qed.

(** X7: a stream entry that is not an object is an error, not a verdict.
    [codecs_are_hls_friendly] then raises [AttributeError], also when the
    entries before and after it would have been accepted. *)
Theorem X7_malformed_stream_entry_raises :
  forall meta streams,
    py_get meta "streams" (JList []) = Ok (JList streams) ->
    existsb (fun s => negb (is_dict s)) streams = true ->
    exists msg, codecs_are_hls_friendly meta = Raise (Exn AttributeError msg).
Proof.
  intros meta streams Hget Hbad. unfold codecs_are_hls_friendly.
  rewrite Hget. cbn [rbind py_iter].
  destruct (scan_streams_raises streams false true Hbad) as [msg Hmsg].
  rewrite Hmsg. exists msg. reflexivity.
Qed.

Lemma X7_malformed_stream_entry_raises_witness :
  exists msg, codecs_are_hls_friendly More.meta_null_stream = Raise (Exn AttributeError msg).
Proof.
  apply (X7_malformed_stream_entry_raises More.meta_null_stream
           [Ex.stream "video" "h264"; JNull]); reflexivity.
Defined.

(** ** One encoder run (main.py:217-244) *)

(** X8: how an encoder run ends.  The encoder is started once, with the
    arguments given.  When every read of its status channel gives a line,
    the run succeeds exactly when the exit status is 0 and otherwise raises
    the fixed [RuntimeError] of main.py:244, whatever the lines hold.  When
    a read fails on bytes that do not decode, the run raises that
    [UnicodeDecodeError], whatever the exit status.  In every case nothing
    is logged and the disk is left as the encoder left it. *)
Theorem X8_encoder_run_outcome :
  forall env args fname duration w,
    let p := proc_popen env args (fs w) in
    let o := encode env args fname duration w in
    (enc_broken p = None ->
     (res o = Ok tt <-> enc_returncode p = 0%Z)
     /\ (enc_returncode p <> 0%Z -> res o = Raise ffmpeg_failed))
    /\ (forall msg, enc_broken p = Some msg -> res o = Raise (Exn UnicodeDecodeError msg))
    /\ encoder_calls (emitted o) = [args]
    /\ logged (emitted o) = []
    /\ fs (world o) = enc_fs p.
Proof.
  intros env args fname duration w p o. subst o.
  rewrite encode_eq. fold p. cbn [res world emitted fs].
  assert (Hq : forallb (fun e => match e with sig_file_progress _ _ => true | _ => false end)
                 (emitted (reading env fname duration p w)) = true).
  { unfold reading.
    pose proof (read_progress_emits env fname duration (enc_stderr p) (enc_broken p)
                  (clock env (ticks w)) {| fs := fs w; ticks := S (ticks w) |}) as Hr.
    rewrite forallb_forall in *. intros e He. specialize (Hr e He).
    destruct e; try discriminate. reflexivity. }
  assert (Hlog : forall evs,
             forallb (fun e => match e with sig_file_progress _ _ => true | _ => false end) evs
             = true -> logged evs = []).
  { induction evs as [|e evs IH]; simpl; intros Hall; [reflexivity|].
    apply andb_true_iff in Hall. destruct Hall as [He Hevs].
    destruct e; try discriminate. simpl. auto. }
  split; [| split; [| split; [| split]]].
  - intros Hnone. rewrite Hnone. split.
    + destruct (enc_returncode p =? 0)%Z eqn:E; simpl.
      * apply Z.eqb_eq in E. split; auto.
      * apply Z.eqb_neq in E. split; [discriminate | contradiction].
    + intros Hrc. apply Z.eqb_neq in Hrc. rewrite Hrc. reflexivity.
  - intros msg Hsome. rewrite Hsome. reflexivity.
  - cbn [encoder_calls flat_map app]. fold (encoder_calls (emitted (reading env fname duration p w))).
    rewrite (no_percent_no_call _ Hq). reflexivity.
  - cbn [logged flat_map app]. fold (logged (emitted (reading env fname duration p w))).
    apply Hlog. exact Hq.
  - reflexivity.
Qed.

(** ** The rate limit of the reading loop (main.py:236-238) *)

Lemma read_progress_quiet :
  forall env fname duration lines broken last_update w,
    (forall n, (clock env n - last_update <= 5 # 100)%Q) ->
    emitted (read_progress env fname duration last_update lines broken w) = [].
Proof.
  intros env fname duration lines broken last_update.
  induction lines as [|line rest IH]; intros w Hclock; simpl.
  - destruct broken; reflexivity.
  - destruct (String.eqb line EmptyString); [apply IH; exact Hclock|].
    destruct (contains "time=" line); [| apply IH; exact Hclock].
    destruct (rbind (parse_time env line) _) as [p|]; [| apply IH; exact Hclock].
    rewrite emitted_bind. cbn [time_time res world emitted app].
    assert (Hle : Qle_bool (clock env (ticks w) - last_update) (5 # 100) = true)
      by (apply Qle_bool_iff; apply Hclock).
    rewrite Hle. cbn [negb]. apply IH. exact Hclock.
Qed.

(** X9: progress is rate-limited by the wall clock, not by the lines.  If
    no reading of the clock is more than 0.05 s past the reading taken when
    the encoder was started, the run lets out no per-file percent at all,
    however many status lines the encoder prints. *)
Theorem X9_no_percent_within_the_first_50_ms :
  forall env args fname duration w,
    (forall n, (clock env n - clock env (ticks w) <= 5 # 100)%Q) ->
    emitted (encode env args fname duration w) = [ev_popen args (fs w)].
Proof.
  intros env args fname duration w Hclock.
  rewrite encode_eq. cbn [emitted]. unfold reading.
  rewrite read_progress_quiet by exact Hclock. reflexivity.
Qed.

Lemma X9_no_percent_within_the_first_50_ms_witness :
  emitted (encode (More.env_clock (fun _ => 7%Q)
                     [Ex.status_line "00:00:10.00"; Ex.status_line "00:00:20.00"] 0)
                  ["ffmpeg"] "clip.mp4" (Fin 20) (Ex.w0 Ex.disk))
  = [ev_popen ["ffmpeg"] Ex.disk].
Proof.
  apply (X9_no_percent_within_the_first_50_ms
           (More.env_clock (fun _ => 7%Q)
              [Ex.status_line "00:00:10.00"; Ex.status_line "00:00:20.00"] 0)
           ["ffmpeg"] "clip.mp4" (Fin 20) (Ex.w0 Ex.disk)).
  intros n. discriminate.
Defined.

Lemma read_progress_count :
  forall env fname duration lines broken last_update w,
    List.length
      (percents (emitted (read_progress env fname duration last_update lines broken w)))
    <= List.length (filter (contains "time=") lines).
Proof.
  intros env fname duration lines broken.
  induction lines as [|line rest IH]; intros last_update w; simpl.
  - destruct broken; simpl; lia.
  - destruct (String.eqb line EmptyString).
    { specialize (IH last_update w). destruct (contains "time=" line); simpl; lia. }
    destruct (contains "time=" line); [| apply IH].
    destruct (rbind (parse_time env line) _) as [p|];
      [| specialize (IH last_update w); simpl; lia].
    rewrite emitted_bind. cbn [time_time res world emitted app].
    destruct (negb _).
    + rewrite emitted_bind. cbn [emit res world emitted].
      rewrite emitted_bind. cbn [time_time res world emitted app].
      rewrite percents_cons_progress. simpl.
      match goal with
      | |- S (List.length (percents (emitted (read_progress _ _ _ ?lu _ _ ?w')))) <= _ =>
          specialize (IH lu w')
      end. lia.
    + match goal with
      | |- List.length (percents (emitted (read_progress _ _ _ ?lu _ _ ?w'))) <= _ =>
          specialize (IH lu w')
      end. simpl. lia.
Qed.

(** X10: at most one percent per status line.  The per-file percents an
    encoder run lets out are never more than the lines of its status
    channel that contain [time=]; a line without it adds none. *)
Theorem X10_at_most_one_percent_per_status_line :
  forall env args fname duration w,
    List.length (percents (emitted (encode env args fname duration w)))
    <= List.length (filter (contains "time=")
                           (enc_stderr (proc_popen env args (fs w)))).
Proof.
  intros env args fname duration w. rewrite encode_eq. cbn [emitted].
  rewrite percents_cons_popen. unfold reading. apply read_progress_count.
Qed.

(** ** The jobs a batch reports, and the programs it starts (main.py:150-173) *)

Lemma job_level_no_names :
  forall evs, forallb job_level evs = true -> done_names evs = [].
Proof.
  induction evs as [|e evs IH]; simpl; intros H; [reflexivity|].
  apply andb_true_iff in H. destruct H as [He Hevs].
  destruct e; try discriminate; simpl; auto.
Qed.

Lemma done_names_app : forall a b, done_names (a ++ b) = done_names a ++ done_names b.
Proof. intros. unfold done_names. apply flat_map_app. Qed.

Lemma report_of_calls :
  forall fname r,
    prober_calls (report_of fname r) = [] /\ encoder_calls (report_of fname r) = [].
Proof. intros fname [u|e]; simpl; auto. Qed.

(** One job runs the prober at most once, and the encoder at most once and
    only after the prober. *)
Lemma _process_one_calls :
  forall env ffmpeg ffprobe job w,
    let evs := emitted (_process_one env ffmpeg ffprobe job w) in
    List.length (encoder_calls evs) <= List.length (prober_calls evs)
    /\ List.length (prober_calls evs) <= 1.
Proof.
  intros env ffmpeg ffprobe job w evs. subst evs.
  unfold _process_one. rewrite emitted_bind.
  destruct (probing_spec env ffprobe job w) as [(e & _ & He & Hem)|(_ & _ & Hem & _)].
  - rewrite He, Hem. simpl. lia.
  - rewrite Hem. destruct (res (probing env ffprobe job w)) as [[d h]|e].
    + rewrite prober_calls_app, encoder_calls_app, convert_runs_no_prober.
      cbn [fst snd prober_calls encoder_calls flat_map app List.length].
      fold (encoder_calls (emitted (convert env ffmpeg job d h (world (probing env ffprobe job w))))).
      destruct (skips job h) eqn:Hs.
      * rewrite (convert_skips env ffmpeg job d h _ Hs). simpl. lia.
      * destruct (convert_encodes env ffmpeg job d h
                    (world (probing env ffprobe job w)) Hs) as [Hc _].
        rewrite Hc. simpl. lia.
    + simpl. lia.
Qed.

Lemma run_jobs_trace :
  forall env ffmpeg ffprobe total jobs i w,
    let evs := emitted (run_jobs env ffmpeg ffprobe total i jobs w) in
    exists m,
      m <= List.length jobs
      /\ (forall k, k < m -> stop_flag env (i + k) = false)
      /\ (m < List.length jobs -> stop_flag env (i + m) = true)
      /\ done_names evs = map (fun j => name (src j)) (firstn m jobs)
      /\ List.length (encoder_calls evs) <= List.length (prober_calls evs)
      /\ List.length (prober_calls evs) <= m.
Proof.
  intros env ffmpeg ffprobe total jobs.
  induction jobs as [|job rest IH]; intros i w; simpl.
  - exists 0. simpl. repeat split; auto; intros; lia.
  - destruct (stop_flag env i) eqn:Hstop.
    + exists 0. simpl. rewrite Nat.add_0_r. repeat split; auto; intros; lia.
    + rewrite (bind_Ok _ _ _ _ _ tt) by (rewrite run_job_eq; reflexivity).
      rewrite run_job_eq. cbn [res world emitted].
      set (o1 := _process_one env ffmpeg ffprobe job w).
      destruct (IH (S i) (world o1)) as (m & Hm & Hbefore & Hat & Hnames & Henc & Hprobe).
      exists (S m).
      pose proof (run_job_quiet_prefix env ffmpeg ffprobe job w) as Hq.
      fold o1 in Hq. cbv zeta in Hq.
      destruct (_process_one_calls env ffmpeg ffprobe job w) as [Hc1 Hc2].
      fold o1 in Hc1, Hc2.
      destruct (report_of_calls (name (src job)) (res o1)) as [Hr1 Hr2].
      split; [lia|]. split; [| split; [| split; [| split]]].
      * intros k Hk. destruct k as [|k]; [rewrite Nat.add_0_r; exact Hstop|].
        rewrite Nat.add_succ_r. apply (Hbefore k). lia.
      * intros Hlt. rewrite Nat.add_succ_r. apply Hat. lia.
      * rewrite app_assoc. do 2 rewrite done_names_app.
        rewrite (job_level_no_names _ Hq).
        simpl. rewrite Hnames. reflexivity.
      * rewrite !encoder_calls_app, !prober_calls_app, Hr1, Hr2, !length_app. simpl. lia.
      * rewrite !prober_calls_app, Hr1, !length_app. simpl. lia.
Qed.

(** X11: jobs are reported in the order given, up to the first cancellation
    seen.  When both binaries are found, the file names of the terminal
    events are the names of the first [m] jobs, in order and once each,
    where [m] is the number of jobs before the first one at whose turn the
    [_stop] flag is read set (all of them when it never is): no job after
    that one is reported, none before it is left out. *)
Theorem X11_jobs_reported_in_order_until_cancelled :
  forall env jobs w bins,
    find_ffmpeg_binaries env = Ok bins ->
    exists m,
      m <= List.length jobs
      /\ (forall k, k < m -> stop_flag env (1 + k) = false)
      /\ (m < List.length jobs -> stop_flag env (1 + m) = true)
      /\ done_names (emitted (run env jobs w))
         = map (fun j => name (src j)) (firstn m jobs).
Proof.
  intros env jobs w [ffmpeg ffprobe] Hbins. unfold run. rewrite Hbins.
  destruct (run_jobs_trace env ffmpeg ffprobe (List.length jobs) jobs 1 w)
    as (m & Hm & Hbefore & Hat & Hnames & _).
  exists m. split; [exact Hm|]. split; [exact Hbefore|]. split; [exact Hat|].
  rewrite emitted_bind.
  destruct (res _); rewrite done_names_app, Hnames; simpl; rewrite app_nil_r; reflexivity.
Qed.

Lemma X11_jobs_reported_in_order_until_cancelled_witness :
  exists m,
    m <= 3
    /\ (forall k, k < m -> Ex.from 3 (1 + k) = false)
    /\ (m < 3 -> Ex.from 3 (1 + m) = true)
    /\ done_names (emitted (run (Ex.env_with true Ex.meta_h264 [] 0 (Ex.from 3))
                                [Ex.job false true; Ex.job true false; Ex.job false false]
                                (Ex.w0 Ex.disk)))
       = map (fun j => name (src j))
             (firstn m [Ex.job false true; Ex.job true false; Ex.job false false]).
Proof.
  apply (X11_jobs_reported_in_order_until_cancelled
           (Ex.env_with true Ex.meta_h264 [] 0 (Ex.from 3))
           [Ex.job false true; Ex.job true false; Ex.job false false]
           (Ex.w0 Ex.disk) ("/usr/bin/ffmpeg", "/usr/bin/ffprobe")).
  reflexivity.
Defined.

(** X12: a batch never starts more programs than it reports jobs.  In every
    execution of [run] the prober is run at most once per reported job and
    the encoder at most once per run of the prober; when a binary is
    missing neither is started at all. *)
Theorem X12_programs_started_per_job :
  forall env jobs w,
    let evs := emitted (run env jobs w) in
    List.length (encoder_calls evs) <= List.length (prober_calls evs)
    /\ List.length (prober_calls evs) <= List.length (done_names evs)
    /\ List.length (done_names evs) <= List.length jobs
    /\ (forall e, find_ffmpeg_binaries env = Raise e ->
                  prober_calls evs = [] /\ encoder_calls evs = []).
Proof.
  intros env jobs w evs. subst evs. unfold run.
  destruct (find_ffmpeg_binaries env) as [[ffmpeg ffprobe]|e0].
  - destruct (run_jobs_trace env ffmpeg ffprobe (List.length jobs) jobs 1 w)
      as (m & Hm & _ & _ & Hnames & Henc & Hprobe).
    rewrite emitted_bind.
    assert (Hlen : List.length (done_names
                      (emitted (run_jobs env ffmpeg ffprobe (List.length jobs) 1 jobs w))) = m).
    { rewrite Hnames, length_map, length_firstn. lia. }
    destruct (res _);
      rewrite encoder_calls_app, prober_calls_app, done_names_app, !length_app;
      simpl; (split; [lia | split; [lia | split; [lia | intros e1 He; discriminate]]]).
  - simpl. split; [lia | split; [lia | split; [lia | auto]]].
Qed.

(** ** What the file operations leave alone *)

Lemma apart_cons :
  forall p q,
    apart p q = true ->
    exists a p' b q', p = a :: p' /\ q = b :: q'
                      /\ (a <> b \/ (a = b /\ apart p' q' = true)).
Proof.
  intros [|a p'] [|b q'] H; try discriminate.
  exists a, p', b, q'. split; [reflexivity|]. split; [reflexivity|].
  simpl in H. destruct (String.eqb a b) eqn:E.
  - apply String.eqb_eq in E. right. auto.
  - apply String.eqb_neq in E. left. exact E.
Qed.

Lemma lookup_remove_at_apart :
  forall p q n, apart p q = true -> lookup q (remove_at p n) = lookup q n.
Proof.
  induction p as [|a p IH]; intros q n H; [discriminate|].
  destruct (apart_cons _ _ H) as (a0 & p0 & b & q' & Hp & Hq & Hab).
  inversion Hp; subst a0 p0 q. clear Hp.
  destruct n as [x|es]; [destruct p; reflexivity|].
  destruct p as [|c p'].
  - destruct Hab as [Hab|[_ Hab]]; [|discriminate].
    simpl. rewrite assoc_remove_key_other by exact Hab. reflexivity.
  - rewrite remove_at_cons by discriminate.
    destruct (assoc a es) as [child|] eqn:E; [|reflexivity].
    rewrite !lookup_cons. destruct Hab as [Hab|[Hab Hrest]].
    + rewrite assoc_set_key_other by exact Hab. reflexivity.
    + subst b. rewrite assoc_set_key_same, E. apply IH. exact Hrest.
Qed.

Lemma lookup_mkdir_p_apart :
  forall p q n n',
    apart p q = true -> mkdir_p p n = Some n' -> lookup q n' = lookup q n.
Proof.
  induction p as [|a p IH]; intros q n n' H Hmk; [discriminate|].
  destruct (apart_cons _ _ H) as (a0 & p0 & b & q' & Hp & Hq & Hab).
  inversion Hp; subst a0 p0 q. clear Hp.
  destruct n as [x|es]; [discriminate|].
  rewrite mkdir_p_cons in Hmk.
  destruct (mkdir_p p _) as [child'|] eqn:E; [|discriminate].
  inversion Hmk; subst n'. rewrite !lookup_cons.
  destruct Hab as [Hab|[Hab Hrest]].
  - rewrite assoc_set_key_other by exact Hab. reflexivity.
  - subst b. rewrite assoc_set_key_same. rewrite (IH _ _ _ Hrest E).
    destruct (assoc a es) as [child|]; [reflexivity|].
    destruct q' as [|b' q'']; [destruct p; discriminate|]. reflexivity.
Qed.

Lemma lookup_write_at_apart :
  forall p q c n n',
    apart p q = true -> write_at p c n = Some n' -> lookup q n' = lookup q n.
Proof.
  induction p as [|a p IH]; intros q c n n' H Hw; [discriminate|].
  destruct (apart_cons _ _ H) as (a0 & p0 & b & q' & Hp & Hq & Hab).
  inversion Hp; subst a0 p0 q. clear Hp.
  destruct n as [x|es]; [destruct p; discriminate|].
  destruct p as [|d p'].
  - destruct Hab as [Hab|[_ Hab]]; [|discriminate].
    simpl in Hw.
    assert (Hn' : n' = Dir (set_key a (File c) es)).
    { destruct (assoc a es) as [[x|es']|]; inversion Hw; reflexivity. }
    subst n'. rewrite !lookup_cons, assoc_set_key_other by exact Hab. reflexivity.
  - rewrite write_at_cons in Hw by discriminate.
    destruct (assoc a es) as [child|] eqn:E; [|discriminate].
    destruct (write_at (d :: p') c child) as [child'|] eqn:Ew; [|discriminate].
    inversion Hw; subst n'. rewrite !lookup_cons.
    destruct Hab as [Hab|[Hab Hrest]].
    + rewrite assoc_set_key_other by exact Hab. reflexivity.
    + subst b. rewrite assoc_set_key_same, E. apply (IH _ _ _ _ Hrest Ew).
Qed.

Lemma keeps_bind :
  forall A B q (m : M A) (f : A -> M B),
    keeps q m -> (forall a, keeps q (f a)) -> keeps q (bind m f).
Proof.
  intros A B q m f Hm Hf w. unfold bind. cbv zeta.
  destruct (res (m w)) as [a|e]; cbn [world].
  - rewrite Hf. apply Hm.
  - apply Hm.
Qed.

Lemma keeps_same :
  forall A q (m : M A), (forall w, fs (world (m w)) = fs w) -> keeps q m.
Proof. intros A q m H w. rewrite H. reflexivity. Qed.

Lemma keeps_rmtree : forall p q, apart p q = true -> keeps q (rmtree p).
Proof.
  intros p q H [root t]. unfold rmtree, bind, get_fs, set_fs, raise. simpl.
  destruct (lookup p root) as [[x|es]|]; simpl; try reflexivity.
  apply lookup_remove_at_apart. exact H.
Qed.

Lemma keeps_rmtree_ignore_errors :
  forall p q, apart p q = true -> keeps q (rmtree_ignore_errors p).
Proof.
  intros p q H w. rewrite rmtree_ignore_errors_eq.
  destruct (lookup p (fs w)) as [[x|es]|]; simpl; try reflexivity.
  apply lookup_remove_at_apart. exact H.
Qed.

Lemma keeps_unlink : forall p q, apart p q = true -> keeps q (unlink p).
Proof.
  intros p q H w. rewrite unlink_eq.
  destruct (lookup p (fs w)) as [[x|es]|]; simpl; try reflexivity.
  apply lookup_remove_at_apart. exact H.
Qed.

Lemma keeps_mkdir : forall p q, apart p q = true -> keeps q (mkdir p).
Proof.
  intros p q H [root t]. unfold mkdir, bind, get_fs, set_fs, raise. simpl.
  destruct (mkdir_p p root) as [root'|] eqn:E; simpl; [|reflexivity].
  apply (lookup_mkdir_p_apart _ _ _ _ H E).
Qed.

Lemma keeps_write_file :
  forall p q c, apart p q = true -> keeps q (write_file p c).
Proof.
  intros p q c H w. rewrite write_file_eq.
  destruct (write_at p c (fs w)) as [root'|] eqn:E; simpl; [|reflexivity].
  apply (lookup_write_at_apart _ _ _ _ _ H E).
Qed.

Lemma keeps_prepare_out_dir :
  forall p q, apart p q = true -> keeps q (prepare_out_dir p).
Proof.
  intros p q H. unfold prepare_out_dir.
  apply keeps_bind; [apply keeps_same; reflexivity | intros present].
  apply keeps_bind; [| intros _; apply keeps_mkdir; exact H].
  destruct present; [apply keeps_rmtree; exact H | apply keeps_same; reflexivity].
Qed.

Lemma keeps_package :
  forall job q,
    apart (out_dir_of job) q = true ->
    apart (zip_path_of job) q = true ->
    keeps q (package job (out_dir_of job)).
Proof.
  intros job q Hd Hz. rewrite package_unfold.
  apply keeps_bind; [apply keeps_same; reflexivity | intros present].
  apply keeps_bind;
    [destruct present; [apply keeps_unlink; exact Hz | apply keeps_same; reflexivity]
    | intros _].
  apply keeps_bind; [apply keeps_write_file; exact Hz | intros _].
  apply keeps_bind; [apply keeps_same; reflexivity | intros root].
  apply keeps_bind; [apply keeps_write_file; exact Hz | intros _].
  destruct (snd _); [apply keeps_same; reflexivity|].
  apply keeps_bind; [apply keeps_rmtree_ignore_errors; exact Hd | intros _].
  apply keeps_same; reflexivity.
Qed.

(** X13: before the encoder is started, a job touches nothing but its
    working directory.  Whatever is at a path that parts ways with the
    working directory [<out_root>/<stem>_hls] (the source file, other
    archives, other jobs' output) is the same after the preparation and the
    probe as before, whether they succeed or fail. *)
Theorem X13_probing_only_touches_the_working_directory :
  forall env ffprobe job w q,
    apart (out_dir_of job) q = true ->
    lookup q (fs (world (probing env ffprobe job w))) = lookup q (fs w).
Proof.
  intros env ffprobe job w q H. revert w. fold (keeps q (probing env ffprobe job)).
  unfold probing. apply keeps_bind; [apply keeps_prepare_out_dir; exact H | intros _].
  apply keeps_same. intros w. destruct (probe_effects env ffprobe job w) as [Hw _].
  rewrite Hw. reflexivity.
Qed.

Lemma X13_probing_only_touches_the_working_directory_witness :
  lookup ["videos"; "clip.mp4"]
         (fs (world (probing (Ex.env_with true Ex.meta_h264 [] 0 Ex.never)
                             "/usr/bin/ffprobe" (Ex.job false true) (Ex.w0 Ex.disk))))
  = lookup ["videos"; "clip.mp4"] (fs (Ex.w0 Ex.disk)).
Proof.
  apply (X13_probing_only_touches_the_working_directory
           (Ex.env_with true Ex.meta_h264 [] 0 Ex.never)
           "/usr/bin/ffprobe" (Ex.job false true) (Ex.w0 Ex.disk) ["videos"; "clip.mp4"]).
  reflexivity.
Defined.

(** X14: packaging touches nothing but the archive and the working
    directory.  Whatever is at a path that parts ways with both
    [<out_root>/<stem>.zip] and [<out_root>/<stem>_hls] is the same after
    the packaging step as before it, whether the step succeeds or fails. *)
Theorem X14_packaging_only_touches_archive_and_working_directory :
  forall job w q,
    apart (out_dir_of job) q = true ->
    apart (zip_path_of job) q = true ->
    lookup q (fs (world (package job (out_dir_of job) w))) = lookup q (fs w).
Proof.
  intros job w q Hd Hz. apply (keeps_package job q Hd Hz w).
Qed.

Lemma X14_packaging_only_touches_archive_and_working_directory_witness :
  lookup ["videos"; "clip.mp4"]
         (fs (world (package (Ex.job false true) (out_dir_of (Ex.job false true))
                             (Ex.w0 (Ex.after_encoding Ex.disk)))))
  = lookup ["videos"; "clip.mp4"] (fs (Ex.w0 (Ex.after_encoding Ex.disk))).
Proof.
  apply (X14_packaging_only_touches_archive_and_working_directory
           (Ex.job false true) (Ex.w0 (Ex.after_encoding Ex.disk)) ["videos"; "clip.mp4"]);
    reflexivity.
Defined.

(** ** Packaging at the edges (main.py:247-259) *)

Lemma package_blocked :
  forall job out_dir w es,
    lookup (zip_path_of job) (fs w) = Some (Dir es) ->
    package job out_dir w = mkOut (Raise (Exn OSError "Is a directory")) w [].
Proof.
  intros job out_dir w es H. rewrite package_unfold.
  rewrite (bind_step _ _ _ _ w (exists_at (zip_path_of job) (fs w)) w) by reflexivity.
  unfold exists_at. rewrite H. apply bind_fail. rewrite unlink_eq, H. reflexivity.
Qed.

Lemma reading_logs_nothing :
  forall env fname duration p w, logged (emitted (reading env fname duration p w)) = [].
Proof.
  intros. unfold reading.
  pose proof (read_progress_emits env fname duration (enc_stderr p) (enc_broken p)
                (clock env (ticks w)) {| fs := fs w; ticks := S (ticks w) |}) as H.
  induction (emitted _) as [|e evs IH]; [reflexivity|].
  simpl in H. apply andb_true_iff in H. destruct H as [He Hevs].
  destruct e; try discriminate. simpl. apply IH. exact Hevs.
Qed.

(** X15: a directory in the archive's place fails the job after the
    encoding.  If the job is not skipped, the encoder exits with status 0
    and a directory sits at [<out_root>/<stem>.zip], the job is reported
    [FAIL] (the attempt to remove the directory raises, if a read of the
    status channel that fails has not ended the job before), the
    conversion logs no [DONE] line, and the disk stays as the encoder left
    it, working directory included. *)
Theorem X15_directory_in_the_archive_place_fails_the_job :
  forall env ffmpeg job duration hls_ok w es,
    skips job hls_ok = false ->
    enc_returncode (proc_popen env (build_args ffmpeg job (out_dir_of job) hls_ok) (fs w))
    = 0%Z ->
    lookup (zip_path_of job)
           (enc_fs (proc_popen env (build_args ffmpeg job (out_dir_of job) hls_ok) (fs w)))
    = Some (Dir es) ->
    let o := convert env ffmpeg job duration hls_ok w in
    status_of (res o) = "FAIL"
    /\ logged (emitted o) = []
    /\ fs (world o)
       = enc_fs (proc_popen env (build_args ffmpeg job (out_dir_of job) hls_ok) (fs w)).
Proof.
  intros env ffmpeg job duration hls_ok w es Hs Hrc Hz o. subst o.
  unfold convert. fold (skips job hls_ok). rewrite Hs.
  pose proof (encode_eq env (build_args ffmpeg job (out_dir_of job) hls_ok)
                (name (src job)) duration w) as He. cbv zeta in He.
  rewrite Hrc in He. cbn [Z.eqb negb] in He.
  destruct (enc_broken _) as [msg|] in He.
  { rewrite (bind_Raise _ _ _ _ _ (Exn UnicodeDecodeError msg)) by (rewrite He; reflexivity).
    rewrite He. cbn [res world emitted fs]. split; [reflexivity|]. split; [|reflexivity].
    cbn [logged flat_map app]. apply reading_logs_nothing. }
  rewrite (bind_Ok _ _ _ _ _ tt) by (rewrite He; reflexivity).
  rewrite He. cbn [res world emitted]. cbv beta.
  match goal with
  | |- context [bind (package job (out_dir_of job)) _ ?w1] => set (w_enc := w1)
  end.
  pose proof (package_blocked job (out_dir_of job) w_enc es Hz) as Hp.
  rewrite (bind_Raise _ _ _ _ _ (Exn OSError "Is a directory"))
    by (rewrite Hp; reflexivity).
  rewrite Hp. cbn [res world emitted fs]. split; [reflexivity|]. split; [|reflexivity].
  rewrite app_nil_r. cbn [logged flat_map app].
  apply reading_logs_nothing.
Qed.

Lemma X15_directory_in_the_archive_place_fails_the_job_witness :
  status_of (res (convert More.env_zip_is_dir "/usr/bin/ffmpeg" (Ex.job false true)
                          (Fin 20) true (Ex.w0 Ex.clean_disk))) = "FAIL"
  /\ logged (emitted (convert More.env_zip_is_dir "/usr/bin/ffmpeg" (Ex.job false true)
                              (Fin 20) true (Ex.w0 Ex.clean_disk))) = []
  /\ fs (world (convert More.env_zip_is_dir "/usr/bin/ffmpeg" (Ex.job false true)
                        (Fin 20) true (Ex.w0 Ex.clean_disk)))
     = More.disk_zip_is_dir.
Proof.
  apply (X15_directory_in_the_archive_place_fails_the_job
           More.env_zip_is_dir "/usr/bin/ffmpeg" (Ex.job false true)
           (Fin 20) true (Ex.w0 Ex.clean_disk) []);
    reflexivity.
Defined.

Lemma apart_zip_out_dir :
  forall job, apart (zip_path_of job) (out_dir_of job) = true.
Proof.
  intros job. unfold zip_path_of, out_dir_of.
  induction (out_root job) as [|c r IH]; simpl.
  - destruct (String.eqb _ _) eqn:E; [|reflexivity].
    apply String.eqb_eq in E. exfalso. revert E. apply zip_name_differs.
  - rewrite String.eqb_refl. exact IH.
Qed.

Lemma walked_files_no_dir :
  forall p root, dir_at p root = false -> walked_files p root = [].
Proof.
  intros p root. unfold dir_at, walked_files.
  destruct (lookup p root) as [[x|es]|]; [reflexivity | discriminate | reflexivity].
Qed.

Lemma package_nothing_to_pack :
  forall job w z,
    dir_at (out_dir_of job) (fs w) = false ->
    res (package job (out_dir_of job) w) = Ok z ->
    let o := package job (out_dir_of job) w in
    z = zip_path_of job
    /\ lookup (zip_path_of job) (fs (world o)) = Some (File (Zip []))
    /\ lookup (out_dir_of job) (fs (world o)) = lookup (out_dir_of job) (fs w).
Proof.
  intros job w z Hnd Hres. cbv zeta. revert Hres.
  pose proof (apart_zip_out_dir job) as Hza.
  rewrite package_unfold.
  rewrite (bind_step _ _ _ _ w (exists_at (zip_path_of job) (fs w)) w) by reflexivity.
  assert (Hstep :
            (exists w1,
                (if exists_at (zip_path_of job) (fs w) then unlink (zip_path_of job) else ret tt) w
                = mkOut (Ok tt) w1 []
                /\ lookup (out_dir_of job) (fs w1) = lookup (out_dir_of job) (fs w))
            \/ exists e,
                (if exists_at (zip_path_of job) (fs w) then unlink (zip_path_of job) else ret tt) w
                = mkOut (Raise e) w []).
  { unfold exists_at.
    destruct (lookup (zip_path_of job) (fs w)) as [[x|es']|] eqn:Ez.
    - left. rewrite unlink_eq, Ez. eexists. split; [reflexivity|]. cbn [fs].
      apply lookup_remove_at_apart. exact Hza.
    - right. rewrite unlink_eq, Ez. eexists. reflexivity.
    - left. exists w. split; reflexivity. }
  destruct Hstep as [(w1 & H1 & Hdir1)|[e H1]];
    [| rewrite (bind_fail _ _ _ _ _ _ _ H1); discriminate].
  rewrite (bind_step _ _ _ _ _ _ _ H1). cbv beta.
  pose proof (write_file_eq (zip_path_of job) (Zip []) w1) as Hw2.
  destruct (write_at (zip_path_of job) (Zip []) (fs w1)) as [root2|] eqn:E2;
    [| rewrite (bind_fail _ _ _ _ _ _ _ Hw2); discriminate].
  rewrite (bind_step _ _ _ _ _ _ _ Hw2). cbv beta.
  set (w2 := {| fs := root2; ticks := ticks w1 |}).
  rewrite (bind_step _ _ _ _ w2 (fs w2) w2) by reflexivity. cbv beta.
  assert (Hdir2 : lookup (out_dir_of job) (fs w2) = lookup (out_dir_of job) (fs w)).
  { rewrite <- Hdir1. apply (lookup_write_at_apart _ _ _ _ _ Hza E2). }
  assert (Hnd2 : dir_at (out_dir_of job) (fs w2) = false)
    by (unfold dir_at in *; rewrite Hdir2; exact Hnd).
  rewrite (walked_files_no_dir _ _ Hnd2). cbn [zip_write_all fst snd].
  pose proof (write_file_eq (zip_path_of job) (Zip []) w2) as Hw3.
  destruct (write_at (zip_path_of job) (Zip []) (fs w2)) as [root3|] eqn:E3;
    [| rewrite (bind_fail _ _ _ _ _ _ _ Hw3); discriminate].
  rewrite (bind_step _ _ _ _ _ _ _ Hw3). cbv beta.
  set (w3 := {| fs := root3; ticks := ticks w2 |}).
  assert (Hdir3 : lookup (out_dir_of job) (fs w3) = lookup (out_dir_of job) (fs w)).
  { rewrite <- Hdir2. apply (lookup_write_at_apart _ _ _ _ _ Hza E3). }
  rewrite (bind_step _ _ _ _ w3 tt w3).
  2:{ rewrite rmtree_ignore_errors_eq. unfold dir_at in Hnd. rewrite Hdir3.
      destruct (lookup (out_dir_of job) (fs w)) as [[x|es]|];
        [reflexivity | discriminate | reflexivity]. }
  cbn [ret res world fs]. intros Hz. inversion Hz. split; [reflexivity|]. split.
  - apply (lookup_write_at_same _ _ _ _ E3).
  - exact Hdir3.
Qed.

(** X16: with no working directory to pack, a successful packaging leaves
    an empty archive.  If, when the packaging starts, there is no directory
    at [<out_root>/<stem>_hls] (the encoder removed it, or put a regular
    file there) and the packaging succeeds, the archive at
    [<out_root>/<stem>.zip] has no member, the path returned is that
    archive's, and what is in the working directory's place stays. *)
Theorem X16_nothing_to_pack_gives_an_empty_archive :
  forall job w z,
    dir_at (out_dir_of job) (fs w) = false ->
    res (package job (out_dir_of job) w) = Ok z ->
    z = zip_path_of job
    /\ lookup (zip_path_of job) (fs (world (package job (out_dir_of job) w)))
       = Some (File (Zip []))
    /\ lookup (out_dir_of job) (fs (world (package job (out_dir_of job) w)))
       = lookup (out_dir_of job) (fs w).
Proof.
  intros job w z Hnd Hres. exact (package_nothing_to_pack job w z Hnd Hres).
Qed.

Lemma X16_nothing_to_pack_gives_an_empty_archive_witness :
  ["out"; "clip.zip"] = zip_path_of (Ex.job false true)
  /\ lookup (zip_path_of (Ex.job false true))
            (fs (world (package (Ex.job false true) (out_dir_of (Ex.job false true))
                                (Ex.w0 Ex.clean_disk))))
     = Some (File (Zip []))
  /\ lookup (out_dir_of (Ex.job false true))
            (fs (world (package (Ex.job false true) (out_dir_of (Ex.job false true))
                                (Ex.w0 Ex.clean_disk))))
     = lookup (out_dir_of (Ex.job false true)) (fs (Ex.w0 Ex.clean_disk)).
Proof.
  apply (X16_nothing_to_pack_gives_an_empty_archive
           (Ex.job false true) (Ex.w0 Ex.clean_disk) ["out"; "clip.zip"]);
    reflexivity.
Defined.

(** ** The list of dropped files (main.py:293-343) *)

Lemma path_eqb_eq : forall p q, path_eqb p q = true <-> p = q.
Proof.
  intros p q. unfold path_eqb. destruct (list_eq_dec string_dec p q); split; congruence.
Qed.

Lemma listed_iff :
  forall p l, existsb (fun it => path_eqb (data it) p) l = true <-> In p (paths l).
Proof.
  intros p l. unfold paths. rewrite existsb_exists, in_map_iff. split.
  - intros (it & Hin & Heq). apply path_eqb_eq in Heq. exists it. auto.
  - intros (it & Heq & Hin). exists it. split; [exact Hin|]. apply path_eqb_eq. exact Heq.
Qed.

Lemma add_path_listed : forall p l, In p (paths l) -> add_path p l = l.
Proof.
  intros p l H. unfold add_path. apply listed_iff in H. rewrite H. reflexivity.
Qed.

Lemma add_path_new : forall p l, ~ In p (paths l) -> add_path p l = l ++ [item_of p].
Proof.
  intros p l H. unfold add_path.
  destruct (existsb _ l) eqn:E; [|reflexivity].
  apply listed_iff in E. contradiction.
Qed.

Lemma add_path_paths :
  forall p l q, In q (paths (add_path p l)) <-> q = p \/ In q (paths l).
Proof.
  intros p l q. destruct (in_dec (list_eq_dec string_dec) p (paths l)) as [H|H].
  - rewrite (add_path_listed _ _ H). split; [auto|]. intros [Hq|Hq]; [subst; exact H | exact Hq].
  - rewrite (add_path_new _ _ H). unfold paths. rewrite map_app, in_app_iff. simpl.
    split; intros [Hq|Hq]; auto.
    + destruct Hq as [Hq|[]]. auto.
Qed.

Lemma add_path_NoDup :
  forall p l, NoDup (paths l) -> NoDup (paths (add_path p l)).
Proof.
  intros p l Hnd. destruct (in_dec (list_eq_dec string_dec) p (paths l)) as [H|H].
  - rewrite (add_path_listed _ _ H). exact Hnd.
  - rewrite (add_path_new _ _ H). unfold paths. rewrite map_app. simpl.
    apply NoDup_app; [exact Hnd | constructor; [intros [] | constructor] |].
    intros a Ha [Hq|[]]. subst a. contradiction.
Qed.

(** X17: adding a path never lists a file twice.  [add_path] leaves the
    list as it is when the path is already there and otherwise appends one
    row for it, labelled with the file's name; the rows before stay where
    they are, a list without repeated paths stays without, and adding the
    same path again changes nothing. *)
Theorem X17_add_path_keeps_paths_distinct :
  forall p l,
    (exists tail, add_path p l = l ++ tail
                  /\ (tail = [] \/ tail = [item_of p]))
    /\ In p (paths (add_path p l))
    /\ (NoDup (paths l) -> NoDup (paths (add_path p l)))
    /\ add_path p (add_path p l) = add_path p l.
Proof.
  intros p l. split; [| split; [| split]].
  - destruct (in_dec (list_eq_dec string_dec) p (paths l)) as [H|H].
    + exists []. rewrite (add_path_listed _ _ H), app_nil_r. auto.
    + exists [item_of p]. rewrite (add_path_new _ _ H). auto.
  - apply add_path_paths. left. reflexivity.
  - apply add_path_NoDup.
  - apply add_path_listed. apply add_path_paths. left. reflexivity.
Qed.

Lemma dropEvent_spec :
  forall root urls l,
    (exists tail, dropEvent root urls l = l ++ tail)
    /\ (forall q, In q (paths (dropEvent root urls l))
                  <-> In q (paths l)
                      \/ (In q urls /\ lower (suffix q) = ".mp4" /\ exists_at q root = true))
    /\ (NoDup (paths l) -> NoDup (paths (dropEvent root urls l))).
Proof.
  intros root urls. unfold dropEvent.
  induction urls as [|p urls IH]; intros l; cbn [fold_left].
  - split; [exists []; rewrite app_nil_r; reflexivity|]. split; [| auto].
    intros q. split; [auto|]. intros [H|[[] _]]. exact H.
  - set (l1 := if String.eqb (lower (suffix p)) ".mp4" && exists_at p root
               then add_path p l else l).
    destruct (IH l1) as ((tail & Htail) & Hin & Hnd).
    assert (H1 : exists t1, l1 = l ++ t1).
    { subst l1. destruct (_ && _).
      - destruct (in_dec (list_eq_dec string_dec) p (paths l)) as [H|H].
        + exists []. rewrite (add_path_listed _ _ H), app_nil_r. reflexivity.
        + exists [item_of p]. apply add_path_new. exact H.
      - exists []. rewrite app_nil_r. reflexivity. }
    assert (H2 : forall q, In q (paths l1)
                           <-> In q (paths l)
                               \/ (q = p /\ lower (suffix q) = ".mp4"
                                   /\ exists_at q root = true)).
    { intros q. subst l1.
      destruct (String.eqb (lower (suffix p)) ".mp4") eqn:E1;
        destruct (exists_at p root) eqn:E2; cbn [andb].
      - apply String.eqb_eq in E1. rewrite add_path_paths. split.
        + intros [Hq|Hq]; [subst q; right; auto | left; exact Hq].
        + intros [Hq|(Hq & _)]; auto.
      - split; [auto|]. intros [Hq|(Hq & _ & Hex)]; [exact Hq|]. subst q. congruence.
      - split; [auto|]. intros [Hq|(Hq & Hs & _)]; [exact Hq|]. subst q.
        apply String.eqb_neq in E1. contradiction.
      - split; [auto|]. intros [Hq|(Hq & Hs & _)]; [exact Hq|]. subst q.
        apply String.eqb_neq in E1. contradiction. }
    split; [| split].
    + destruct H1 as [t1 Ht1]. exists (t1 ++ tail). rewrite Htail, Ht1, app_assoc. reflexivity.
    + intros q. rewrite Hin, H2. split.
      * intros [[Hq|(Hq & Hs & Hex)]|(Hq & Hs & Hex)]; auto.
        -- right. subst q. split; [left; reflexivity | auto].
        -- right. split; [right; exact Hq | auto].
      * intros [Hq|([Hq|Hq] & Hs & Hex)]; auto.
    + intros Hl. apply Hnd. subst l1. destruct (_ && _); [apply add_path_NoDup|]; exact Hl.
Qed.

(** X18: a drop only ever lists existing [.mp4] files, and each once.  After
    a drop of URLs the rows there were stay in place, in front; a path is
    listed afterwards exactly when it was listed before or is one of the
    dropped paths whose suffix is [.mp4] in any letter case and which
    exists on disk; and a list without repeated paths stays without. *)
Theorem X18_drop_lists_existing_mp4_files_once :
  forall root urls l,
    NoDup (paths l) ->
    (exists tail, dropEvent root urls l = l ++ tail)
    /\ (forall q, In q (paths (dropEvent root urls l))
                  <-> In q (paths l)
                      \/ (In q urls /\ lower (suffix q) = ".mp4" /\ exists_at q root = true))
    /\ NoDup (paths (dropEvent root urls l)).
Proof.
  intros root urls l Hnd.
  destruct (dropEvent_spec root urls l) as (H1 & H2 & H3).
  split; [exact H1 | split; [exact H2 | exact (H3 Hnd)]].
Qed.

Lemma X18_drop_lists_existing_mp4_files_once_witness :
  (exists tail,
      dropEvent Ex.disk
        [["videos"; "clip.mp4"]; ["videos"; "notes.txt"]; ["videos"; "gone.MP4"];
         ["videos"; "clip.mp4"]] []
      = [] ++ tail)
  /\ (forall q,
         In q (paths (dropEvent Ex.disk
                        [["videos"; "clip.mp4"]; ["videos"; "notes.txt"];
                         ["videos"; "gone.MP4"]; ["videos"; "clip.mp4"]] []))
         <-> In q (paths [])
             \/ (In q [["videos"; "clip.mp4"]; ["videos"; "notes.txt"];
                       ["videos"; "gone.MP4"]; ["videos"; "clip.mp4"]]
                 /\ lower (suffix q) = ".mp4" /\ exists_at q Ex.disk = true))
  /\ NoDup (paths (dropEvent Ex.disk
                     [["videos"; "clip.mp4"]; ["videos"; "notes.txt"];
                      ["videos"; "gone.MP4"]; ["videos"; "clip.mp4"]] [])).
Proof.
  apply (X18_drop_lists_existing_mp4_files_once Ex.disk
           [["videos"; "clip.mp4"]; ["videos"; "notes.txt"]; ["videos"; "gone.MP4"];
            ["videos"; "clip.mp4"]] []).
  constructor.
Defined.

Lemma keep_rows_all :
  forall keep l i, (forall j, i <= j -> keep j = true) -> keep_rows keep i l = l.
Proof.
  intros keep l. induction l as [|it l IH]; intros i H; simpl; [reflexivity|].
  rewrite (H i) by lia. f_equal. apply IH. intros j Hj. apply H. lia.
Qed.

Lemma keep_rows_ext :
  forall f g l i, (forall j, i <= j -> f j = g j) -> keep_rows f i l = keep_rows g i l.
Proof.
  intros f g l. induction l as [|it l IH]; intros i H; simpl; [reflexivity|].
  rewrite (H i) by lia. rewrite (IH (S i)) by (intros j Hj; apply H; lia). reflexivity.
Qed.

Lemma keep_rows_takeItem :
  forall l r i keep,
    (forall j, i + r <= j -> keep j = true) ->
    keep_rows keep i (takeItem r l)
    = keep_rows (fun j => keep j && negb (j =? i + r)%nat) i l.
Proof.
  induction l as [|it l IH]; intros r i keep H; [destruct r; reflexivity|].
  destruct r as [|r]; cbn [takeItem keep_rows].
  - rewrite Nat.add_0_r, Nat.eqb_refl, andb_false_r.
    rewrite keep_rows_all by (intros j Hj; apply H; lia).
    symmetry. apply keep_rows_all. intros j Hj.
    rewrite H by lia. replace (j =? i)%nat with false; [reflexivity|].
    symmetry. apply Nat.eqb_neq. lia.
  - replace (i =? i + S r)%nat with false by (symmetry; apply Nat.eqb_neq; lia).
    rewrite andb_true_r.
    rewrite (IH r (S i) keep) by (intros j Hj; apply H; lia).
    rewrite (keep_rows_ext (fun j => keep j && negb (j =? S i + r)%nat)
                           (fun j => keep j && negb (j =? i + S r)%nat) l (S i))
      by (intros j _; rewrite Nat.add_succ_r; reflexivity).
    reflexivity.
Qed.

Lemma row_in_iff : forall rows j, row_in rows j = true <-> In j rows.
Proof.
  intros rows j. unfold row_in. rewrite existsb_exists. split.
  - intros (x & Hin & Hx). apply Nat.eqb_eq in Hx. subst x. exact Hin.
  - intros Hin. exists j. split; [exact Hin | apply Nat.eqb_refl].
Qed.

Lemma insert_desc_In :
  forall n l x, In x (insert_desc n l) <-> x = n \/ In x l.
Proof.
  intros n l x. induction l as [|m l IH]; simpl.
  - split; intros [H|H]; auto.
  - destruct (m <=? n)%nat; simpl; [split; intros [H|H]; auto|].
    rewrite IH. split; intros H; intuition.
Qed.

Lemma sorted_reverse_In : forall l x, In x (sorted_reverse l) <-> In x l.
Proof.
  intros l x. induction l as [|n l IH]; simpl; [reflexivity|].
  rewrite insert_desc_In, IH. split; intros [H|H]; auto.
Qed.

Lemma insert_desc_sorted :
  forall n l,
    ~ In n l ->
    StronglySorted (fun a b => b < a) l ->
    StronglySorted (fun a b => b < a) (insert_desc n l).
Proof.
  intros n l. induction l as [|m l IH]; intros Hn Hs; simpl.
  - constructor; constructor.
  - inversion Hs as [|? ? Hs' Hall]; subst.
    destruct (m <=? n)%nat eqn:E.
    + apply Nat.leb_le in E.
      assert (Hlt : m < n) by (assert (n <> m) by (intros ->; apply Hn; left; reflexivity); lia).
      constructor; [exact Hs|]. constructor; [exact Hlt|].
      rewrite Forall_forall in *. intros x Hx. specialize (Hall x Hx). lia.
    + apply Nat.leb_gt in E. constructor.
      * apply IH; [intros H; apply Hn; right; exact H | exact Hs'].
      * rewrite Forall_forall in *. intros x Hx. apply insert_desc_In in Hx.
        destruct Hx as [->|Hx]; [exact E | apply Hall; exact Hx].
Qed.

Lemma sorted_reverse_sorted :
  forall l, NoDup l -> StronglySorted (fun a b => b < a) (sorted_reverse l).
Proof.
  induction l as [|n l IH]; intros Hnd; simpl; [constructor|].
  inversion Hnd; subst. apply insert_desc_sorted; [| apply IH; assumption].
  rewrite sorted_reverse_In. assumption.
Qed.

Lemma takeItem_descending :
  forall rows,
    StronglySorted (fun a b => b < a) rows ->
    forall l,
      fold_left (fun acc i => takeItem i acc) rows l
      = keep_rows (fun j => negb (row_in rows j)) 0 l.
Proof.
  induction rows as [|r rows IH]; intros Hs l; cbn [fold_left].
  - symmetry. apply keep_rows_all. reflexivity.
  - inversion Hs as [|? ? Hs' Hall]; subst.
    rewrite (IH Hs').
    rewrite keep_rows_takeItem.
    + apply keep_rows_ext. intros j _. unfold row_in. cbn [existsb Nat.add].
      rewrite negb_orb. apply andb_comm.
    + intros j Hj. apply negb_true_iff. apply not_true_iff_false.
      rewrite row_in_iff. intros Hin.
      rewrite Forall_forall in Hall. specialize (Hall j Hin). simpl in Hj. lia.
Qed.

(** X19: removing the selection takes out exactly the selected rows.  For a
    selection of distinct rows, given in any order, [remove_selected] leaves
    the rows that are not selected, in the order they had; taking the rows
    out from the highest down is what keeps the lower row numbers valid. *)
Theorem X19_remove_selected_takes_out_the_selected_rows :
  forall selected l,
    NoDup selected ->
    remove_selected selected l = keep_rows (fun j => negb (row_in selected j)) 0 l.
Proof.
  intros selected l Hnd. unfold remove_selected.
  rewrite (takeItem_descending _ (sorted_reverse_sorted selected Hnd)).
  apply keep_rows_ext. intros j _. f_equal.
  destruct (row_in selected j) eqn:E.
  - apply row_in_iff. apply (proj2 (sorted_reverse_In selected j)).
    apply row_in_iff. exact E.
  - apply not_true_iff_false. intros H.
    pose proof (proj2 (row_in_iff selected j)
                  (proj1 (sorted_reverse_In selected j) (proj1 (row_in_iff _ j) H))) as H'.
    congruence.
Qed.

Lemma X19_remove_selected_takes_out_the_selected_rows_witness :
  remove_selected [0; 2]
    [item_of ["videos"; "a.mp4"]; item_of ["videos"; "b.mp4"]; item_of ["videos"; "c.mp4"]]
  = keep_rows (fun j => negb (row_in [0; 2] j)) 0
      [item_of ["videos"; "a.mp4"]; item_of ["videos"; "b.mp4"]; item_of ["videos"; "c.mp4"]].
Proof.
  apply (X19_remove_selected_takes_out_the_selected_rows [0; 2]
           [item_of ["videos"; "a.mp4"]; item_of ["videos"; "b.mp4"];
            item_of ["videos"; "c.mp4"]]).
  repeat constructor; simpl; intuition discriminate.
Defined.

(** ** The window (main.py:346-517) *)

(** X20: Convert starts a batch exactly when the button is meant to be
    enabled.  When [update_convert_enabled] would disable the button (no
    row, or no output folder) [start_convert] changes nothing; otherwise it
    starts a thread with one job per row, in the order of the rows, each
    with the row's path as source and with the same output folder, policy
    flags and segment length, and it disables the button, empties the log
    pane and puts the overall bar at 0. *)
Theorem X20_convert_starts_exactly_when_enabled :
  forall w : MainWindow.Window,
    let ok := MainWindow.btn_convert_enabled (MainWindow.update_convert_enabled w) in
    let w' := MainWindow.start_convert w in
    (ok = false -> w' = w)
    /\ (ok = true ->
        exists dest jobs,
          MainWindow.out_dir w = Some dest
          /\ MainWindow.worker w' = Some jobs
          /\ jobs <> []
          /\ map src jobs = paths (MainWindow.drop w)
          /\ Forall (fun j => out_root j = dest
                              /\ skip_if_incompatible j = MainWindow.chk_skip w
                              /\ enable_transcode_if_needed j = MainWindow.chk_trans w
                              /\ segment_seconds j = MainWindow.segment_input w) jobs
          /\ MainWindow.btn_convert_enabled w' = false
          /\ MainWindow.log w' = []
          /\ MainWindow.progress_all w' = 0%Z).
Proof.
  intros w ok w'. subst ok w'.
  unfold MainWindow.update_convert_enabled, MainWindow.start_convert.
  cbn [MainWindow.btn_convert_enabled].
  destruct (MainWindow.out_dir w) as [dest|].
  - destruct (MainWindow.drop w) as [|it l] eqn:Hdrop; cbn [List.length Nat.eqb Nat.ltb Nat.leb andb].
    + split; [reflexivity | discriminate].
    + split; [discriminate|]. intros _.
      exists dest, (MainWindow.jobs_of w dest).
      cbn [MainWindow.worker MainWindow.btn_convert_enabled MainWindow.log
           MainWindow.progress_all MainWindow.setValue].
      split; [reflexivity|]. split; [reflexivity|].
      unfold MainWindow.jobs_of, paths. rewrite Hdrop.
      split; [discriminate|]. split.
      { rewrite map_map. reflexivity. }
      split.
      { apply Forall_forall. intros j Hj. apply in_map_iff in Hj.
        destruct Hj as (it' & <- & _). cbn. auto. }
      split; [reflexivity|]. split; reflexivity.
  - rewrite andb_false_r. split; [reflexivity | discriminate].
Qed.

Lemma run_emitted :
  forall env jobs w,
    emitted (run env jobs w)
    = match find_ffmpeg_binaries env with
      | Ok (ffmpeg, ffprobe) =>
          emitted (run_jobs env ffmpeg ffprobe (List.length jobs) 1 jobs w)
      | Raise e => [sig_log ("ERROR: " ++ exn_str e)%string]
      end ++ [sig_all_done].
Proof.
  intros env jobs w. unfold run.
  destruct (find_ffmpeg_binaries env) as [[ffmpeg ffprobe]|e]; [|reflexivity].
  rewrite emitted_bind.
  destruct (run_jobs_events env ffmpeg ffprobe (List.length jobs) jobs 1 w) as [Hres _].
  rewrite Hres. reflexivity.
Qed.

Lemma deliver_progress :
  forall evs w,
    MainWindow.progress_all (fold_left MainWindow.deliver evs w)
    = fold_left (fun v p => if ((0 <=? p) && (p <=? 100))%Z then p else v)
                (overall evs) (MainWindow.progress_all w).
Proof.
  induction evs as [|e evs IH]; intros w; [reflexivity|].
  cbn [fold_left]. rewrite IH.
  destruct e; cbn [overall flat_map app MainWindow.deliver]; try reflexivity.
  fold (overall evs). cbn [fold_left]. unfold MainWindow.setValue.
  destruct (_ && _); reflexivity.
Qed.

Lemma deliver_drop :
  forall evs w, MainWindow.drop (fold_left MainWindow.deliver evs w) = MainWindow.drop w.
Proof.
  induction evs as [|e evs IH]; intros w; [reflexivity|].
  cbn [fold_left]. rewrite IH.
  destruct e; cbn [MainWindow.deliver]; try reflexivity.
  unfold MainWindow.setValue. destruct (_ && _); reflexivity.
Qed.

Lemma bar_reaches_100 :
  forall n v,
    0 < n ->
    fold_left (fun v p => if ((0 <=? p) && (p <=? 100))%Z then p else v)
              (map (fun k => (Z.of_nat k * 100 / Z.of_nat n)%Z) (seq 1 n)) v
    = 100%Z.
Proof.
  intros n v Hn. destruct n as [|k]; [lia|].
  rewrite seq_S, map_app, fold_left_app. cbn [map fold_left]. simpl Nat.add.
  rewrite (Z.mul_comm (Z.of_nat (S k)) 100), Z.div_mul by lia. reflexivity.
Qed.

(** X21: when the batch is over the window is ready for the next one.
    After a click on an enabled Convert button and the handling of every
    signal of the thread it starts, the button is enabled again, the status
    bar is cleared, the last paragraph of the log is the closing line and
    the rows are the ones there were.  If both binaries were found and the
    batch was not cancelled the overall bar stands at 100; if a binary was
    missing it stands at 0 and the log holds the error and the closing
    line only. *)
Theorem X21_window_after_a_batch :
  forall env disk w,
    MainWindow.btn_convert_enabled (MainWindow.update_convert_enabled w) = true ->
    let final := MainWindow.session env disk w in
    MainWindow.btn_convert_enabled final = true
    /\ MainWindow.status_message final = None
    /\ last (MainWindow.log final) EmptyString = "Semua pekerjaan selesai."
    /\ MainWindow.drop final = MainWindow.drop w
    /\ (forall bins,
          find_ffmpeg_binaries env = Ok bins ->
          (forall k, stop_flag env k = false) ->
          MainWindow.progress_all final = 100%Z)
    /\ (forall e,
          find_ffmpeg_binaries env = Raise e ->
          MainWindow.progress_all final = 0%Z
          /\ MainWindow.log final
             = [("ERROR: " ++ exn_str e)%string; "Semua pekerjaan selesai."]).
Proof.
  intros env disk w Hok final. subst final.
  unfold MainWindow.update_convert_enabled in Hok. cbn [MainWindow.btn_convert_enabled] in Hok.
  apply andb_true_iff in Hok. destruct Hok as [Hrows Hdest].
  apply Nat.ltb_lt in Hrows.
  unfold MainWindow.session.
  destruct (MainWindow.out_dir w) as [dest|] eqn:Hout; [|discriminate].
  destruct (List.length (MainWindow.drop w) =? 0)%nat eqn:E;
    [apply Nat.eqb_eq in E; lia|].
  assert (Hstart : MainWindow.progress_all (MainWindow.start_convert w) = 0%Z
                   /\ MainWindow.log (MainWindow.start_convert w) = []
                   /\ MainWindow.drop (MainWindow.start_convert w) = MainWindow.drop w).
  { unfold MainWindow.start_convert. rewrite Hout, E. cbn. auto. }
  destruct Hstart as (Hbar & Hlog & Hdrop).
  set (w1 := MainWindow.start_convert w) in *.
  set (jobs := MainWindow.jobs_of w dest).
  assert (Hlen : List.length jobs = List.length (MainWindow.drop w))
    by (subst jobs; unfold MainWindow.jobs_of; apply length_map).
  rewrite run_emitted, fold_left_app. cbn [fold_left MainWindow.deliver].
  set (evs := match find_ffmpeg_binaries env with
              | Ok (ffmpeg, ffprobe) =>
                  emitted (run_jobs env ffmpeg ffprobe (List.length jobs) 1 jobs disk)
              | Raise e => [sig_log ("ERROR: " ++ exn_str e)%string]
              end).
  split; [reflexivity|]. split; [reflexivity|]. split.
  { unfold MainWindow._on_all_done, MainWindow._log. cbn [MainWindow.log].
    apply last_last. }
  split.
  { unfold MainWindow._on_all_done, MainWindow._log. cbn [MainWindow.drop].
    rewrite deliver_drop. exact Hdrop. }
  split.
  - intros [ffmpeg ffprobe] Hbins Hnever.
    unfold MainWindow._on_all_done, MainWindow._log. cbn [MainWindow.progress_all].
    rewrite deliver_progress, Hbar. subst evs. rewrite Hbins.
    destruct (run_jobs_events env ffmpeg ffprobe (List.length jobs) jobs 1 disk)
      as (_ & m & _ & _ & Hov & _ & _ & Hall).
    rewrite Hov, (Hall Hnever). apply bar_reaches_100. lia.
  - intros e He. subst evs. rewrite He. cbn [fold_left MainWindow.deliver].
    unfold MainWindow._on_all_done, MainWindow._log.
    cbn [MainWindow.progress_all MainWindow.log]. rewrite Hbar, Hlog. auto.
Qed.

Lemma X21_window_after_a_batch_witness :
  MainWindow.btn_convert_enabled
    (MainWindow.session (Ex.env_with true Ex.meta_h264 [] 0 Ex.never)
                        (Ex.w0 Ex.disk) More.window) = true
  /\ MainWindow.progress_all
       (MainWindow.session (Ex.env_with true Ex.meta_h264 [] 0 Ex.never)
                           (Ex.w0 Ex.disk) More.window) = 100%Z.
Proof.
  pose proof (X21_window_after_a_batch (Ex.env_with true Ex.meta_h264 [] 0 Ex.never)
                (Ex.w0 Ex.disk) More.window eq_refl) as (H1 & _ & _ & _ & H5 & _).
  split; [exact H1|].
  apply (H5 ("/usr/bin/ffmpeg", "/usr/bin/ffprobe")); reflexivity.
Defined.

(** ** The programs a batch starts (main.py:93-105, 197-217) *)

Lemma _process_one_programs :
  forall env ffmpeg ffprobe job w,
    let evs := emitted (_process_one env ffmpeg ffprobe job w) in
    (forall argv, In argv (prober_calls evs) ->
                  argv = ffprobe_cmd ffprobe (path_str (src job)))
    /\ (forall argv, In argv (encoder_calls evs) ->
                     exists hls_ok, argv = build_args ffmpeg job (out_dir_of job) hls_ok).
Proof.
  intros env ffmpeg ffprobe job w evs. subst evs.
  unfold _process_one. rewrite emitted_bind.
  destruct (probing_spec env ffprobe job w) as [(e & _ & He & Hem)|(_ & _ & Hem & _)].
  - rewrite He, Hem. simpl. split; intros argv [].
  - rewrite Hem. destruct (res (probing env ffprobe job w)) as [[d h]|e].
    + rewrite prober_calls_app, encoder_calls_app, convert_runs_no_prober.
      cbn [fst snd prober_calls encoder_calls flat_map app].
      fold (encoder_calls (emitted (convert env ffmpeg job d h (world (probing env ffprobe job w))))).
      split.
      * intros argv [H|[]]. symmetry. exact H.
      * intros argv Hin. destruct (skips job h) eqn:Hs.
        -- rewrite (convert_skips env ffmpeg job d h _ Hs) in Hin. destruct Hin.
        -- destruct (convert_encodes env ffmpeg job d h
                       (world (probing env ffprobe job w)) Hs) as [Hc _].
           rewrite Hc in Hin. destruct Hin as [H|[]]. exists h. symmetry. exact H.
    + simpl. split; [intros argv [H|[]]; symmetry; exact H | intros argv []].
Qed.

Lemma run_jobs_programs :
  forall env ffmpeg ffprobe total jobs i w,
    let evs := emitted (run_jobs env ffmpeg ffprobe total i jobs w) in
    (forall argv, In argv (prober_calls evs) ->
                  exists job, In job jobs /\ argv = ffprobe_cmd ffprobe (path_str (src job)))
    /\ (forall argv, In argv (encoder_calls evs) ->
                     exists job hls_ok,
                       In job jobs /\ argv = build_args ffmpeg job (out_dir_of job) hls_ok).
Proof.
  intros env ffmpeg ffprobe total jobs.
  induction jobs as [|job rest IH]; intros i w; simpl.
  - split; intros argv [].
  - destruct (stop_flag env i); [simpl; split; intros argv []|].
    rewrite (bind_Ok _ _ _ _ _ tt) by (rewrite run_job_eq; reflexivity).
    rewrite run_job_eq. cbn [res world emitted].
    set (o1 := _process_one env ffmpeg ffprobe job w).
    destruct (IH (S i) (world o1)) as [IHp IHe].
    destruct (_process_one_programs env ffmpeg ffprobe job w) as [Hp He].
    fold o1 in Hp, He.
    destruct (report_of_calls (name (src job)) (res o1)) as [Hr1 Hr2].
    split; intros argv Hin.
    + rewrite !prober_calls_app, Hr1 in Hin. simpl in Hin. rewrite app_nil_r in Hin.
      apply in_app_or in Hin. destruct Hin as [Hin|Hin].
      * exists job. split; [left; reflexivity | apply Hp; exact Hin].
      * destruct (IHp argv Hin) as (j & Hj & Heq). exists j. split; [right; exact Hj | exact Heq].
    + rewrite !encoder_calls_app, Hr2 in Hin. simpl in Hin. rewrite app_nil_r in Hin.
      apply in_app_or in Hin. destruct Hin as [Hin|Hin].
      * destruct (He argv Hin) as [h Heq]. exists job, h. split; [left; reflexivity | exact Heq].
      * destruct (IHe argv Hin) as (j & h & Hj & Heq).
        exists j, h. split; [right; exact Hj | exact Heq].
Qed.

(** X22: a batch starts nothing but the two binaries found, on the files of
    its jobs.  Every run of the prober is the fixed [ffprobe] command line
    on the source of one of the jobs, with the [ffprobe] found; every start
    of the encoder is the command line built for one of the jobs, with the
    [ffmpeg] found, in its stream-copy or its transcode form. *)
Theorem X22_only_the_binaries_found_on_the_jobs_files :
  forall env jobs w ffmpeg ffprobe,
    find_ffmpeg_binaries env = Ok (ffmpeg, ffprobe) ->
    (forall argv,
        In argv (prober_calls (emitted (run env jobs w))) ->
        exists job, In job jobs /\ argv = ffprobe_cmd ffprobe (path_str (src job)))
    /\ (forall argv,
           In argv (encoder_calls (emitted (run env jobs w))) ->
           exists (job : Job) (hls_ok : bool),
             In job jobs
             /\ argv = input_args ffmpeg job
                       ++ (if hls_ok then copy_args else transcode_args)
                       ++ output_args job (out_dir_of job)).
Proof.
  intros env jobs w ffmpeg ffprobe Hbins.
  rewrite run_emitted, Hbins, prober_calls_app, encoder_calls_app. simpl.
  rewrite !app_nil_r.
  destruct (run_jobs_programs env ffmpeg ffprobe (List.length jobs) jobs 1 w) as [Hp He].
  split; [exact Hp|]. intros argv Hin. exact (He argv Hin).
Qed.

Lemma X22_only_the_binaries_found_on_the_jobs_files_witness :
  (forall argv,
      In argv (prober_calls (emitted (run (Ex.env_with true Ex.meta_h264 [] 0 Ex.never)
                                          [Ex.job false true] (Ex.w0 Ex.disk)))) ->
      exists job,
        In job [Ex.job false true]
        /\ argv = ffprobe_cmd "/usr/bin/ffprobe" (path_str (src job)))
  /\ (forall argv,
         In argv (encoder_calls (emitted (run (Ex.env_with true Ex.meta_h264 [] 0 Ex.never)
                                             [Ex.job false true] (Ex.w0 Ex.disk)))) ->
         exists (job : Job) (hls_ok : bool),
           In job [Ex.job false true]
           /\ argv = input_args "/usr/bin/ffmpeg" job
                     ++ (if hls_ok then copy_args else transcode_args)
                     ++ output_args job (out_dir_of job)).
Proof.
  apply (X22_only_the_binaries_found_on_the_jobs_files
           (Ex.env_with true Ex.meta_h264 [] 0 Ex.never)
           [Ex.job false true] (Ex.w0 Ex.disk) "/usr/bin/ffmpeg" "/usr/bin/ffprobe").
  reflexivity.
Defined.
